(** * StreamFlix backend: a shallow embedding of [backend/server.py]

    The request handlers of the FastAPI service are embedded as functions
    in a small state-and-error monad over the four MongoDB collections
    ([db.users], [db.profiles], [db.movies], [db.view_progress]).

    Conventions of the embedding:
    - a collection is the list of its documents in natural (insertion)
      order; [find_one], [update_one] and [delete_one] act on the first
      document that satisfies the filter;
    - [uuid.uuid4()] and [datetime.now(timezone.utc)] are inputs of the
      handler that calls them (a fresh id, the current time in seconds);
    - [raise HTTPException(status_code, detail)] is the [Raise] outcome;
    - [bcrypt] is an interface ([Bcrypt]); a JWT signed with [JWT_SECRET]
      is its payload ([Signed]), anything else is [Malformed]. *)

From Stdlib Require Import List String Ascii ZArith Bool Lia Arith.
From Stdlib Require Import Permutation Sorted.
From Stdlib Require QArith.
Import ListNotations.

Open Scope string_scope.
Open Scope list_scope.
Open Scope Z_scope.

(* ================================================================= *)
(** ** Enums *)

Inductive UserRole := USER | ADMIN.

Inductive MaturityRating := G | PG | PG13 | R | NC17.

Inductive MovieCategory :=
| ACTION | COMEDY | DRAMA | HORROR | SCI_FI
| ROMANCE | THRILLER | DOCUMENTARY | ANIMATION | FAMILY.

(** The enums are [str] enums: a document stores, and a query compares,
    the string value. *)
Definition MovieCategory_value (c : MovieCategory) : string :=
  match c with
  | ACTION => "action" | COMEDY => "comedy" | DRAMA => "drama"
  | HORROR => "horror" | SCI_FI => "sci-fi" | ROMANCE => "romance"
  | THRILLER => "thriller" | DOCUMENTARY => "documentary"
  | ANIMATION => "animation" | FAMILY => "family"
  end.

Definition datetime := Z.

(* ================================================================= *)
(** ** Pydantic models *)

Module User.
Record t := mk {
  id : string;
  email : string;
  password_hash : string;
  role : UserRole;
  profiles : list string;
  created_at : datetime;
  updated_at : datetime
}.
End User.

Module UserRegister.
Record t := mk { email : string; password : string }.
End UserRegister.

Module UserLogin.
Record t := mk { email : string; password : string }.
End UserLogin.

Module Profile.
Record t := mk {
  id : string;
  user_id : string;
  name : string;
  avatar : string;
  language : string;
  maturity_rating : MaturityRating;
  watch_history : list string;
  watchlist : list string;
  created_at : datetime
}.
End Profile.

Module ProfileCreate.
Record t := mk {
  name : string;
  avatar : string;
  language : string;
  maturity_rating : MaturityRating
}.
End ProfileCreate.

Module ProfileUpdate.
Record t := mk {
  name : option string;
  avatar : option string;
  language : option string;
  maturity_rating : option MaturityRating;
  watchlist : option (list string)
}.
End ProfileUpdate.

Module Movie.
Record t := mk {
  id : string;
  slug : string;
  title : string;
  description : string;
  category : MovieCategory;
  poster_url : string;
  backdrop_url : string;
  video_url : string;
  release_year : Z;
  rating : QArith_base.Q;
  duration_minutes : Z;
  tags : list string;
  languages : list string;
  i18n : list (string * list (string * string));
  created_at : datetime;
  updated_at : datetime
}.
End Movie.

Module MovieCreate.
Record t := mk {
  slug : string;
  title : string;
  description : string;
  category : MovieCategory;
  poster_url : string;
  backdrop_url : string;
  video_url : string;
  release_year : Z;
  rating : QArith_base.Q;
  duration_minutes : Z;
  tags : list string;
  languages : list string;
  i18n : list (string * list (string * string))
}.
End MovieCreate.

Module MovieUpdate.
Record t := mk {
  slug : option string;
  title : option string;
  description : option string;
  category : option MovieCategory;
  poster_url : option string;
  backdrop_url : option string;
  video_url : option string;
  release_year : option Z;
  rating : option QArith_base.Q;
  duration_minutes : option Z;
  tags : option (list string);
  languages : option (list string);
  i18n : option (list (string * list (string * string)))
}.
End MovieUpdate.

Module ViewProgress.
Record t := mk {
  id : string;
  profile_id : string;
  movie_id : string;
  progress_seconds : Z;
  completed : bool;
  last_watched : datetime
}.
End ViewProgress.

Module ViewProgressUpdate.
Record t := mk { progress_seconds : Z; completed : bool }.
End ViewProgressUpdate.

(** A bearer credential: the payload of a token signed with [JWT_SECRET]
    (its ["sub"] entry, if any, and its ["exp"]), or anything else. *)
Inductive Credentials :=
| Signed (sub : option string) (exp : datetime)
| Malformed.

Module TokenResponse.
Record t := mk {
  access_token : Credentials;
  refresh_token : Credentials;
  token_type : string
}.
End TokenResponse.

(* ================================================================= *)
(** ** The database and the handler monad *)

Record DB := mkDB {
  users : list User.t;
  profiles : list Profile.t;
  movies : list Movie.t;
  view_progress : list ViewProgress.t
}.

Inductive HTTPException := mkHTTPException (status_code : Z) (detail : string).

Inductive result (A : Type) :=
| Ok (a : A)
| Raise (e : HTTPException).
Arguments Ok {A} a.
Arguments Raise {A} e.

(** A handler reads and writes the database and either returns or raises;
    the writes made before a [raise] stay (there are no transactions). *)
Definition M (A : Type) : Type := DB -> result A * DB.

(** An exception that no handler catches ([AttributeError],
    [OverflowError], [TypeError]) reaches the client as the framework's
    500 answer. *)
Definition internal_error : HTTPException := mkHTTPException 500 "Internal Server Error".

(** The driver writes an integer in at most 8 bytes: encoding a document
    or a query that holds a larger one raises [OverflowError] before
    anything is sent to the store. *)
Definition int64 (z : Z) : bool := (- 2 ^ 63 <=? z) && (z <? 2 ^ 63).

Definition int64_opt (o : option Z) : bool :=
  match o with Some z => int64 z | None => true end.

Definition ret {A} (a : A) : M A := fun db => (Ok a, db).

Definition raise {A} (e : HTTPException) : M A := fun db => (Raise e, db).

Definition bind {A B} (m : M A) (k : A -> M B) : M B :=
  fun db =>
    match m db with
    | (Ok a, db') => k a db'
    | (Raise e, db') => (Raise e, db')
    end.

Notation "x <- m ;; k" := (bind m (fun x => k))
  (at level 61, m at next level, right associativity).
Notation "m ;;; k" := (bind m (fun _ => k))
  (at level 61, right associativity).

(** *** Collections *)

Record Collection (A : Type) := mkCollection {
  docs : DB -> list A;
  set_docs : list A -> DB -> DB
}.
Arguments docs {A} c db.
Arguments set_docs {A} c l db.

Definition db_users : Collection User.t :=
  mkCollection _ users
    (fun l db => mkDB l (profiles db) (movies db) (view_progress db)).

Definition db_profiles : Collection Profile.t :=
  mkCollection _ profiles
    (fun l db => mkDB (users db) l (movies db) (view_progress db)).

Definition db_movies : Collection Movie.t :=
  mkCollection _ movies
    (fun l db => mkDB (users db) (profiles db) l (view_progress db)).

Definition db_view_progress : Collection ViewProgress.t :=
  mkCollection _ view_progress
    (fun l db => mkDB (users db) (profiles db) (movies db) l).

(** The first document satisfying the filter is rewritten. *)
Fixpoint update_first {A} (q : A -> bool) (upd : A -> A) (c : list A) : list A :=
  match c with
  | [] => []
  | d :: c' => if q d then upd d :: c' else d :: update_first q upd c'
  end.

(** The first document satisfying the filter is removed. *)
Fixpoint delete_first {A} (q : A -> bool) (c : list A) : list A :=
  match c with
  | [] => []
  | d :: c' => if q d then c' else d :: delete_first q c'
  end.

Definition find_one {A} (c : Collection A) (q : A -> bool) : M (option A) :=
  fun db => (Ok (List.find q (docs c db)), db).

Definition insert_one {A} (c : Collection A) (d : A) : M unit :=
  fun db => (Ok tt, set_docs c (docs c db ++ [d]) db).

Definition update_one {A} (c : Collection A) (q : A -> bool) (upd : A -> A) : M unit :=
  fun db => (Ok tt, set_docs c (update_first q upd (docs c db)) db).

Definition delete_one {A} (c : Collection A) (q : A -> bool) : M unit :=
  fun db => (Ok tt, set_docs c (delete_first q (docs c db)) db).

(** [cursor.limit(n)] for a limit that is not negative: 0 means no
    limit. *)
Definition limit {A} (n : Z) (l : list A) : list A :=
  if n =? 0 then l else firstn (Z.to_nat n) l.

(** [cursor.sort(key, -1)]: descending on an integer key.  The sort is an
    insertion sort in which a document goes before the documents with the
    same key that came after it in the collection, so documents with
    equal keys keep their order. *)
Fixpoint insert_desc {A} (key : A -> Z) (x : A) (l : list A) : list A :=
  match l with
  | [] => [x]
  | y :: l' => if key y <=? key x then x :: y :: l' else y :: insert_desc key x l'
  end.

Fixpoint sort_desc {A} (key : A -> Z) (l : list A) : list A :=
  match l with
  | [] => []
  | x :: l' => insert_desc key x (sort_desc key l')
  end.

(** [v in xs] on a list of strings. *)
Definition mem (v : string) (xs : list string) : bool :=
  existsb (String.eqb v) xs.

(** [$pull]: every occurrence of the value leaves the array. *)
Definition pull (v : string) (xs : list string) : list string :=
  filter (fun x => negb (String.eqb x v)) xs.

Definition find {A} (c : Collection A) (q : A -> bool) : M (list A) :=
  fun db => (Ok (filter q (docs c db)), db).

(* ================================================================= *)
(** ** Utility functions *)

(** [bcrypt.hashpw(password, salt)] and [bcrypt.checkpw(password, hashed)]. *)
Class Bcrypt := {
  hashpw : string -> string -> string;
  checkpw : string -> string -> bool
}.

(** The salt is what [bcrypt.gensalt()] returned. *)
Definition hash_password `{Bcrypt} (salt : string) (password : string) : string :=
  hashpw password salt.

Definition verify_password `{Bcrypt} (password : string) (hashed : string) : bool :=
  checkpw password hashed.

Definition ACCESS_TOKEN_EXPIRE_MINUTES : Z := 30.
Definition REFRESH_TOKEN_EXPIRE_DAYS : Z := 7.

(** [data] is the ["sub"] entry of the payload; times are in seconds. *)
Definition create_access_token (now : datetime) (data : option string) : Credentials :=
  Signed data (now + ACCESS_TOKEN_EXPIRE_MINUTES * 60).

Definition create_refresh_token (now : datetime) (data : option string) : Credentials :=
  Signed data (now + REFRESH_TOKEN_EXPIRE_DAYS * 86400).

Inductive JWTError := ExpiredSignatureError | InvalidTokenError.

(** [jwt.decode]: the signature check, then the expiry check. *)
Definition jwt_decode (now : datetime) (c : Credentials) : JWTError + option string :=
  match c with
  | Signed sub exp => if exp <=? now then inl ExpiredSignatureError else inr sub
  | Malformed => inl InvalidTokenError
  end.

(** What the body of the [try] of [get_current_user] does. *)
Inductive TryOutcome :=
| Returns (user : User.t)
| RaisesExpiredSignature
| RaisesOther.

Definition get_current_user_try (now : datetime) (credentials : Credentials)
    (db : DB) : TryOutcome :=
  match jwt_decode now credentials with
  | inl ExpiredSignatureError => RaisesExpiredSignature
  | inl InvalidTokenError => RaisesOther
  | inr None => RaisesOther
  | inr (Some user_id) =>
      match List.find (fun u => User.id u =? user_id)%string (users db) with
      | None => RaisesOther
      | Some user => Returns user
      end
  end.

(** The first [except] clause catches [jwt.ExpiredSignatureError].  The
    second names [jwt.JWTError], which the token library imported as
    [jwt] does not define: for every other exception of the body (a
    token that does not decode, and the two 401 exceptions the body
    itself raises for a missing subject and an unknown user) evaluating
    that clause raises [AttributeError], which nothing catches. *)
Definition get_current_user (now : datetime) (credentials : Credentials) : M User.t :=
  fun db =>
    match get_current_user_try now credentials db with
    | Returns user => (Ok user, db)
    | RaisesExpiredSignature => (Raise (mkHTTPException 401 "Token expired"), db)
    | RaisesOther => (Raise internal_error, db)
    end.

Definition get_admin_user (current_user : User.t) : M User.t :=
  match User.role current_user with
  | ADMIN => ret current_user
  | USER => raise (mkHTTPException 403 "Admin access required")
  end.

(* ================================================================= *)
(** ** Authentication routes *)

Definition register `{Bcrypt} (new_id salt : string) (now : datetime)
    (user_data : UserRegister.t) : M TokenResponse.t :=
  existing_user <-
    find_one db_users (fun u => User.email u =? UserRegister.email user_data)%string ;;
  match existing_user with
  | Some _ => raise (mkHTTPException 400 "Email already registered")
  | None =>
      let user :=
        User.mk new_id (UserRegister.email user_data)
          (hash_password salt (UserRegister.password user_data))
          USER [] now now in
      insert_one db_users user ;;;
      let access_token := create_access_token now (Some (User.id user)) in
      let refresh_token := create_refresh_token now (Some (User.id user)) in
      ret (TokenResponse.mk access_token refresh_token "bearer")
  end.

Definition login `{Bcrypt} (now : datetime) (user_data : UserLogin.t) : M TokenResponse.t :=
  user <- find_one db_users (fun u => User.email u =? UserLogin.email user_data)%string ;;
  match user with
  | None => raise (mkHTTPException 401 "Invalid email or password")
  | Some user =>
      if negb (verify_password (UserLogin.password user_data) (User.password_hash user))
      then raise (mkHTTPException 401 "Invalid email or password")
      else
        let access_token := create_access_token now (Some (User.id user)) in
        let refresh_token := create_refresh_token now (Some (User.id user)) in
        ret (TokenResponse.mk access_token refresh_token "bearer")
  end.

Definition get_me (current_user : User.t) : M User.t := ret current_user.

(* ================================================================= *)
(** ** Profile routes *)

(** The filter [{"id": profile_id, "user_id": current_user.id}]. *)
Definition owned_by (profile_id : string) (current_user : User.t) (p : Profile.t) : bool :=
  (Profile.id p =? profile_id)%string && (Profile.user_id p =? User.id current_user)%string.

(** The filter [{"id": profile_id}]. *)
Definition has_profile_id (profile_id : string) (p : Profile.t) : bool :=
  (Profile.id p =? profile_id)%string.

Definition get_profiles (current_user : User.t) : M (list Profile.t) :=
  find db_profiles (fun p => Profile.user_id p =? User.id current_user)%string.

Definition push_profile (profile_id : string) (u : User.t) : User.t :=
  User.mk (User.id u) (User.email u) (User.password_hash u) (User.role u)
    (User.profiles u ++ [profile_id]) (User.created_at u) (User.updated_at u).

Definition pull_profile (profile_id : string) (u : User.t) : User.t :=
  User.mk (User.id u) (User.email u) (User.password_hash u) (User.role u)
    (pull profile_id (User.profiles u)) (User.created_at u) (User.updated_at u).

Definition create_profile (new_id : string) (now : datetime)
    (profile_data : ProfileCreate.t) (current_user : User.t) : M Profile.t :=
  let profile :=
    Profile.mk new_id (User.id current_user)
      (ProfileCreate.name profile_data) (ProfileCreate.avatar profile_data)
      (ProfileCreate.language profile_data)
      (ProfileCreate.maturity_rating profile_data) [] [] now in
  insert_one db_profiles profile ;;;
  update_one db_users (fun u => User.id u =? User.id current_user)%string
    (push_profile (Profile.id profile)) ;;;
  ret profile.

Definition or_else {A} (o : option A) (d : A) : A :=
  match o with Some v => v | None => d end.

Definition is_none {A} (o : option A) : bool :=
  match o with Some _ => false | None => true end.

(** [update_data] is empty when every field of the body is [None]. *)
Definition ProfileUpdate_is_empty (d : ProfileUpdate.t) : bool :=
  is_none (ProfileUpdate.name d) && is_none (ProfileUpdate.avatar d)
  && is_none (ProfileUpdate.language d) && is_none (ProfileUpdate.maturity_rating d)
  && is_none (ProfileUpdate.watchlist d).

(** [{"$set": update_data}]: the fields that are not [None] are overwritten. *)
Definition ProfileUpdate_set (d : ProfileUpdate.t) (p : Profile.t) : Profile.t :=
  Profile.mk (Profile.id p) (Profile.user_id p)
    (or_else (ProfileUpdate.name d) (Profile.name p))
    (or_else (ProfileUpdate.avatar d) (Profile.avatar p))
    (or_else (ProfileUpdate.language d) (Profile.language p))
    (or_else (ProfileUpdate.maturity_rating d) (Profile.maturity_rating p))
    (Profile.watch_history p)
    (or_else (ProfileUpdate.watchlist d) (Profile.watchlist p))
    (Profile.created_at p).

Definition update_profile (profile_id : string) (profile_data : ProfileUpdate.t)
    (current_user : User.t) : M Profile.t :=
  profile <- find_one db_profiles (owned_by profile_id current_user) ;;
  match profile with
  | None => raise (mkHTTPException 404 "Profile not found")
  | Some _ =>
      (if ProfileUpdate_is_empty profile_data then ret tt
       else update_one db_profiles (has_profile_id profile_id)
              (ProfileUpdate_set profile_data)) ;;;
      updated_profile <- find_one db_profiles (has_profile_id profile_id) ;;
      match updated_profile with
      | Some updated_profile => ret updated_profile
      | None => raise internal_error
      end
  end.

Definition delete_profile (profile_id : string) (current_user : User.t) : M string :=
  profile <- find_one db_profiles (owned_by profile_id current_user) ;;
  match profile with
  | None => raise (mkHTTPException 404 "Profile not found")
  | Some _ =>
      delete_one db_profiles (has_profile_id profile_id) ;;;
      update_one db_users (fun u => User.id u =? User.id current_user)%string
        (pull_profile profile_id) ;;;
      ret "Profile deleted successfully"
  end.

(* ================================================================= *)
(** ** Regular expressions of the movie search

    [{"$regex": search, "$options": "i"}] hands the search text to the
    store's regular-expression engine.  The embedding covers the patterns
    made of ordinary characters and the wildcard [.]; a pattern with any
    other metacharacter has no compiled form here. *)

Inductive atom := Lit (c : ascii) | AnyChar.

Definition regex := list atom.

Definition metachars : list ascii := list_ascii_of_string "\^$.|?*+()[]{}".

Definition is_meta (c : ascii) : bool := existsb (Ascii.eqb c) metachars.

Fixpoint regex_compile (p : list ascii) : option regex :=
  match p with
  | [] => Some []
  | c :: p' =>
      match regex_compile p' with
      | None => None
      | Some r =>
          if Ascii.eqb c "."%char then Some (AnyChar :: r)
          else if is_meta c then None
          else Some (Lit c :: r)
      end
  end.

(** Text within the embedding: every byte is an ASCII character.  On
    other text the engine folds case by rules the embedding leaves out. *)
Definition ascii_char (c : ascii) : bool := (nat_of_ascii c <? 128)%nat.

Definition ascii_text (s : string) : bool :=
  forallb ascii_char (list_ascii_of_string s).

(** Option [i] on ASCII text: letters are compared after folding upper
    case to lower. *)
Definition to_lower (c : ascii) : ascii :=
  let n := nat_of_ascii c in
  if ((65 <=? n) && (n <=? 90))%nat then ascii_of_nat (n + 32) else c.

Definition newline : ascii := ascii_of_nat 10.

Definition atom_matches (a : atom) (c : ascii) : bool :=
  match a with
  | Lit x => Ascii.eqb (to_lower x) (to_lower c)
  | AnyChar => negb (Ascii.eqb c newline)
  end.

(** The pattern matches a prefix of the subject. *)
Fixpoint match_here (r : regex) (s : list ascii) : bool :=
  match r, s with
  | [], _ => true
  | _ :: _, [] => false
  | a :: r', c :: s' => atom_matches a c && match_here r' s'
  end.

(** An unanchored pattern matches when it matches at some offset. *)
Fixpoint regex_search (r : regex) (s : list ascii) : bool :=
  match_here r s ||
  match s with
  | [] => false
  | _ :: s' => regex_search r s'
  end.

Definition regex_matches (r : regex) (s : string) : bool :=
  regex_search r (list_ascii_of_string s).

(* ================================================================= *)
(** ** Movie routes *)

(** The [query] dictionary of [get_movies]: an absent key is [None]. *)
Module MovieQuery.
Record t := mk {
  category : option MovieCategory;
  release_year : option Z;
  or_regex : option regex
}.
End MovieQuery.

Definition matches_query (q : MovieQuery.t) (m : Movie.t) : bool :=
  match MovieQuery.category q with
  | Some c => (MovieCategory_value (Movie.category m) =? MovieCategory_value c)%string
  | None => true
  end
  && match MovieQuery.release_year q with
     | Some y => Movie.release_year m =? y
     | None => true
     end
  && match MovieQuery.or_regex q with
     | Some r => regex_matches r (Movie.title m) || regex_matches r (Movie.description m)
     | None => true
     end.

(** Truthiness of the optional query parameters. *)
Definition truthy_category (category : option MovieCategory) : option MovieCategory :=
  match category with
  | Some c => if (MovieCategory_value c =? "")%string then None else Some c
  | None => None
  end.

Definition truthy_int (year : option Z) : option Z :=
  match year with
  | Some y => if y =? 0 then None else Some y
  | None => None
  end.

Definition truthy_str (search : option string) : option string :=
  match search with
  | Some s => if (s =? "")%string then None else Some s
  | None => None
  end.

(** [db.movies.find(query).limit(limit).to_list(length=None)]: the query
    and the limit are encoded first. *)
Definition find_movies (query : MovieQuery.t) (limit_ : Z) (db : DB)
    : result (list Movie.t) :=
  if int64_opt (MovieQuery.release_year query) && int64 limit_
  then Ok (limit limit_ (filter (matches_query query) (movies db)))
  else Raise internal_error.

(** The movies whose title and description are within the embedding. *)
Definition searchable (m : Movie.t) : bool :=
  ascii_text (Movie.title m) && ascii_text (Movie.description m).

(** [get_movies] only reads.  An absent [limit] query parameter takes the
    default of the signature.  [None] stands for a call outside the
    embedding: a negative limit (it asks the store for a single batch), a
    search text with a metacharacter other than [.] or with a character
    that is not ASCII, a search over a movie whose title or description
    is not ASCII. *)
Definition get_movies (category : option MovieCategory) (year : option Z)
    (search : option string) (limit_ : option Z) (db : DB)
    : option (result (list Movie.t)) :=
  let limit_ := or_else limit_ 50 in
  if limit_ <? 0 then None
  else
    match truthy_str search with
    | None =>
        let query := MovieQuery.mk (truthy_category category) (truthy_int year) None in
        Some (find_movies query limit_ db)
    | Some s =>
        match regex_compile (list_ascii_of_string s) with
        | None => None
        | Some r =>
            if ascii_text s && forallb searchable (movies db)
            then
              let query :=
                MovieQuery.mk (truthy_category category) (truthy_int year) (Some r) in
              Some (find_movies query limit_ db)
            else None
        end
    end.

(** The filter [{"$or": [{"id": movie_id}, {"slug": movie_id}]}]. *)
Definition id_or_slug (movie_id : string) (m : Movie.t) : bool :=
  (Movie.id m =? movie_id)%string || (Movie.slug m =? movie_id)%string.

Definition has_movie_id (movie_id : string) (m : Movie.t) : bool :=
  (Movie.id m =? movie_id)%string.

Definition has_slug (slug : string) (m : Movie.t) : bool :=
  (Movie.slug m =? slug)%string.

Definition get_movie (movie_id : string) : M Movie.t :=
  movie <- find_one db_movies (id_or_slug movie_id) ;;
  match movie with
  | None => raise (mkHTTPException 404 "Movie not found")
  | Some movie => ret movie
  end.

Definition Movie_of_create (new_id : string) (now : datetime) (d : MovieCreate.t) : Movie.t :=
  Movie.mk new_id (MovieCreate.slug d) (MovieCreate.title d) (MovieCreate.description d)
    (MovieCreate.category d) (MovieCreate.poster_url d) (MovieCreate.backdrop_url d)
    (MovieCreate.video_url d) (MovieCreate.release_year d) (MovieCreate.rating d)
    (MovieCreate.duration_minutes d) (MovieCreate.tags d) (MovieCreate.languages d)
    (MovieCreate.i18n d) now now.

Definition create_movie (new_id : string) (now : datetime)
    (movie_data : MovieCreate.t) (admin_user : User.t) : M Movie.t :=
  existing_movie <- find_one db_movies (has_slug (MovieCreate.slug movie_data)) ;;
  match existing_movie with
  | Some _ => raise (mkHTTPException 400 "Movie with this slug already exists")
  | None =>
      let movie := Movie_of_create new_id now movie_data in
      (if int64 (Movie.release_year movie) && int64 (Movie.duration_minutes movie)
       then insert_one db_movies movie
       else raise internal_error) ;;;
      ret movie
  end.

(** [{"$set": update_data}] with [update_data["updated_at"]] set to now. *)
Definition MovieUpdate_set (now : datetime) (d : MovieUpdate.t) (m : Movie.t) : Movie.t :=
  Movie.mk (Movie.id m)
    (or_else (MovieUpdate.slug d) (Movie.slug m))
    (or_else (MovieUpdate.title d) (Movie.title m))
    (or_else (MovieUpdate.description d) (Movie.description m))
    (or_else (MovieUpdate.category d) (Movie.category m))
    (or_else (MovieUpdate.poster_url d) (Movie.poster_url m))
    (or_else (MovieUpdate.backdrop_url d) (Movie.backdrop_url m))
    (or_else (MovieUpdate.video_url d) (Movie.video_url m))
    (or_else (MovieUpdate.release_year d) (Movie.release_year m))
    (or_else (MovieUpdate.rating d) (Movie.rating m))
    (or_else (MovieUpdate.duration_minutes d) (Movie.duration_minutes m))
    (or_else (MovieUpdate.tags d) (Movie.tags m))
    (or_else (MovieUpdate.languages d) (Movie.languages m))
    (or_else (MovieUpdate.i18n d) (Movie.i18n m))
    (Movie.created_at m) now.

Definition update_movie (now : datetime) (movie_id : string)
    (movie_data : MovieUpdate.t) (admin_user : User.t) : M Movie.t :=
  movie <- find_one db_movies (has_movie_id movie_id) ;;
  match movie with
  | None => raise (mkHTTPException 404 "Movie not found")
  | Some _ =>
      (if int64_opt (MovieUpdate.release_year movie_data)
          && int64_opt (MovieUpdate.duration_minutes movie_data)
       then update_one db_movies (has_movie_id movie_id)
              (MovieUpdate_set now movie_data)
       else raise internal_error) ;;;
      updated_movie <- find_one db_movies (has_movie_id movie_id) ;;
      match updated_movie with
      | Some updated_movie => ret updated_movie
      | None => raise internal_error
      end
  end.

Definition delete_movie (movie_id : string) (admin_user : User.t) : M string :=
  movie <- find_one db_movies (has_movie_id movie_id) ;;
  match movie with
  | None => raise (mkHTTPException 404 "Movie not found")
  | Some _ =>
      delete_one db_movies (has_movie_id movie_id) ;;;
      ret "Movie deleted successfully"
  end.

(* ================================================================= *)
(** ** View progress routes *)

(** One entry of the continue-watching answer:
    [{"movie": Movie, "progress": ViewProgress}]. *)
Module ContinueItem.
Record t := mk { movie : Movie.t; progress : ViewProgress.t }.
End ContinueItem.

(** The filter [{"profile_id": profile_id, "completed": False,
    "progress_seconds": {"$gt": 30}}]. *)
Definition in_progress (profile_id : string) (v : ViewProgress.t) : bool :=
  (ViewProgress.profile_id v =? profile_id)%string
  && negb (ViewProgress.completed v)
  && (30 <? ViewProgress.progress_seconds v).

(** The loop over [progress_list]: one movie lookup per record, the
    record is kept when the movie is found. *)
Fixpoint join_movies (progress_list : list ViewProgress.t) : M (list ContinueItem.t) :=
  match progress_list with
  | [] => ret []
  | progress :: rest =>
      movie <- find_one db_movies (has_movie_id (ViewProgress.movie_id progress)) ;;
      result <- join_movies rest ;;
      ret (match movie with
           | Some movie => ContinueItem.mk movie progress :: result
           | None => result
           end)
  end.

Definition get_continue_watching (profile_id : string) (current_user : User.t)
    : M (list ContinueItem.t) :=
  profile <- find_one db_profiles (owned_by profile_id current_user) ;;
  match profile with
  | None => raise (mkHTTPException 404 "Profile not found")
  | Some _ =>
      matching <- find db_view_progress (in_progress profile_id) ;;
      let progress_list := firstn 10 (sort_desc ViewProgress.last_watched matching) in
      join_movies progress_list
  end.

(** The filter [{"profile_id": profile_id, "movie_id": movie_id}]. *)
Definition for_pair (profile_id movie_id : string) (v : ViewProgress.t) : bool :=
  (ViewProgress.profile_id v =? profile_id)%string
  && (ViewProgress.movie_id v =? movie_id)%string.

Definition has_progress_id (id : string) (v : ViewProgress.t) : bool :=
  (ViewProgress.id v =? id)%string.

Definition set_progress (now : datetime) (d : ViewProgressUpdate.t) (v : ViewProgress.t)
    : ViewProgress.t :=
  ViewProgress.mk (ViewProgress.id v) (ViewProgress.profile_id v) (ViewProgress.movie_id v)
    (ViewProgressUpdate.progress_seconds d) (ViewProgressUpdate.completed d) now.

Definition push_watch_history (movie_id : string) (p : Profile.t) : Profile.t :=
  Profile.mk (Profile.id p) (Profile.user_id p) (Profile.name p) (Profile.avatar p)
    (Profile.language p) (Profile.maturity_rating p)
    (Profile.watch_history p ++ [movie_id]) (Profile.watchlist p) (Profile.created_at p).

Definition update_view_progress (new_id : string) (now : datetime)
    (movie_id profile_id : string) (progress_data : ViewProgressUpdate.t)
    (current_user : User.t) : M string :=
  profile <- find_one db_profiles (owned_by profile_id current_user) ;;
  match profile with
  | None => raise (mkHTTPException 404 "Profile not found")
  | Some profile =>
      movie <- find_one db_movies (has_movie_id movie_id) ;;
      match movie with
      | None => raise (mkHTTPException 404 "Movie not found")
      | Some _ =>
          progress <- find_one db_view_progress (for_pair profile_id movie_id) ;;
          match progress with
          | Some progress =>
              if int64 (ViewProgressUpdate.progress_seconds progress_data)
              then
                update_one db_view_progress
                  (has_progress_id (ViewProgress.id progress))
                  (set_progress now progress_data)
              else raise internal_error
          | None =>
              let new_progress :=
                ViewProgress.mk new_id profile_id movie_id
                  (ViewProgressUpdate.progress_seconds progress_data)
                  (ViewProgressUpdate.completed progress_data) now in
              if int64 (ViewProgress.progress_seconds new_progress)
              then insert_one db_view_progress new_progress
              else raise internal_error
          end ;;;
          (if negb (mem movie_id (Profile.watch_history profile))
           then update_one db_profiles (has_profile_id profile_id)
                  (push_watch_history movie_id)
           else ret tt) ;;;
          ret "Progress updated successfully"
      end
  end.

(* ================================================================= *)
(** ** Watchlist routes *)

Definition push_watchlist (movie_id : string) (p : Profile.t) : Profile.t :=
  Profile.mk (Profile.id p) (Profile.user_id p) (Profile.name p) (Profile.avatar p)
    (Profile.language p) (Profile.maturity_rating p)
    (Profile.watch_history p) (Profile.watchlist p ++ [movie_id]) (Profile.created_at p).

Definition pull_watchlist (movie_id : string) (p : Profile.t) : Profile.t :=
  Profile.mk (Profile.id p) (Profile.user_id p) (Profile.name p) (Profile.avatar p)
    (Profile.language p) (Profile.maturity_rating p)
    (Profile.watch_history p) (pull movie_id (Profile.watchlist p)) (Profile.created_at p).

Definition get_watchlist (profile_id : string) (current_user : User.t) : M (list Movie.t) :=
  profile <- find_one db_profiles (owned_by profile_id current_user) ;;
  match profile with
  | None => raise (mkHTTPException 404 "Profile not found")
  | Some profile =>
      let watchlist_ids := Profile.watchlist profile in
      match watchlist_ids with
      | [] => ret []
      | _ => find db_movies (fun m => mem (Movie.id m) watchlist_ids)
      end
  end.

Definition add_to_watchlist (profile_id movie_id : string) (current_user : User.t)
    : M string :=
  profile <- find_one db_profiles (owned_by profile_id current_user) ;;
  match profile with
  | None => raise (mkHTTPException 404 "Profile not found")
  | Some profile =>
      movie <- find_one db_movies (has_movie_id movie_id) ;;
      match movie with
      | None => raise (mkHTTPException 404 "Movie not found")
      | Some _ =>
          let watchlist := Profile.watchlist profile in
          if negb (mem movie_id watchlist)
          then
            update_one db_profiles (has_profile_id profile_id)
              (push_watchlist movie_id) ;;;
            ret "Added to watchlist"
          else ret "Already in watchlist"
      end
  end.

Definition remove_from_watchlist (profile_id movie_id : string) (current_user : User.t)
    : M string :=
  profile <- find_one db_profiles (owned_by profile_id current_user) ;;
  match profile with
  | None => raise (mkHTTPException 404 "Profile not found")
  | Some _ =>
      update_one db_profiles (has_profile_id profile_id) (pull_watchlist movie_id) ;;;
      ret "Removed from watchlist"
  end.

Definition check_watchlist_status (profile_id movie_id : string) (current_user : User.t)
    : M bool :=
  profile <- find_one db_profiles (owned_by profile_id current_user) ;;
  match profile with
  | None => raise (mkHTTPException 404 "Profile not found")
  | Some profile => ret (mem movie_id (Profile.watchlist profile))
  end.

(* ================================================================= *)
(** ** Predicates of the statements *)

(** Ids come from [uuid.uuid4()]: no two documents of a collection share one. *)
Definition unique_profile_ids (db : DB) : Prop :=
  NoDup (map Profile.id (profiles db)).

Definition unique_progress_ids (db : DB) : Prop :=
  NoDup (map ViewProgress.id (view_progress db)).

Definition unique_slugs (db : DB) : Prop :=
  NoDup (map Movie.slug (movies db)).

(** Number of progress records of a (profile, movie) pair. *)
Definition count_pair (profile_id movie_id : string) (vs : list ViewProgress.t) : nat :=
  List.length (filter (for_pair profile_id movie_id) vs).

Definition one_record_per_pair (vs : list ViewProgress.t) : Prop :=
  forall profile_id movie_id, (count_pair profile_id movie_id vs <= 1)%nat.

(** Descending order on an integer key. *)
Definition desc_by {A} (key : A -> Z) (x y : A) : Prop := key y <= key x.

(** Most recently watched first. *)
Definition recent_first : ViewProgress.t -> ViewProgress.t -> Prop :=
  desc_by ViewProgress.last_watched.

(** The search text as the specification reads it: [needle] occurs in
    [hay] once both are folded to lower case. *)
Definition icontains (needle hay : string) : Prop :=
  exists pre post,
    map to_lower (list_ascii_of_string hay)
    = pre ++ map to_lower (list_ascii_of_string needle) ++ post.

(** A search text without regular-expression metacharacters. *)
Definition plain_text (s : string) : Prop :=
  forallb (fun c => negb (is_meta c)) (list_ascii_of_string s) = true.

(** The progress records paired with the movie each one refers to, the
    records of a movie that no longer exists left out. *)
Definition joined (ms : list Movie.t) (vs : list ViewProgress.t) : list ContinueItem.t :=
  flat_map
    (fun v =>
       match List.find (has_movie_id (ViewProgress.movie_id v)) ms with
       | Some m => [ContinueItem.mk m v]
       | None => []
       end) vs.

(** The records of the profile that qualify for the continue-watching
    list and were watched no earlier than [v]. *)
Definition watched_since (profile_id : string) (v : ViewProgress.t)
    (vs : list ViewProgress.t) : list ViewProgress.t :=
  filter
    (fun w => in_progress profile_id w
              && (ViewProgress.last_watched v <=? ViewProgress.last_watched w))
    vs.

(** What a listing with a plain search text is to select: the text occurs
    in the title or the description, and the category and the year agree
    when a filter on them is in force. *)
Definition wanted (category : option MovieCategory) (year : option Z)
    (search : string) (m : Movie.t) : Prop :=
  (icontains search (Movie.title m) \/ icontains search (Movie.description m))
  /\ (forall c, category = Some c -> Movie.category m = c)
  /\ (forall y, year = Some y -> y <> 0 -> Movie.release_year m = y).

(* ================================================================= *)
(** ** Sample data *)

Module Sample.
(** A stand-in for bcrypt, enough to run the handlers on examples. *)
Definition toy_bcrypt : Bcrypt :=
  {| hashpw := fun password salt => String.append "$" password;
     checkpw := fun password hashed => (hashed =? String.append "$" password)%string |}.

Definition alice : User.t :=
  User.mk "u-alice" "alice@example.com" "$wonderland" USER ["p-alice"] 0 0.

Definition bob : User.t :=
  User.mk "u-bob" "bob@example.com" "$builder" USER [] 0 0.

Definition admin : User.t :=
  User.mk "u-admin" "admin@streamflix.com" "$admin123" ADMIN [] 0 0.

Definition alice_profile : Profile.t :=
  Profile.mk "p-alice" "u-alice" "Alice" "default" "en" PG13 [] [] 0.

Definition bunny : Movie.t :=
  Movie.mk "m-bunny" "big-buck-bunny" "Big Buck Bunny"
    "A large and lovable rabbit deals with three tiny bullies."
    ANIMATION "poster" "backdrop" "video" 2008 (QArith_base.Qmake 7 1) 10
    ["animation"] ["en"] [] 0 0.

Definition sintel : Movie.t :=
  Movie.mk "m-sintel" "sintel" "Sintel"
    "A lonely young woman searches for her dragon."
    ANIMATION "poster" "backdrop" "video" 2010 (QArith_base.Qmake 8 1) 15
    ["fantasy"] ["en"] [] 0 0.

Definition db0 : DB :=
  mkDB [alice; bob; admin] [alice_profile] [bunny; sintel] [].

Definition no_profiles : DB :=
  mkDB [alice; bob; admin] [] [bunny; sintel] [].

Definition rename : ProfileUpdate.t :=
  ProfileUpdate.mk (Some "Mallory") None None None None.

(** Alice watched fifteen seconds of the first movie. *)
Definition glimpse : ViewProgress.t :=
  ViewProgress.mk "v-1" "p-alice" "m-bunny" 15 false 100.

Definition db_watching : DB :=
  mkDB [alice; bob; admin] [alice_profile] [bunny; sintel] [glimpse].

(** Later she came back and watched on. *)
Definition resumed : ViewProgress.t :=
  ViewProgress.mk "v-1" "p-alice" "m-bunny" 450 false 200.

Definition db_resumed : DB :=
  mkDB [alice; bob; admin] [alice_profile] [bunny; sintel] [resumed].

(** Two movies, the slug of the first being the id of the second. *)
Definition first : Movie.t :=
  Movie.mk "m-1" "m-2" "First" "The first movie" DRAMA "poster" "backdrop" "video"
    2020 (QArith_base.Qmake 5 1) 90 [] [] [] 0 0.

Definition second : Movie.t :=
  Movie.mk "m-2" "second" "Second" "The second movie" DRAMA "poster" "backdrop"
    "video" 2021 (QArith_base.Qmake 6 1) 95 [] [] [] 0 0.

Definition db_shadow : DB := mkDB [admin] [] [first; second] [].

(** A movie with no full stop in its title or description. *)
Definition dragon : Movie.t :=
  Movie.mk "m-dragon" "dragon" "Sintel" "A girl and her dragon" ANIMATION
    "poster" "backdrop" "video" 2010 (QArith_base.Qmake 8 1) 15 [] [] [] 0 0.

Definition db_dragon : DB := mkDB [] [] [dragon] [].

Definition new_movie (slug title : string) : MovieCreate.t :=
  MovieCreate.mk slug title "A movie" DRAMA "poster" "backdrop" "video"
    2024 (QArith_base.Qmake 7 1) 100 [] [] [].

Definition reslug (slug : string) : MovieUpdate.t :=
  MovieUpdate.mk (Some slug) None None None None None None None None None
    None None None.

Definition no_movies : DB := mkDB [admin] [] [] [].
End Sample.

(* ================================================================= *)
(** ** Dependencies of the routes, reference data *)

(** [Depends(get_current_user)]: the handler runs on the user the bearer
    token resolves to. *)
Definition with_current_user {A} (now : datetime) (credentials : Credentials)
    (handler : User.t -> M A) : M A :=
  current_user <- get_current_user now credentials ;;
  handler current_user.

(** [Depends(get_admin_user)], itself depending on [get_current_user]. *)
Definition with_admin_user {A} (now : datetime) (credentials : Credentials)
    (handler : User.t -> M A) : M A :=
  current_user <- get_current_user now credentials ;;
  admin_user <- get_admin_user current_user ;;
  handler admin_user.

(** [d.get(k, default)] on a dictionary with string keys. *)
Fixpoint dict_get {V} (d : list (string * V)) (k : string) (default : V) : V :=
  match d with
  | [] => default
  | (k', v) :: d' => if (k' =? k)%string then v else dict_get d' k default
  end.

Definition translations_en : list (string * string) :=
  [("home", "Home"); ("movies", "Movies"); ("series", "TV Series");
   ("my_list", "My List"); ("search", "Search"); ("play", "Play");
   ("more_info", "More Info"); ("continue_watching", "Continue Watching");
   ("popular", "Popular"); ("trending", "Trending Now");
   ("new_releases", "New Releases"); ("action", "Action"); ("comedy", "Comedy");
   ("drama", "Drama"); ("horror", "Horror"); ("sci_fi", "Sci-Fi");
   ("romance", "Romance"); ("thriller", "Thriller");
   ("documentary", "Documentary"); ("animation", "Animation");
   ("family", "Family")].

Definition translations_es : list (string * string) :=
  [("home", "Inicio"); ("movies", "Películas"); ("series", "Series de TV");
   ("my_list", "Mi Lista"); ("search", "Buscar"); ("play", "Reproducir");
   ("more_info", "Más Información"); ("continue_watching", "Continuar Viendo");
   ("popular", "Popular"); ("trending", "Tendencias");
   ("new_releases", "Nuevos Lanzamientos"); ("action", "Acción");
   ("comedy", "Comedia"); ("drama", "Drama"); ("horror", "Terror");
   ("sci_fi", "Ciencia Ficción"); ("romance", "Romance");
   ("thriller", "Suspenso"); ("documentary", "Documental");
   ("animation", "Animación"); ("family", "Familia")].

Definition translations_fr : list (string * string) :=
  [("home", "Accueil"); ("movies", "Films"); ("series", "Séries TV");
   ("my_list", "Ma Liste"); ("search", "Rechercher"); ("play", "Lire");
   ("more_info", "Plus d'Infos"); ("continue_watching", "Continuer à Regarder");
   ("popular", "Populaire"); ("trending", "Tendances");
   ("new_releases", "Nouvelles Sorties"); ("action", "Action");
   ("comedy", "Comédie"); ("drama", "Drame"); ("horror", "Horreur");
   ("sci_fi", "Science-Fiction"); ("romance", "Romance");
   ("thriller", "Thriller"); ("documentary", "Documentaire");
   ("animation", "Animation"); ("family", "Famille")].

Definition translations : list (string * list (string * string)) :=
  [("en", translations_en); ("es", translations_es); ("fr", translations_fr)].

(** An absent [lang] query parameter takes the default of the signature. *)
Definition get_translations (lang : option string) : list (string * string) :=
  let lang := or_else lang "en" in
  dict_get translations lang (dict_get translations "en" []).

(** What the password hashing library guarantees: a password verifies
    against every hash made of it. *)
Class BcryptLaws `{Bcrypt} := {
  checkpw_hashpw : forall password salt, checkpw password (hashpw password salt) = true
}.

Definition unique_user_ids (db : DB) : Prop :=
  NoDup (map User.id (users db)).

Definition unique_movie_ids (db : DB) : Prop :=
  NoDup (map Movie.id (movies db)).

(** The watchlist of the profile the owner's lookup finds, if any. *)
Definition watchlist_of (profile_id : string) (current_user : User.t) (db : DB)
    : option (list string) :=
  option_map Profile.watchlist
    (List.find (owned_by profile_id current_user) (profiles db)).

Module SampleMore.
Definition carol : UserRegister.t := UserRegister.mk "carol@example.com" "secret".

Definition carol_login : UserLogin.t := UserLogin.mk "carol@example.com" "secret".

Definition toy_bcrypt_laws : @BcryptLaws Sample.toy_bcrypt :=
  @Build_BcryptLaws Sample.toy_bcrypt
    (fun password salt => String.eqb_refl (String.append "$" password)).

(** Alice finished the first movie. *)
Definition finished : ViewProgressUpdate.t := ViewProgressUpdate.mk 5400 true.

(** Twelve unfinished records of one profile, watched at the times 1 to
    12; the three most recent are about a movie that was deleted. *)
Definition watched (t : Z) (movie_id : string) : ViewProgress.t :=
  ViewProgress.mk "v" "p-alice" movie_id 60 false t.

Definition twelve : list ViewProgress.t :=
  [watched 1 "m-bunny"; watched 2 "m-sintel"; watched 3 "m-bunny";
   watched 4 "m-sintel"; watched 5 "m-bunny"; watched 6 "m-sintel";
   watched 7 "m-bunny"; watched 8 "m-sintel"; watched 9 "m-bunny";
   watched 10 "m-gone"; watched 11 "m-gone"; watched 12 "m-gone"].

Definition db_twelve : DB :=
  mkDB [Sample.alice] [Sample.alice_profile] [Sample.bunny; Sample.sintel] twelve.

(** Two records watched at the same time. *)
Definition db_tie : DB :=
  mkDB [Sample.alice] [Sample.alice_profile] [Sample.bunny; Sample.sintel]
    [watched 5 "m-bunny"; watched 5 "m-sintel"].
End SampleMore.

(** Unfolds the monad and the collection operations of a handler. *)
Ltac run :=
  unfold bind, ret, raise, find_one, find, insert_one, update_one, delete_one,
    docs, set_docs, db_users, db_profiles, db_movies, db_view_progress;
  simpl.

(* ================================================================= *)
(** ** Facts about collections *)

Section CollectionFacts.
Context {A : Type}.
Implicit Types (q : A -> bool) (c : list A).

Lemma find_none_intro q c :
  (forall x, In x c -> q x = false) -> List.find q c = None.
Proof.
  induction c as [|d c IH]; intros Hq; simpl; [reflexivity|].
  rewrite (Hq d (or_introl eq_refl)). apply IH.
  intros x Hx. apply Hq. now right.
Qed.

(** The document found is the first one that satisfies the filter. *)
Lemma find_split q c x :
  List.find q c = Some x ->
  exists pre post,
    c = pre ++ x :: post /\ q x = true /\ (forall y, In y pre -> q y = false).
Proof.
  induction c as [|d c IH]; simpl; [discriminate|].
  destruct (q d) eqn:Hd; intros Hf.
  - injection Hf as <-. exists [], c. repeat split; auto.
    intros y [].
  - destruct (IH Hf) as (pre & post & -> & Hx & Hpre).
    exists (d :: pre), post. repeat split; auto.
    intros y [<-|Hy]; auto.
Qed.

Lemma find_at q pre x post :
  q x = true -> (forall y, In y pre -> q y = false) ->
  List.find q (pre ++ x :: post) = Some x.
Proof.
  intros Hx. induction pre as [|d pre IH]; intros Hpre; simpl.
  - now rewrite Hx.
  - rewrite (Hpre d (or_introl eq_refl)). apply IH.
    intros y Hy. apply Hpre. now right.
Qed.

Lemma update_first_at q upd pre x post :
  q x = true -> (forall y, In y pre -> q y = false) ->
  update_first q upd (pre ++ x :: post) = pre ++ upd x :: post.
Proof.
  intros Hx. induction pre as [|d pre IH]; intros Hpre; simpl.
  - now rewrite Hx.
  - rewrite (Hpre d (or_introl eq_refl)). f_equal. apply IH.
    intros y Hy. apply Hpre. now right.
Qed.

Lemma update_first_none q upd c :
  (forall x, In x c -> q x = false) -> update_first q upd c = c.
Proof.
  induction c as [|d c IH]; intros Hq; simpl; [reflexivity|].
  rewrite (Hq d (or_introl eq_refl)). f_equal. apply IH.
  intros x Hx. apply Hq. now right.
Qed.

Lemma delete_first_at q pre x post :
  q x = true -> (forall y, In y pre -> q y = false) ->
  delete_first q (pre ++ x :: post) = pre ++ post.
Proof.
  intros Hx. induction pre as [|d pre IH]; intros Hpre; simpl.
  - now rewrite Hx.
  - rewrite (Hpre d (or_introl eq_refl)). f_equal. apply IH.
    intros y Hy. apply Hpre. now right.
Qed.

(** With unique keys, the documents before one with key [k] have
    another key. *)
Lemma unique_key_before (key : A -> string) pre x post :
  NoDup (map key (pre ++ x :: post)) ->
  forall y, In y pre -> (key y =? key x)%string = false.
Proof.
  intros Hnd y Hy. apply String.eqb_neq. intros Heq.
  rewrite map_app in Hnd. simpl in Hnd.
  apply NoDup_remove_2 in Hnd. apply Hnd.
  apply in_or_app. left. rewrite <- Heq. now apply in_map.
Qed.

Lemma unique_key_after (key : A -> string) pre x post :
  NoDup (map key (pre ++ x :: post)) ->
  forall y, In y post -> (key y =? key x)%string = false.
Proof.
  intros Hnd y Hy. apply String.eqb_neq. intros Heq.
  rewrite map_app in Hnd. simpl in Hnd.
  apply NoDup_remove_2 in Hnd. apply Hnd.
  apply in_or_app. right. rewrite <- Heq. now apply in_map.
Qed.
End CollectionFacts.

(* ================================================================= *)
(** ** Profiles: ownership *)

Lemma owned_by_true profile_id u p :
  owned_by profile_id u p = true <->
  Profile.id p = profile_id /\ Profile.user_id p = User.id u.
Proof.
  unfold owned_by. rewrite andb_true_iff, !String.eqb_eq. tauto.
Qed.

Lemma not_owned_not_found profile_id u ps :
  (forall p, In p ps -> Profile.id p = profile_id -> Profile.user_id p <> User.id u) ->
  List.find (owned_by profile_id u) ps = None.
Proof.
  intros H. apply find_none_intro. intros p Hp.
  destruct (owned_by profile_id u p) eqn:E; [|reflexivity].
  apply owned_by_true in E. destruct E as [E1 E2].
  exfalso. exact (H p Hp E1 E2).
Qed.

Lemma update_profile_not_owned profile_id profile_data u db :
  (forall p, In p (profiles db) -> Profile.id p = profile_id ->
             Profile.user_id p <> User.id u) ->
  update_profile profile_id profile_data u db
  = (Raise (mkHTTPException 404 "Profile not found"), db).
Proof.
  intros H. unfold update_profile. run.
  now rewrite (not_owned_not_found _ _ _ H).
Qed.

Lemma delete_profile_not_owned profile_id u db :
  (forall p, In p (profiles db) -> Profile.id p = profile_id ->
             Profile.user_id p <> User.id u) ->
  delete_profile profile_id u db
  = (Raise (mkHTTPException 404 "Profile not found"), db).
Proof.
  intros H. unfold delete_profile. run.
  now rewrite (not_owned_not_found _ _ _ H).
Qed.

(** C1. Profile update and delete fail with 404 "Profile not found" both
    when no profile has the id ([db1]) and when a profile with the id
    exists but belongs to another user ([db2]); the two failures are the
    same exception (status and detail) and neither changes the database,
    so the caller cannot tell the two situations apart. *)
Theorem profile_not_owned_is_not_found :
  forall (db1 db2 : DB) (principal : User.t) (profile_id : string)
         (profile_data : ProfileUpdate.t),
    (forall p, In p (profiles db1) -> Profile.id p <> profile_id) ->
    (exists p, In p (profiles db2) /\ Profile.id p = profile_id) ->
    (forall p, In p (profiles db2) -> Profile.id p = profile_id ->
               Profile.user_id p <> User.id principal) ->
    let not_found := mkHTTPException 404 "Profile not found" in
    update_profile profile_id profile_data principal db1 = (Raise not_found, db1) /\
    update_profile profile_id profile_data principal db2 = (Raise not_found, db2) /\
    delete_profile profile_id principal db1 = (Raise not_found, db1) /\
    delete_profile profile_id principal db2 = (Raise not_found, db2).
Proof.
  intros db1 db2 principal profile_id profile_data Habsent _ Hother not_found.
  assert (H1 : forall p, In p (profiles db1) -> Profile.id p = profile_id ->
                         Profile.user_id p <> User.id principal).
  { intros p Hp Hid. destruct (Habsent p Hp Hid). }
  repeat split.
  - now apply update_profile_not_owned.
  - now apply update_profile_not_owned.
  - now apply delete_profile_not_owned.
  - now apply delete_profile_not_owned.
Qed.

Lemma profile_not_owned_is_not_found_witness :
  let not_found := mkHTTPException 404 "Profile not found" in
  update_profile "p-alice" Sample.rename Sample.bob Sample.no_profiles
  = (Raise not_found, Sample.no_profiles)
  /\ update_profile "p-alice" Sample.rename Sample.bob Sample.db0
     = (Raise not_found, Sample.db0)
  /\ delete_profile "p-alice" Sample.bob Sample.no_profiles
     = (Raise not_found, Sample.no_profiles)
  /\ delete_profile "p-alice" Sample.bob Sample.db0
     = (Raise not_found, Sample.db0).
Proof.
  apply (profile_not_owned_is_not_found Sample.no_profiles Sample.db0 Sample.bob
           "p-alice" Sample.rename).
  - simpl. intros p [].
  - exists Sample.alice_profile. split; [simpl; auto | reflexivity].
  - simpl. intros p [<-|[]] _. simpl. discriminate.
Defined.

(* ================================================================= *)
(** ** Authentication *)

Lemma find_exists {A} (q : A -> bool) (c : list A) :
  (exists x, In x c /\ q x = true) ->
  exists y, List.find q c = Some y /\ In y c /\ q y = true.
Proof.
  intros (x & Hx & Hq). destruct (List.find q c) as [y|] eqn:E.
  - exists y. split; [reflexivity|]. now apply find_some in E.
  - rewrite (find_none _ _ E x Hx) in Hq. discriminate.
Qed.

Lemma find_user_by_email_none email us :
  (forall u, In u us -> User.email u <> email) ->
  List.find (fun u => User.email u =? email)%string us = None.
Proof.
  intros H. apply find_none_intro. intros u Hu.
  apply String.eqb_neq. now apply H.
Qed.

Lemma find_user_by_id_fresh new_user us :
  (forall u, In u us -> User.id u <> User.id new_user) ->
  List.find (fun u => User.id u =? User.id new_user)%string (us ++ [new_user])
  = Some new_user.
Proof.
  intros H. apply find_at.
  - apply String.eqb_refl.
  - intros y Hy. apply String.eqb_neq. now apply H.
Qed.

Lemma resolve_unexpired db user_id exp now' :
  now' < exp ->
  get_current_user now' (Signed (Some user_id) exp) db
  = match List.find (fun u => User.id u =? user_id)%string (users db) with
    | Some u => (Ok u, db)
    | None => (Raise internal_error, db)
    end.
Proof.
  intros Hlt. unfold get_current_user, get_current_user_try, jwt_decode.
  destruct (exp <=? now') eqn:E; [apply Z.leb_le in E; lia|].
  now destruct (List.find _ (users db)).
Qed.

Lemma resolve_expired db sub exp now' :
  exp < now' ->
  get_current_user now' (Signed sub exp) db
  = (Raise (mkHTTPException 401 "Token expired"), db).
Proof.
  intros Hlt. unfold get_current_user, get_current_user_try, jwt_decode.
  destruct (exp <=? now') eqn:E; [reflexivity|apply Z.leb_gt in E; lia].
Qed.

(** A token for the id of a stored user resolves to a stored user of
    that id. *)
Lemma resolve_stored db u exp now' :
  In u (users db) -> now' < exp ->
  exists principal,
    get_current_user now' (Signed (Some (User.id u)) exp) db = (Ok principal, db)
    /\ In principal (users db)
    /\ User.id principal = User.id u.
Proof.
  intros Hu Hlt. rewrite (resolve_unexpired _ _ _ _ Hlt).
  destruct (find_exists (fun x => User.id x =? User.id u)%string (users db))
    as (y & -> & Hy & Hq).
  - exists u. split; [assumption|apply String.eqb_refl].
  - exists y. apply String.eqb_eq in Hq. now repeat split.
Qed.

Section Auth.
Context `{Bcrypt}.

Lemma register_existing_email new_id salt now user_data db :
  (exists u, In u (users db) /\ User.email u = UserRegister.email user_data) ->
  register new_id salt now user_data db
  = (Raise (mkHTTPException 400 "Email already registered"), db).
Proof.
  intros (u & Hu & He). unfold register. run.
  destruct (find_exists (fun u => User.email u =? UserRegister.email user_data)%string
              (users db)) as (y & -> & _).
  - exists u. split; [assumption|]. now apply String.eqb_eq.
  - reflexivity.
Qed.


Lemma login_unauthorized now user_data db :
  (forall u, In u (users db) -> User.email u = UserLogin.email user_data ->
             verify_password (UserLogin.password user_data) (User.password_hash u)
             = false) ->
  login now user_data db
  = (Raise (mkHTTPException 401 "Invalid email or password"), db).
Proof.
  intros Hbad. unfold login. run.
  destruct (List.find _ (users db)) as [u|] eqn:E; [|reflexivity].
  apply find_some in E. destruct E as [Hu He]. apply String.eqb_eq in He.
  now rewrite (Hbad u Hu He).
Qed.

End Auth.



(* ================================================================= *)
(** ** Profiles: the owned profile and its array fields *)

Lemma mem_In v xs : mem v xs = true <-> In v xs.
Proof.
  unfold mem. rewrite existsb_exists. split.
  - intros (x & Hx & E). apply String.eqb_eq in E. now subst.
  - intros Hv. exists v. split; [assumption|apply String.eqb_refl].
Qed.

Lemma mem_false v xs : mem v xs = false <-> ~ In v xs.
Proof.
  rewrite <- mem_In. destruct (mem v xs); split; congruence.
Qed.

(** Where the owned profile sits in a collection with unique ids: no
    other document answers the filter [{"id": profile_id}]. *)
Lemma owned_profile_position db profile_id u p :
  unique_profile_ids db ->
  In p (profiles db) -> Profile.id p = profile_id -> Profile.user_id p = User.id u ->
  exists pre post,
    profiles db = pre ++ p :: post
    /\ (forall y, In y pre -> has_profile_id profile_id y = false)
    /\ (forall y, In y post -> has_profile_id profile_id y = false).
Proof.
  unfold unique_profile_ids. intros Hnd Hp Hid _.
  destruct (in_split _ _ Hp) as (pre & post & Heq).
  exists pre, post. rewrite Heq in Hnd. subst profile_id.
  split; [assumption|]. split.
  - exact (unique_key_before Profile.id pre p post Hnd).
  - exact (unique_key_after Profile.id pre p post Hnd).
Qed.

Lemma owned_before profile_id u pre :
  (forall y, In y pre -> has_profile_id profile_id y = false) ->
  forall y, In y pre -> owned_by profile_id u y = false.
Proof.
  intros H y Hy. unfold owned_by. unfold has_profile_id in H.
  now rewrite (H y Hy).
Qed.

Lemma find_owned_at profile_id u pre p post :
  Profile.id p = profile_id -> Profile.user_id p = User.id u ->
  (forall y, In y pre -> has_profile_id profile_id y = false) ->
  List.find (owned_by profile_id u) (pre ++ p :: post) = Some p.
Proof.
  intros Hid Hu Hpre. apply find_at.
  - now apply owned_by_true.
  - now apply owned_before.
Qed.

Lemma find_profile_id_at profile_id pre p post :
  Profile.id p = profile_id ->
  (forall y, In y pre -> has_profile_id profile_id y = false) ->
  List.find (has_profile_id profile_id) (pre ++ p :: post) = Some p.
Proof.
  intros Hid Hpre. apply find_at; [|assumption].
  unfold has_profile_id. now apply String.eqb_eq.
Qed.

Lemma update_profile_id_at profile_id upd pre p post :
  Profile.id p = profile_id ->
  (forall y, In y pre -> has_profile_id profile_id y = false) ->
  update_first (has_profile_id profile_id) upd (pre ++ p :: post)
  = pre ++ upd p :: post.
Proof.
  intros Hid Hpre. apply update_first_at; [|assumption].
  unfold has_profile_id. now apply String.eqb_eq.
Qed.

Lemma find_movie_id_exists movie_id ms :
  (exists m, In m ms /\ Movie.id m = movie_id) ->
  exists m, List.find (has_movie_id movie_id) ms = Some m.
Proof.
  intros (m & Hm & Hid).
  destruct (find_exists (has_movie_id movie_id) ms) as (y & Hy & _).
  - exists m. split; [assumption|]. unfold has_movie_id. now apply String.eqb_eq.
  - now exists y.
Qed.

Lemma find_movie_id_none movie_id ms :
  (forall m, In m ms -> Movie.id m <> movie_id) ->
  List.find (has_movie_id movie_id) ms = None.
Proof.
  intros H. apply find_none_intro. intros m Hm.
  unfold has_movie_id. apply String.eqb_neq. now apply H.
Qed.

(* ================================================================= *)
(** ** Watchlist *)

(** C9. Adding a movie that exists to the watchlist of an owned profile
    that does not hold it yet appends the id and answers "Added to
    watchlist"; adding it again answers "Already in watchlist", changes
    nothing, and the watchlist holds the id exactly once. *)
Theorem add_to_watchlist_idempotent :
  forall (db : DB) (principal : User.t) (profile_id movie_id : string)
         (p : Profile.t),
    unique_profile_ids db ->
    In p (profiles db) ->
    Profile.id p = profile_id ->
    Profile.user_id p = User.id principal ->
    (exists m, In m (movies db) /\ Movie.id m = movie_id) ->
    ~ In movie_id (Profile.watchlist p) ->
    exists db1 p1,
      add_to_watchlist profile_id movie_id principal db
      = (Ok "Added to watchlist", db1)
      /\ List.find (owned_by profile_id principal) (profiles db1) = Some p1
      /\ Profile.watchlist p1 = Profile.watchlist p ++ [movie_id]
      /\ add_to_watchlist profile_id movie_id principal db1
         = (Ok "Already in watchlist", db1)
      /\ count_occ string_dec (Profile.watchlist p1) movie_id = 1%nat.
Proof.
  intros db principal profile_id movie_id p Hnd Hp Hid Hu Hmovie Habsent.
  destruct (owned_profile_position db profile_id principal p Hnd Hp Hid Hu)
    as (pre & post & Heq & Hpre & Hpost).
  destruct (find_movie_id_exists movie_id (movies db) Hmovie) as (m & Hm).
  assert (Hwl : Profile.watchlist (push_watchlist movie_id p)
                = Profile.watchlist p ++ [movie_id]) by reflexivity.
  assert (Hid1 : Profile.id (push_watchlist movie_id p) = profile_id) by exact Hid.
  assert (Hu1 : Profile.user_id (push_watchlist movie_id p) = User.id principal)
    by exact Hu.
  remember (push_watchlist movie_id p) as p1 eqn:Hp1.
  exists (mkDB (users db) (pre ++ p1 :: post) (movies db) (view_progress db)), p1.
  assert (Hfind1 : List.find (owned_by profile_id principal) (pre ++ p1 :: post)
                   = Some p1).
  { apply find_owned_at; assumption. }
  split; [|split; [|split; [|split]]].
  - unfold add_to_watchlist. run. rewrite Heq, (find_owned_at _ _ _ _ _ Hid Hu Hpre).
    rewrite Hm. apply mem_false in Habsent. rewrite Habsent. simpl. rewrite Heq.
    rewrite (update_profile_id_at _ _ _ _ _ Hid Hpre). now rewrite <- Hp1.
  - exact Hfind1.
  - exact Hwl.
  - unfold add_to_watchlist. run. rewrite Hfind1. simpl. rewrite Hm.
    assert (Hin : mem movie_id (Profile.watchlist p1) = true).
    { apply mem_In. rewrite Hwl. apply in_or_app. right. now left. }
    now rewrite Hin.
  - rewrite Hwl, count_occ_app. simpl.
    destruct (string_dec movie_id movie_id) as [_|Hne]; [|congruence].
    apply (count_occ_not_In string_dec) in Habsent. rewrite Habsent. reflexivity.
Qed.

Lemma add_to_watchlist_idempotent_witness :
  exists db1 p1,
    add_to_watchlist "p-alice" "m-bunny" Sample.alice Sample.db0
    = (Ok "Added to watchlist", db1)
    /\ List.find (owned_by "p-alice" Sample.alice) (profiles db1) = Some p1
    /\ Profile.watchlist p1 = ["m-bunny"]
    /\ add_to_watchlist "p-alice" "m-bunny" Sample.alice db1
       = (Ok "Already in watchlist", db1)
    /\ count_occ string_dec (Profile.watchlist p1) "m-bunny" = 1%nat.
Proof.
  apply (add_to_watchlist_idempotent Sample.db0 Sample.alice "p-alice" "m-bunny"
           Sample.alice_profile).
  - unfold unique_profile_ids. simpl. constructor; [intros []|constructor].
  - simpl. auto.
  - reflexivity.
  - reflexivity.
  - exists Sample.bunny. split; [simpl; auto | reflexivity].
  - simpl. intros [].
Defined.

(* ================================================================= *)
(** ** Profile update and the watchlist field *)

Lemma ProfileUpdate_with_watchlist_not_empty d ids :
  ProfileUpdate.watchlist d = Some ids -> ProfileUpdate_is_empty d = false.
Proof.
  intros Hw. unfold ProfileUpdate_is_empty. rewrite Hw. simpl.
  apply andb_false_r.
Qed.

Lemma add_to_watchlist_unknown_movie db principal profile_id movie_id p :
  unique_profile_ids db ->
  In p (profiles db) -> Profile.id p = profile_id ->
  Profile.user_id p = User.id principal ->
  (forall m, In m (movies db) -> Movie.id m <> movie_id) ->
  add_to_watchlist profile_id movie_id principal db
  = (Raise (mkHTTPException 404 "Movie not found"), db).
Proof.
  intros Hnd Hp Hid Hu Hnone.
  destruct (owned_profile_position db profile_id principal p Hnd Hp Hid Hu)
    as (pre & post & Heq & Hpre & _).
  unfold add_to_watchlist. run.
  rewrite Heq, (find_owned_at _ _ _ _ _ Hid Hu Hpre).
  now rewrite (find_movie_id_none _ _ Hnone).
Qed.

(** C10. The body of a profile update has a [watchlist] field: one update
    by the owner replaces the whole watchlist of the profile with the list
    given, whatever it holds (ids of no movie, repeated ids), where the
    add operation refuses an id of no movie with 404 "Movie not found". *)
Theorem update_profile_replaces_watchlist :
  forall (db : DB) (principal : User.t) (profile_id : string) (p : Profile.t)
         (profile_data : ProfileUpdate.t) (ids : list string),
    unique_profile_ids db ->
    In p (profiles db) ->
    Profile.id p = profile_id ->
    Profile.user_id p = User.id principal ->
    ProfileUpdate.watchlist profile_data = Some ids ->
    exists db' updated,
      update_profile profile_id profile_data principal db = (Ok updated, db')
      /\ Profile.watchlist updated = ids
      /\ List.find (owned_by profile_id principal) (profiles db') = Some updated
      /\ users db' = users db
      /\ movies db' = movies db
      /\ view_progress db' = view_progress db
      /\ (forall movie_id,
            (forall m, In m (movies db) -> Movie.id m <> movie_id) ->
            add_to_watchlist profile_id movie_id principal db
            = (Raise (mkHTTPException 404 "Movie not found"), db)).
Proof.
  intros db principal profile_id p profile_data ids Hnd Hp Hid Hu Hw.
  destruct (owned_profile_position db profile_id principal p Hnd Hp Hid Hu)
    as (pre & post & Heq & Hpre & _).
  assert (Hwl : Profile.watchlist (ProfileUpdate_set profile_data p) = ids).
  { simpl. now rewrite Hw. }
  assert (Hid1 : Profile.id (ProfileUpdate_set profile_data p) = profile_id)
    by exact Hid.
  assert (Hu1 : Profile.user_id (ProfileUpdate_set profile_data p) = User.id principal)
    by exact Hu.
  remember (ProfileUpdate_set profile_data p) as p1 eqn:Hp1.
  exists (mkDB (users db) (pre ++ p1 :: post) (movies db) (view_progress db)), p1.
  split; [|repeat split].
  - unfold update_profile. run.
    rewrite Heq, (find_owned_at _ _ _ _ _ Hid Hu Hpre).
    rewrite (ProfileUpdate_with_watchlist_not_empty _ _ Hw). simpl. rewrite Heq.
    rewrite (update_profile_id_at _ _ _ _ _ Hid Hpre), <- Hp1.
    now rewrite (find_profile_id_at _ _ _ _ Hid1 Hpre).
  - exact Hwl.
  - now apply find_owned_at.
  - intros movie_id Hnone.
    now apply (add_to_watchlist_unknown_movie db principal profile_id movie_id p).
Qed.

Lemma update_profile_replaces_watchlist_witness :
  exists db' updated,
    update_profile "p-alice"
      (ProfileUpdate.mk None None None None (Some ["m-ghost"; "m-ghost"]))
      Sample.alice Sample.db0
    = (Ok updated, db')
    /\ Profile.watchlist updated = ["m-ghost"; "m-ghost"]
    /\ add_to_watchlist "p-alice" "m-ghost" Sample.alice Sample.db0
       = (Raise (mkHTTPException 404 "Movie not found"), Sample.db0).
Proof.
  destruct (update_profile_replaces_watchlist Sample.db0 Sample.alice "p-alice"
              Sample.alice_profile
              (ProfileUpdate.mk None None None None (Some ["m-ghost"; "m-ghost"]))
              ["m-ghost"; "m-ghost"])
    as (db' & updated & Hup & Hwl & _ & _ & _ & _ & Hadd).
  - unfold unique_profile_ids. simpl. constructor; [intros []|constructor].
  - simpl. auto.
  - reflexivity.
  - reflexivity.
  - reflexivity.
  - exists db', updated. split; [exact Hup|]. split; [exact Hwl|].
    apply Hadd. simpl. intros m [<-|[<-|[]]]; simpl; discriminate.
Defined.

(* ================================================================= *)
(** ** View progress: recording *)

Lemma int64_range z : - 2 ^ 63 <= z < 2 ^ 63 <-> int64 z = true.
Proof.
  unfold int64. rewrite andb_true_iff, Z.leb_le, Z.ltb_lt. tauto.
Qed.

Lemma count_pair_app pid mid vs1 vs2 :
  count_pair pid mid (vs1 ++ vs2) = (count_pair pid mid vs1 + count_pair pid mid vs2)%nat.
Proof.
  unfold count_pair. now rewrite filter_app, length_app.
Qed.

Lemma count_pair_cons pid mid v vs :
  count_pair pid mid (v :: vs)
  = ((if for_pair pid mid v then 1 else 0) + count_pair pid mid vs)%nat.
Proof.
  unfold count_pair. simpl. now destruct (for_pair pid mid v).
Qed.

Lemma count_pair_none pid mid vs :
  List.find (for_pair pid mid) vs = None -> count_pair pid mid vs = 0%nat.
Proof.
  intros Hnone. unfold count_pair.
  induction vs as [|v vs IH]; simpl in *; [reflexivity|].
  destruct (for_pair pid mid v); [discriminate|]. now apply IH.
Qed.

Lemma count_pair_some pid mid vs r :
  List.find (for_pair pid mid) vs = Some r -> (1 <= count_pair pid mid vs)%nat.
Proof.
  intros Hsome. destruct (find_split _ _ _ Hsome) as (pre & post & -> & Hr & _).
  rewrite count_pair_app, count_pair_cons, Hr. lia.
Qed.

Lemma for_pair_true pid mid v :
  for_pair pid mid v = true <->
  ViewProgress.profile_id v = pid /\ ViewProgress.movie_id v = mid.
Proof.
  unfold for_pair. rewrite andb_true_iff, !String.eqb_eq. tauto.
Qed.

Lemma for_pair_set_progress pid mid now d v :
  for_pair pid mid (set_progress now d v) = for_pair pid mid v.
Proof. reflexivity. Qed.

(** What one call writes, given where the owned profile sits. *)
Lemma update_view_progress_run new_id now movie_id profile_id d u db p pre post :
  profiles db = pre ++ p :: post ->
  Profile.id p = profile_id -> Profile.user_id p = User.id u ->
  (forall y, In y pre -> has_profile_id profile_id y = false) ->
  (exists m, In m (movies db) /\ Movie.id m = movie_id) ->
  int64 (ViewProgressUpdate.progress_seconds d) = true ->
  update_view_progress new_id now movie_id profile_id d u db
  = (Ok "Progress updated successfully",
     mkDB (users db)
       (if mem movie_id (Profile.watch_history p) then profiles db
        else pre ++ push_watch_history movie_id p :: post)
       (movies db)
       (match List.find (for_pair profile_id movie_id) (view_progress db) with
        | Some r =>
            update_first (has_progress_id (ViewProgress.id r)) (set_progress now d)
              (view_progress db)
        | None =>
            view_progress db
            ++ [ViewProgress.mk new_id profile_id movie_id
                  (ViewProgressUpdate.progress_seconds d)
                  (ViewProgressUpdate.completed d) now]
        end)).
Proof.
  intros Heq Hid Hu Hpre Hmovie Hint.
  destruct (find_movie_id_exists movie_id (movies db) Hmovie) as (m & Hm).
  destruct db as [us ps ms vs]. simpl in *. subst ps.
  unfold update_view_progress. run.
  rewrite (find_owned_at _ _ _ _ _ Hid Hu Hpre). simpl. rewrite Hm. simpl.
  destruct (List.find (for_pair profile_id movie_id) vs) as [r|]; simpl;
    rewrite Hint; simpl;
    destruct (mem movie_id (Profile.watch_history p)); simpl;
    rewrite ?(update_profile_id_at _ _ _ _ _ Hid Hpre); reflexivity.
Qed.

(** Elapsed seconds beyond 8 bytes: the write fails, nothing is stored
    and the watch history is not reached. *)
Lemma update_view_progress_overflow new_id now movie_id profile_id d u db p :
  List.find (owned_by profile_id u) (profiles db) = Some p ->
  (exists m, In m (movies db) /\ Movie.id m = movie_id) ->
  int64 (ViewProgressUpdate.progress_seconds d) = false ->
  update_view_progress new_id now movie_id profile_id d u db
  = (Raise internal_error, db).
Proof.
  intros Hfind Hmovie Hint.
  destruct (find_movie_id_exists movie_id (movies db) Hmovie) as (m & Hm).
  unfold update_view_progress. run. rewrite Hfind, Hm.
  destruct (List.find (for_pair profile_id movie_id) (view_progress db));
    simpl; now rewrite Hint.
Qed.

(** An update through the id of the record found rewrites that record. *)
Lemma update_found_progress pid mid now d vs r :
  NoDup (map ViewProgress.id vs) ->
  List.find (for_pair pid mid) vs = Some r ->
  exists pre post,
    vs = pre ++ r :: post
    /\ update_first (has_progress_id (ViewProgress.id r)) (set_progress now d) vs
       = pre ++ set_progress now d r :: post.
Proof.
  intros Hnd Hfind.
  destruct (find_split _ _ _ Hfind) as (pre & post & -> & _ & _).
  exists pre, post. split; [reflexivity|].
  apply update_first_at.
  - unfold has_progress_id. apply String.eqb_refl.
  - exact (unique_key_before ViewProgress.id pre r post Hnd).
Qed.

Lemma count_pair_update pid mid now d vs r pre post :
  vs = pre ++ r :: post ->
  count_pair pid mid (pre ++ set_progress now d r :: post) = count_pair pid mid vs.
Proof.
  intros ->. now rewrite !count_pair_app, !count_pair_cons, for_pair_set_progress.
Qed.

Lemma count_pair_insert pid mid vs v :
  count_pair pid mid (vs ++ [v])
  = (count_pair pid mid vs + (if for_pair pid mid v then 1 else 0))%nat.
Proof.
  rewrite count_pair_app, count_pair_cons.
  change (count_pair pid mid []) with 0%nat. lia.
Qed.

(** C4, as the specification words it, fails: on an owned profile and
    an existing movie with no record for the pair, a recording of 2^63
    elapsed seconds inserts no record and leaves the watch history as it
    is; the call ends in the 500 answer. *)
Lemma update_view_progress_too_large :
  List.find (owned_by "p-alice" Sample.alice) (profiles Sample.db0)
  = Some Sample.alice_profile
  /\ List.find (has_movie_id "m-bunny") (movies Sample.db0) = Some Sample.bunny
  /\ List.find (for_pair "p-alice" "m-bunny") (view_progress Sample.db0) = None
  /\ ~ In "m-bunny" (Profile.watch_history Sample.alice_profile)
  /\ update_view_progress "v-1" 100 "m-bunny" "p-alice"
       (ViewProgressUpdate.mk (2 ^ 63) false) Sample.alice Sample.db0
     = (Raise internal_error, Sample.db0).
Proof.
  split; [reflexivity|]. split; [reflexivity|]. split; [reflexivity|].
  split; [intros []|reflexivity].
Qed.

(** C4 (amended). On an owned profile and an existing movie, recording
    elapsed seconds that fit a signed 64-bit integer
    succeeds and keeps at most one progress record per (profile, movie)
    pair: the record found for the pair, if any, gets the new elapsed
    seconds, completed flag and last-watched time in place (same id,
    same position, nothing added); with no record for the pair exactly
    one is appended; records of other pairs are not counted differently.
    The movie id is appended to the watch history of the profile exactly
    when it is not in it yet. *)
Theorem update_view_progress_upsert :
  forall (db : DB) (principal : User.t) (profile_id movie_id : string)
         (p : Profile.t) (new_id : string) (now : datetime)
         (d : ViewProgressUpdate.t),
    unique_profile_ids db ->
    unique_progress_ids db ->
    In p (profiles db) ->
    Profile.id p = profile_id ->
    Profile.user_id p = User.id principal ->
    (exists m, In m (movies db) /\ Movie.id m = movie_id) ->
    - 2 ^ 63 <= ViewProgressUpdate.progress_seconds d < 2 ^ 63 ->
    exists db' p',
      update_view_progress new_id now movie_id profile_id d principal db
      = (Ok "Progress updated successfully", db')
      /\ users db' = users db
      /\ movies db' = movies db
      /\ (forall r,
            List.find (for_pair profile_id movie_id) (view_progress db) = Some r ->
            exists pre post,
              view_progress db = pre ++ r :: post
              /\ view_progress db'
                 = pre
                   ++ ViewProgress.mk (ViewProgress.id r) (ViewProgress.profile_id r)
                        (ViewProgress.movie_id r)
                        (ViewProgressUpdate.progress_seconds d)
                        (ViewProgressUpdate.completed d) now
                   :: post)
      /\ (List.find (for_pair profile_id movie_id) (view_progress db) = None ->
          view_progress db'
          = view_progress db
            ++ [ViewProgress.mk new_id profile_id movie_id
                  (ViewProgressUpdate.progress_seconds d)
                  (ViewProgressUpdate.completed d) now])
      /\ count_pair profile_id movie_id (view_progress db')
         = Nat.max 1 (count_pair profile_id movie_id (view_progress db))
      /\ (forall pid mid,
            pid <> profile_id \/ mid <> movie_id ->
            count_pair pid mid (view_progress db')
            = count_pair pid mid (view_progress db))
      /\ (one_record_per_pair (view_progress db) ->
          one_record_per_pair (view_progress db'))
      /\ List.find (owned_by profile_id principal) (profiles db') = Some p'
      /\ (In movie_id (Profile.watch_history p) ->
          Profile.watch_history p' = Profile.watch_history p)
      /\ (~ In movie_id (Profile.watch_history p) ->
          Profile.watch_history p' = Profile.watch_history p ++ [movie_id]).
Proof.
  intros db principal profile_id movie_id p new_id now d
    Hnd Hndv Hp Hid Hu Hmovie Hrange.
  apply int64_range in Hrange.
  destruct (owned_profile_position db profile_id principal p Hnd Hp Hid Hu)
    as (pre & post & Heq & Hpre & _).
  rewrite (update_view_progress_run new_id now movie_id profile_id d principal db
             p pre post Heq Hid Hu Hpre Hmovie Hrange).
  set (new := ViewProgress.mk new_id profile_id movie_id
                (ViewProgressUpdate.progress_seconds d)
                (ViewProgressUpdate.completed d) now).
  set (vs' := match List.find (for_pair profile_id movie_id) (view_progress db) with
              | Some r => update_first (has_progress_id (ViewProgress.id r))
                            (set_progress now d) (view_progress db)
              | None => view_progress db ++ [new]
              end).
  assert (Hcount : count_pair profile_id movie_id vs'
                   = Nat.max 1 (count_pair profile_id movie_id (view_progress db))).
  { subst vs'.
    destruct (List.find (for_pair profile_id movie_id) (view_progress db))
      as [r|] eqn:Hfind.
    - destruct (update_found_progress _ _ now d _ _ Hndv Hfind)
        as (vpre & vpost & Hvs & ->).
      rewrite (count_pair_update _ _ _ _ _ _ _ _ Hvs).
      apply count_pair_some in Hfind. lia.
    - rewrite count_pair_insert, (count_pair_none _ _ _ Hfind).
      assert (Hnew : for_pair profile_id movie_id new = true).
      { apply for_pair_true. split; reflexivity. }
      now rewrite Hnew. }
  assert (Hother : forall pid mid,
             pid <> profile_id \/ mid <> movie_id ->
             count_pair pid mid vs' = count_pair pid mid (view_progress db)).
  { intros pid mid Hdiff. subst vs'.
    destruct (List.find (for_pair profile_id movie_id) (view_progress db))
      as [r|] eqn:Hfind.
    - destruct (update_found_progress _ _ now d _ _ Hndv Hfind)
        as (vpre & vpost & Hvs & ->).
      apply (count_pair_update _ _ _ _ _ _ _ _ Hvs).
    - rewrite count_pair_insert.
      destruct (for_pair pid mid new) eqn:Hnew; [|lia].
      apply for_pair_true in Hnew. simpl in Hnew. destruct Hnew as [<- <-].
      destruct Hdiff as [Hd|Hd]; now destruct Hd. }
  exists (mkDB (users db)
            (if mem movie_id (Profile.watch_history p) then profiles db
             else pre ++ push_watch_history movie_id p :: post)
            (movies db) vs').
  exists (if mem movie_id (Profile.watch_history p) then p
          else push_watch_history movie_id p).
  split; [reflexivity|]. simpl.
  split; [reflexivity|]. split; [reflexivity|].
  split; [|split; [|split; [|split; [|split; [|split; [|split]]]]]].
  - intros r Hfind. subst vs'. rewrite Hfind.
    exact (update_found_progress _ _ now d _ _ Hndv Hfind).
  - intros Hfind. subst vs'. now rewrite Hfind.
  - exact Hcount.
  - exact Hother.
  - intros Hone pid mid.
    destruct (string_dec pid profile_id) as [->|Hpid].
    + destruct (string_dec mid movie_id) as [->|Hmid].
      * rewrite Hcount. specialize (Hone profile_id movie_id). lia.
      * rewrite (Hother profile_id mid (or_intror Hmid)). apply Hone.
    + rewrite (Hother pid mid (or_introl Hpid)). apply Hone.
  - destruct (mem movie_id (Profile.watch_history p)).
    + rewrite Heq. now apply find_owned_at.
    + now apply find_owned_at.
  - intros Hin. apply mem_In in Hin. now rewrite Hin.
  - intros Hout. apply mem_false in Hout. now rewrite Hout.
Qed.

Lemma update_view_progress_upsert_witness :
  exists db' p',
    update_view_progress "v-2" 200 "m-bunny" "p-alice"
      (ViewProgressUpdate.mk 450 false) Sample.alice Sample.db_watching
    = (Ok "Progress updated successfully", db')
    /\ view_progress db' = [ViewProgress.mk "v-1" "p-alice" "m-bunny" 450 false 200]
    /\ List.find (owned_by "p-alice" Sample.alice) (profiles db') = Some p'
    /\ Profile.watch_history p' = ["m-bunny"].
Proof.
  destruct (update_view_progress_upsert Sample.db_watching Sample.alice
              "p-alice" "m-bunny" Sample.alice_profile "v-2" 200
              (ViewProgressUpdate.mk 450 false))
    as (db' & p' & Hrun & _ & _ & Hupd & _ & _ & _ & _ & Hfind & _ & Hhist).
  - unfold unique_profile_ids. simpl. constructor; [intros []|constructor].
  - unfold unique_progress_ids. simpl. constructor; [intros []|constructor].
  - simpl. auto.
  - reflexivity.
  - reflexivity.
  - exists Sample.bunny. split; [simpl; auto | reflexivity].
  - simpl. lia.
  - exists db', p'. split; [exact Hrun|]. split; [|split; [exact Hfind|]].
    + destruct (Hupd Sample.glimpse eq_refl) as (pre & post & Hsplit & ->).
      simpl in Hsplit. destruct pre as [|a pre].
      * simpl in Hsplit. injection Hsplit as <-. reflexivity.
      * simpl in Hsplit. injection Hsplit as _ Hrest.
        destruct pre; discriminate Hrest.
    + apply Hhist. simpl. intros [].
Defined.

(* ================================================================= *)
(** ** View progress: continue watching *)

Lemma In_firstn {A} n (l : list A) x : In x (firstn n l) -> In x l.
Proof.
  revert l. induction n as [|n IH]; intros [|y l]; simpl; try tauto.
  intros [->|Hx]; [now left|right; now apply IH].
Qed.

Section SortFacts.
Context {A : Type} (key : A -> Z).

Lemma insert_desc_perm x l : Permutation (insert_desc key x l) (x :: l).
Proof.
  induction l as [|y l IH]; simpl; [reflexivity|].
  destruct (key y <=? key x); [reflexivity|].
  rewrite IH. apply perm_swap.
Qed.

Lemma sort_desc_perm l : Permutation (sort_desc key l) l.
Proof.
  induction l as [|x l IH]; simpl; [reflexivity|].
  rewrite insert_desc_perm. now constructor.
Qed.

Lemma insert_desc_sorted x l :
  StronglySorted (desc_by key) l -> StronglySorted (desc_by key) (insert_desc key x l).
Proof.
  induction l as [|y l IH]; intros Hs; simpl.
  - constructor; constructor.
  - apply StronglySorted_inv in Hs. destruct Hs as [Hl Hy].
    destruct (key y <=? key x) eqn:E.
    + apply Z.leb_le in E. constructor.
      * now constructor.
      * constructor; [exact E|].
        eapply Forall_impl; [|exact Hy]. unfold desc_by. intros z Hz. lia.
    + apply Z.leb_gt in E. constructor; [now apply IH|].
      eapply Permutation_Forall.
      * symmetry. apply insert_desc_perm.
      * constructor; [unfold desc_by; lia|exact Hy].
Qed.

Lemma sort_desc_sorted l : StronglySorted (desc_by key) (sort_desc key l).
Proof.
  induction l as [|x l IH]; simpl; [constructor|].
  now apply insert_desc_sorted.
Qed.

Lemma sorted_firstn n l :
  StronglySorted (desc_by key) l -> StronglySorted (desc_by key) (firstn n l).
Proof.
  revert l. induction n as [|n IH]; intros [|x l] Hs; simpl; try constructor.
  - apply IH. now apply StronglySorted_inv in Hs.
  - apply StronglySorted_inv in Hs. destruct Hs as [_ Hx].
    rewrite Forall_forall in *. intros y Hy. apply Hx.
    eapply In_firstn; eauto.
Qed.

(** In a sorted list, what stands before an element is at least as large. *)
Lemma sorted_before a v b :
  StronglySorted (desc_by key) (a ++ v :: b) -> Forall (fun w => key v <= key w) a.
Proof.
  induction a as [|x a IH]; simpl; intros Hs; [constructor|].
  apply StronglySorted_inv in Hs. destruct Hs as [Hs Hx]. constructor.
  - rewrite Forall_forall in Hx. apply Hx. apply in_or_app. right. now left.
  - now apply IH.
Qed.
End SortFacts.

Lemma filter_length_perm {A} (f : A -> bool) l l' :
  Permutation l l' -> List.length (filter f l) = List.length (filter f l').
Proof.
  induction 1 as [|x l l' _ IH|x y l|l l' l'' _ IH1 _ IH2]; simpl.
  - reflexivity.
  - destruct (f x); simpl; now rewrite IH.
  - destruct (f x), (f y); reflexivity.
  - now rewrite IH1.
Qed.

Lemma filter_length_prefix {A} (f : A -> bool) a v b :
  Forall (fun w => f w = true) a -> f v = true ->
  (S (List.length a) <= List.length (filter f (a ++ v :: b)))%nat.
Proof.
  intros Ha Hv. rewrite filter_app, length_app. simpl. rewrite Hv. simpl.
  assert (Hfa : filter f a = a).
  { induction Ha as [|x a Hx _ IH]; simpl; [reflexivity|]. now rewrite Hx, IH. }
  rewrite Hfa. lia.
Qed.

Lemma In_firstn_prefix {A} n (a : list A) v b :
  (List.length a < n)%nat -> In v (firstn n (a ++ v :: b)).
Proof.
  intros Hlen. rewrite firstn_app. apply in_or_app. right.
  destruct (n - List.length a)%nat as [|k] eqn:E; [lia|]. simpl. now left.
Qed.

Lemma join_movies_run l db : join_movies l db = (Ok (joined (movies db) l), db).
Proof.
  induction l as [|v l IH]; simpl; [reflexivity|].
  run. rewrite IH.
  now destruct (List.find (has_movie_id (ViewProgress.movie_id v)) (movies db)).
Qed.

Lemma joined_In_inv ms l e :
  In e (joined ms l) ->
  In (ContinueItem.progress e) l
  /\ List.find (has_movie_id (ViewProgress.movie_id (ContinueItem.progress e))) ms
     = Some (ContinueItem.movie e).
Proof.
  unfold joined. rewrite in_flat_map. intros (v & Hv & He).
  destruct (List.find (has_movie_id (ViewProgress.movie_id v)) ms) as [m|] eqn:Hm;
    simpl in He; [|contradiction].
  destruct He as [<-|[]]. simpl. now split.
Qed.

Lemma joined_In ms l v m :
  In v l -> List.find (has_movie_id (ViewProgress.movie_id v)) ms = Some m ->
  In (ContinueItem.mk m v) (joined ms l).
Proof.
  intros Hv Hm. unfold joined. apply in_flat_map. exists v.
  split; [assumption|]. rewrite Hm. now left.
Qed.

Lemma joined_length ms l : (List.length (joined ms l) <= List.length l)%nat.
Proof.
  induction l as [|v l IH]; simpl; [lia|].
  destruct (List.find (has_movie_id (ViewProgress.movie_id v)) ms); simpl; lia.
Qed.

Lemma joined_sorted (R : ViewProgress.t -> ViewProgress.t -> Prop) ms l :
  StronglySorted R l -> StronglySorted R (map ContinueItem.progress (joined ms l)).
Proof.
  induction 1 as [|v l Hl IH Hv]; simpl; [constructor|].
  destruct (List.find (has_movie_id (ViewProgress.movie_id v)) ms) as [m|];
    simpl; [|exact IH].
  constructor; [exact IH|].
  rewrite Forall_forall in *. intros w Hw. apply Hv.
  apply in_map_iff in Hw. destruct Hw as (e & <- & He).
  now apply joined_In_inv in He.
Qed.

Lemma in_progress_true profile_id v :
  in_progress profile_id v = true <->
  ViewProgress.profile_id v = profile_id
  /\ ViewProgress.completed v = false
  /\ 30 < ViewProgress.progress_seconds v.
Proof.
  unfold in_progress.
  rewrite !andb_true_iff, String.eqb_eq, negb_true_iff, Z.ltb_lt. tauto.
Qed.

(** The ten most recent qualifying records hold every qualifying record
    that at most ten of them are as recent as. *)
Lemma recent_in_top_ten profile_id v vs :
  In v vs -> in_progress profile_id v = true ->
  (List.length (watched_since profile_id v vs) <= 10)%nat ->
  In v (firstn 10 (sort_desc ViewProgress.last_watched
                     (filter (in_progress profile_id) vs))).
Proof.
  intros Hv Hq Hcount.
  set (s := sort_desc ViewProgress.last_watched (filter (in_progress profile_id) vs)).
  assert (Hperm : Permutation s (filter (in_progress profile_id) vs))
    by apply sort_desc_perm.
  assert (Hin : In v s).
  { apply (Permutation_in v (Permutation_sym Hperm)). apply filter_In. now split. }
  destruct (in_split _ _ Hin) as (a & b & Hs).
  assert (Hsorted : StronglySorted
                      (fun x y => ViewProgress.last_watched y
                                  <= ViewProgress.last_watched x) s)
    by apply sort_desc_sorted.
  rewrite Hs in Hsorted. apply sorted_before in Hsorted.
  set (since := fun w => ViewProgress.last_watched v <=? ViewProgress.last_watched w).
  assert (Hlen : (S (List.length a) <= List.length (filter since s))%nat).
  { rewrite Hs. apply filter_length_prefix.
    - eapply Forall_impl; [|exact Hsorted]. intros w Hw. now apply Z.leb_le.
    - apply Z.leb_refl. }
  rewrite (filter_length_perm since _ _ Hperm) in Hlen.
  assert (Hsince : filter since (filter (in_progress profile_id) vs)
                   = watched_since profile_id v vs).
  { unfold watched_since, since. clear. induction vs as [|w vs IH]; simpl; [reflexivity|].
    destruct (in_progress profile_id w); simpl; [|exact IH].
    destruct (ViewProgress.last_watched v <=? ViewProgress.last_watched w);
      simpl; now rewrite IH. }
  rewrite Hsince in Hlen. rewrite Hs. apply In_firstn_prefix. lia.
Qed.

Lemma find_existsb {A} (f : A -> bool) l :
  existsb f l = match List.find f l with Some _ => true | None => false end.
Proof.
  induction l as [|x l IH]; simpl; [reflexivity|].
  now destruct (f x).
Qed.

(** The records of the answer are, in order, the records of the list
    whose movie exists. *)
Lemma joined_progress ms l :
  map ContinueItem.progress (joined ms l)
  = filter (fun v => existsb (fun m => Movie.id m =? ViewProgress.movie_id v)%string
                       ms) l.
Proof.
  induction l as [|v l IH]; simpl; [reflexivity|].
  rewrite find_existsb. fold (has_movie_id (ViewProgress.movie_id v)).
  destruct (List.find (has_movie_id (ViewProgress.movie_id v)) ms); simpl;
    now rewrite IH.
Qed.

(** C5. For an owned profile the continue-watching answer is made of
    progress records of that profile that are not completed and have more
    than 30 elapsed seconds, each paired with the movie it refers to
    (records whose movie is gone are left out); it is ordered by last
    watched, most recent first, and is cut from the ten most recent
    qualifying records: every qualifying record that at most ten
    qualifying records are as recent as, and whose movie exists, is in it.
    So a record with 15 seconds never appears and such a record with 450
    seconds does.  Exactly: the qualifying records, each as often as it
    is stored, ordered most recent first, split into the first ten (all
    of them when they are fewer) and the rest; the answer is made, in
    that order, of those of the first ten whose movie exists, each once
    and with its movie - the cut to ten comes before the movie lookup. *)
Theorem get_continue_watching_recent_unfinished :
  forall (db : DB) (principal : User.t) (profile_id : string) (p : Profile.t),
    In p (profiles db) ->
    Profile.id p = profile_id ->
    Profile.user_id p = User.id principal ->
    exists res,
      get_continue_watching profile_id principal db = (Ok res, db)
      /\ (forall e, In e res ->
            In (ContinueItem.progress e) (view_progress db)
            /\ ViewProgress.profile_id (ContinueItem.progress e) = profile_id
            /\ ViewProgress.completed (ContinueItem.progress e) = false
            /\ 30 < ViewProgress.progress_seconds (ContinueItem.progress e)
            /\ List.find
                 (has_movie_id (ViewProgress.movie_id (ContinueItem.progress e)))
                 (movies db)
               = Some (ContinueItem.movie e))
      /\ StronglySorted recent_first (map ContinueItem.progress res)
      /\ (List.length res <= 10)%nat
      /\ (forall v m,
            In v (view_progress db) ->
            ViewProgress.profile_id v = profile_id ->
            ViewProgress.completed v = false ->
            30 < ViewProgress.progress_seconds v ->
            (List.length (watched_since profile_id v (view_progress db)) <= 10)%nat ->
            List.find (has_movie_id (ViewProgress.movie_id v)) (movies db) = Some m ->
            In (ContinueItem.mk m v) res)
      /\ (forall e, In e res ->
            ViewProgress.progress_seconds (ContinueItem.progress e) <> 15)
      /\ (forall v m,
            In v (view_progress db) ->
            ViewProgress.profile_id v = profile_id ->
            ViewProgress.completed v = false ->
            ViewProgress.progress_seconds v = 450 ->
            (List.length (watched_since profile_id v (view_progress db)) <= 10)%nat ->
            List.find (has_movie_id (ViewProgress.movie_id v)) (movies db) = Some m ->
            In (ContinueItem.mk m v) res)
      /\ (exists (qualifies : ViewProgress.t -> bool)
                 (top rest : list ViewProgress.t),
            (forall v, qualifies v = true <->
                       ViewProgress.profile_id v = profile_id
                       /\ ViewProgress.completed v = false
                       /\ 30 < ViewProgress.progress_seconds v)
            /\ Permutation (top ++ rest) (filter qualifies (view_progress db))
            /\ StronglySorted recent_first (top ++ rest)
            /\ List.length top
               = Nat.min 10 (List.length (filter qualifies (view_progress db)))
            /\ map ContinueItem.progress res
               = filter
                   (fun v =>
                      existsb
                        (fun m => Movie.id m =? ViewProgress.movie_id v)%string
                        (movies db))
                   top).
Proof.
  intros db principal profile_id p Hp Hid Hu.
  set (top := firstn 10 (sort_desc ViewProgress.last_watched
                           (filter (in_progress profile_id) (view_progress db)))).
  exists (joined (movies db) top).
  assert (Hrun : get_continue_watching profile_id principal db
                 = (Ok (joined (movies db) top), db)).
  { unfold get_continue_watching. run.
    destruct (find_exists (owned_by profile_id principal) (profiles db))
      as (y & -> & _).
    - exists p. split; [assumption|]. now apply owned_by_true.
    - apply join_movies_run. }
  assert (Hmember : forall e, In e (joined (movies db) top) ->
            In (ContinueItem.progress e) (view_progress db)
            /\ in_progress profile_id (ContinueItem.progress e) = true
            /\ List.find
                 (has_movie_id (ViewProgress.movie_id (ContinueItem.progress e)))
                 (movies db)
               = Some (ContinueItem.movie e)).
  { intros e He. apply joined_In_inv in He. destruct He as [He Hm].
    apply In_firstn in He.
    apply (Permutation_in _ (sort_desc_perm ViewProgress.last_watched _)) in He.
    apply filter_In in He. destruct He as [He Hq]. auto. }
  assert (Hcomplete : forall v m,
            In v (view_progress db) ->
            in_progress profile_id v = true ->
            (List.length (watched_since profile_id v (view_progress db)) <= 10)%nat ->
            List.find (has_movie_id (ViewProgress.movie_id v)) (movies db) = Some m ->
            In (ContinueItem.mk m v) (joined (movies db) top)).
  { intros v m Hv Hq Hcount Hm. apply joined_In; [|assumption].
    now apply recent_in_top_ten. }
  split; [exact Hrun|]. split; [|split; [|split; [|split; [|split; [|split]]]]].
  - intros e He. destruct (Hmember e He) as (H1 & H2 & H3).
    apply in_progress_true in H2. tauto.
  - apply joined_sorted. apply (sorted_firstn ViewProgress.last_watched).
    apply sort_desc_sorted.
  - etransitivity; [apply joined_length|]. apply firstn_le_length.
  - intros v m Hv H1 H2 H3 Hcount Hm. apply Hcomplete; try assumption.
    apply in_progress_true. auto.
  - intros e He. destruct (Hmember e He) as (_ & H2 & _).
    apply in_progress_true in H2. lia.
  - intros v m Hv H1 H2 H3 Hcount Hm. apply Hcomplete; try assumption.
    apply in_progress_true. repeat split; try assumption. lia.
  - exists (in_progress profile_id), top.
    exists (skipn 10 (sort_desc ViewProgress.last_watched
                        (filter (in_progress profile_id) (view_progress db)))).
    split; [intros v; apply in_progress_true|].
    subst top. rewrite firstn_skipn.
    split; [apply sort_desc_perm|].
    split; [apply (sort_desc_sorted ViewProgress.last_watched)|].
    split; [|apply joined_progress].
    rewrite length_firstn.
    now rewrite (Permutation_length (sort_desc_perm ViewProgress.last_watched _)).
Qed.

Lemma get_continue_watching_recent_unfinished_witness :
  exists res,
    get_continue_watching "p-alice" Sample.alice Sample.db_resumed
    = (Ok res, Sample.db_resumed)
    /\ In (ContinueItem.mk Sample.bunny Sample.resumed) res
    /\ (forall e, In e res ->
          ViewProgress.progress_seconds (ContinueItem.progress e) <> 15).
Proof.
  destruct (get_continue_watching_recent_unfinished Sample.db_resumed Sample.alice
              "p-alice" Sample.alice_profile)
    as (res & Hrun & _ & _ & _ & _ & Hlow & Hhigh & _).
  - simpl. auto.
  - reflexivity.
  - reflexivity.
  - exists res. split; [exact Hrun|]. split; [|exact Hlow].
    apply Hhigh.
    + simpl. auto.
    + reflexivity.
    + reflexivity.
    + reflexivity.
    + simpl. lia.
    + reflexivity.
Defined.

(** The cut to ten comes before the movie lookup: of twelve qualifying
    records whose three most recent refer to a deleted movie, seven are
    answered, those watched at the times 9 down to 3.  Records watched at
    the same time keep their order. *)
Example continue_watching_cut_before_lookup :
  option_map
    (map (fun e => ViewProgress.last_watched (ContinueItem.progress e)))
    (match fst (get_continue_watching "p-alice" Sample.alice SampleMore.db_twelve)
     with Ok res => Some res | Raise _ => None end)
  = Some [9; 8; 7; 6; 5; 4; 3]
  /\ option_map
       (map (fun e => ViewProgress.movie_id (ContinueItem.progress e)))
       (match fst (get_continue_watching "p-alice" Sample.alice SampleMore.db_tie)
        with Ok res => Some res | Raise _ => None end)
     = Some ["m-bunny"; "m-sintel"].
Proof. split; reflexivity. Qed.

(** The scenario of the integration test: fifteen seconds recorded, the
    movie is not offered; 450 seconds recorded on the same pair, the one
    record is updated and the movie is offered with 450 seconds. *)
Example continue_watching_scenario :
  update_view_progress "v-1" 100 "m-bunny" "p-alice"
    (ViewProgressUpdate.mk 15 false) Sample.alice Sample.db0
  = (Ok "Progress updated successfully",
     mkDB (users Sample.db0)
       [Profile.mk "p-alice" "u-alice" "Alice" "default" "en" PG13 ["m-bunny"] [] 0]
       (movies Sample.db0) [Sample.glimpse])
  /\ fst (get_continue_watching "p-alice" Sample.alice Sample.db_watching) = Ok []
  /\ fst (update_view_progress "v-2" 200 "m-bunny" "p-alice"
            (ViewProgressUpdate.mk 450 false) Sample.alice Sample.db_watching)
     = Ok "Progress updated successfully"
  /\ view_progress
       (snd (update_view_progress "v-2" 200 "m-bunny" "p-alice"
               (ViewProgressUpdate.mk 450 false) Sample.alice Sample.db_watching))
     = [Sample.resumed]
  /\ fst (get_continue_watching "p-alice" Sample.alice Sample.db_resumed)
     = Ok [ContinueItem.mk Sample.bunny Sample.resumed].
Proof. repeat split; reflexivity. Qed.

(* ================================================================= *)
(** ** Movies: lookup by id or slug *)

Lemma id_or_slug_false key m :
  id_or_slug key m = false <-> Movie.id m <> key /\ Movie.slug m <> key.
Proof.
  unfold id_or_slug. rewrite orb_false_iff, !String.eqb_neq. tauto.
Qed.

Lemma id_or_slug_true key m :
  id_or_slug key m = true <-> Movie.id m = key \/ Movie.slug m = key.
Proof.
  unfold id_or_slug. rewrite orb_true_iff, !String.eqb_eq. tauto.
Qed.

Lemma get_movie_run key db :
  get_movie key db
  = match List.find (id_or_slug key) (movies db) with
    | Some m => (Ok m, db)
    | None => (Raise (mkHTTPException 404 "Movie not found"), db)
    end.
Proof.
  unfold get_movie. run. now destruct (List.find (id_or_slug key) (movies db)).
Qed.

Lemma find_ext_in {A} (f g : A -> bool) l :
  (forall x, In x l -> f x = g x) -> List.find f l = List.find g l.
Proof.
  induction l as [|x l IH]; intros Hfg; simpl; [reflexivity|].
  rewrite (Hfg x (or_introl eq_refl)). destruct (g x); [reflexivity|].
  apply IH. intros y Hy. apply Hfg. now right.
Qed.

(** C8, as the specification words it, fails: the movie stored first
    answers the key ["m-2"] through its slug, the movie whose id is
    ["m-2"] is not returned. *)
Lemma get_movie_id_not_preferred :
  List.find (has_movie_id "m-2") (movies Sample.db_shadow) = Some Sample.second
  /\ get_movie "m-2" Sample.db_shadow = (Ok Sample.first, Sample.db_shadow)
  /\ Movie.id Sample.first <> "m-2".
Proof.
  split; [reflexivity|]. split; [reflexivity|]. simpl. discriminate.
Qed.

(** C8 (amended). [get_movie] makes one lookup with the filter "id is the
    key or slug is the key": it returns the first movie in collection
    order that answers it, and fails with 404 "Movie not found" exactly
    when no movie has the key as id or as slug.  When no movie with
    another id has the key as its slug, the movie returned is the one
    whose id is the key, if there is one; when no movie has the key as
    id, it is the one found by slug. *)
Theorem get_movie_first_match :
  forall (db : DB) (key : string),
    (get_movie key db = (Raise (mkHTTPException 404 "Movie not found"), db)
     <-> forall m, In m (movies db) -> Movie.id m <> key /\ Movie.slug m <> key)
    /\ (forall m,
          get_movie key db = (Ok m, db)
          <-> exists pre post,
                movies db = pre ++ m :: post
                /\ (Movie.id m = key \/ Movie.slug m = key)
                /\ (forall y, In y pre -> Movie.id y <> key /\ Movie.slug y <> key))
    /\ ((forall y, In y (movies db) -> Movie.slug y = key -> Movie.id y = key) ->
        forall m,
          List.find (has_movie_id key) (movies db) = Some m ->
          get_movie key db = (Ok m, db))
    /\ (List.find (has_movie_id key) (movies db) = None ->
        get_movie key db
        = match List.find (has_slug key) (movies db) with
          | Some m => (Ok m, db)
          | None => (Raise (mkHTTPException 404 "Movie not found"), db)
          end).
Proof.
  intros db key. rewrite get_movie_run. split; [|split; [|split]].
  - destruct (List.find (id_or_slug key) (movies db)) as [m|] eqn:Hfind; split.
    + discriminate.
    + intros Hnone. apply find_some in Hfind. destruct Hfind as [Hm Hq].
      apply id_or_slug_true in Hq. destruct (Hnone m Hm) as [H1 H2]. tauto.
    + intros _ m Hm. apply id_or_slug_false. exact (find_none _ _ Hfind m Hm).
    + reflexivity.
  - intros m. split.
    + destruct (List.find (id_or_slug key) (movies db)) as [m'|] eqn:Hfind;
        [|discriminate].
      intros Heq. injection Heq as ->.
      destruct (find_split _ _ _ Hfind) as (pre & post & Hsplit & Hq & Hpre).
      exists pre, post. split; [assumption|]. split.
      * now apply id_or_slug_true.
      * intros y Hy. apply id_or_slug_false. now apply Hpre.
    + intros (pre & post & -> & Hq & Hpre).
      rewrite (find_at (id_or_slug key) pre m post); [reflexivity| |].
      * now apply id_or_slug_true.
      * intros y Hy. apply id_or_slug_false. now apply Hpre.
  - intros Hslug m Hfind.
    rewrite (find_ext_in (id_or_slug key) (has_movie_id key)), Hfind; [reflexivity|].
    intros y Hy. unfold id_or_slug, has_movie_id.
    destruct (Movie.id y =? key)%string eqn:Eid; [reflexivity|]. simpl.
    apply String.eqb_neq. intros Hs. apply String.eqb_neq in Eid.
    apply Eid. now apply Hslug.
  - intros Hnone.
    rewrite (find_ext_in (id_or_slug key) (has_slug key)); [reflexivity|].
    intros y Hy. unfold id_or_slug, has_slug.
    pose proof (find_none _ _ Hnone y Hy) as Hid. unfold has_movie_id in Hid.
    now rewrite Hid.
Qed.

Lemma get_movie_first_match_witness :
  get_movie "m-sintel" Sample.db0 = (Ok Sample.sintel, Sample.db0)
  /\ get_movie "big-buck-bunny" Sample.db0 = (Ok Sample.bunny, Sample.db0)
  /\ get_movie "m-ghost" Sample.db0
     = (Raise (mkHTTPException 404 "Movie not found"), Sample.db0).
Proof.
  split; [|split].
  - apply (proj1 (proj2 (proj2 (get_movie_first_match Sample.db0 "m-sintel")))).
    + simpl. intros y [<-|[<-|[]]]; simpl; intros E; discriminate E.
    + reflexivity.
  - rewrite (proj2 (proj2 (proj2 (get_movie_first_match Sample.db0 "big-buck-bunny"))));
      reflexivity.
  - apply (proj1 (get_movie_first_match Sample.db0 "m-ghost")).
    simpl. intros m [<-|[<-|[]]]; simpl; split; discriminate.
Defined.

(* ================================================================= *)
(** ** Movies: slugs *)

Lemma find_slug_none slug ms :
  List.find (has_slug slug) ms = None <-> ~ In slug (map Movie.slug ms).
Proof.
  split.
  - intros Hnone Hin. apply in_map_iff in Hin. destruct Hin as (m & Hs & Hm).
    pose proof (find_none _ _ Hnone m Hm) as Hq. unfold has_slug in Hq.
    apply String.eqb_neq in Hq. contradiction.
  - intros Hout. apply find_none_intro. intros m Hm. unfold has_slug.
    apply String.eqb_neq. intros Hs. apply Hout. rewrite <- Hs. now apply in_map.
Qed.

(** Creation refuses a slug that is taken. *)
Lemma create_movie_conflict new_id now movie_data admin_user db :
  In (MovieCreate.slug movie_data) (map Movie.slug (movies db)) ->
  create_movie new_id now movie_data admin_user db
  = (Raise (mkHTTPException 400 "Movie with this slug already exists"), db).
Proof.
  intros Hin. unfold create_movie. run.
  destruct (List.find (has_slug (MovieCreate.slug movie_data)) (movies db)) eqn:E;
    [reflexivity|].
  apply find_slug_none in E. contradiction.
Qed.

(** Creation keeps slugs unique. *)
Lemma create_movie_unique_slugs new_id now movie_data admin_user db :
  unique_slugs db ->
  unique_slugs (snd (create_movie new_id now movie_data admin_user db)).
Proof.
  unfold unique_slugs. intros Hnd. unfold create_movie. run.
  destruct (List.find (has_slug (MovieCreate.slug movie_data)) (movies db)) eqn:E;
    simpl; [assumption|].
  destruct (int64 (MovieCreate.release_year movie_data)
            && int64 (MovieCreate.duration_minutes movie_data));
    simpl; [|assumption].
  apply find_slug_none in E. rewrite map_app. simpl.
  apply NoDup_rev in Hnd. rewrite <- (rev_involutive (map Movie.slug (movies db) ++ _)).
  apply NoDup_rev. rewrite rev_app_distr. simpl. constructor; [|assumption].
  now rewrite <- in_rev.
Qed.

Lemma delete_first_slugs (q : Movie.t -> bool) ms :
  NoDup (map Movie.slug ms) -> NoDup (map Movie.slug (delete_first q ms)).
Proof.
  induction ms as [|m ms IH]; simpl; intros Hnd; [assumption|].
  apply NoDup_cons_iff in Hnd. destruct Hnd as [Hm Hnd].
  destruct (q m); [assumption|]. simpl. constructor; [|now apply IH].
  intros Hin. apply Hm. clear - Hin.
  induction ms as [|x ms IH]; simpl in *; [assumption|].
  destruct (q x); [now right|]. simpl in Hin. destruct Hin as [Hx|Hin]; [now left|].
  right. now apply IH.
Qed.

(** Deletion keeps slugs unique. *)
Lemma delete_movie_unique_slugs movie_id admin_user db :
  unique_slugs db -> unique_slugs (snd (delete_movie movie_id admin_user db)).
Proof.
  unfold unique_slugs. intros Hnd. unfold delete_movie. run.
  destruct (List.find (has_movie_id movie_id) (movies db)); simpl; [|assumption].
  now apply delete_first_slugs.
Qed.

(** C6. Slug uniqueness is not kept by the code.  Creation checks the
    slug, update does not: after two movies are created with the slugs
    ["first"] and ["second"], an update of the second movie to the slug
    ["first"] succeeds and the collection holds two movies with one slug. *)
Theorem update_movie_duplicates_slug :
  let db1 := snd (create_movie "m-1" 1 (Sample.new_movie "first" "First")
                    Sample.admin Sample.no_movies) in
  let db2 := snd (create_movie "m-2" 2 (Sample.new_movie "second" "Second")
                    Sample.admin db1) in
  let db3 := snd (update_movie 3 "m-2" (Sample.reslug "first") Sample.admin db2) in
  unique_slugs db2
  /\ (exists m, fst (update_movie 3 "m-2" (Sample.reslug "first") Sample.admin db2)
                = Ok m /\ Movie.id m = "m-2" /\ Movie.slug m = "first")
  /\ map Movie.id (movies db3) = ["m-1"; "m-2"]
  /\ map Movie.slug (movies db3) = ["first"; "first"]
  /\ ~ unique_slugs db3
  /\ fst (create_movie "m-3" 4 (Sample.new_movie "first" "Third") Sample.admin db2)
     = Raise (mkHTTPException 400 "Movie with this slug already exists").
Proof.
  cbv zeta. split; [|split; [|split; [|split; [|split]]]].
  - unfold unique_slugs. simpl. constructor.
    + simpl. intros [E|[]]. discriminate E.
    + constructor; [intros []|constructor].
  - eexists. split; [reflexivity|]. split; reflexivity.
  - reflexivity.
  - reflexivity.
  - unfold unique_slugs. simpl. intros Hnd. apply NoDup_cons_iff in Hnd.
    destruct Hnd as [Hnot _]. apply Hnot. now left.
  - reflexivity.
Qed.

(* ================================================================= *)
(** ** Movies: listing and search *)

Lemma regex_compile_plain chars :
  forallb (fun c => negb (is_meta c)) chars = true ->
  regex_compile chars = Some (map Lit chars).
Proof.
  induction chars as [|c chars IH]; simpl; [reflexivity|].
  rewrite andb_true_iff, negb_true_iff. intros [Hc Hrest].
  rewrite (IH Hrest), Hc.
  destruct (Ascii.eqb c ".") eqn:E; [|reflexivity].
  apply Ascii.eqb_eq in E. subst c. discriminate Hc.
Qed.

(** A pattern of literals matches at the start of the subject when the
    subject starts with it, case folded. *)
Lemma match_here_lit p s :
  match_here (map Lit p) s = true <->
  exists rest, map to_lower s = map to_lower p ++ rest.
Proof.
  revert s. induction p as [|c p IH]; intros s; simpl.
  - split; [intros _; now exists (map to_lower s)|reflexivity].
  - destruct s as [|d s]; simpl.
    + split; [discriminate|]. intros (rest & Hrest). discriminate Hrest.
    + rewrite andb_true_iff, Ascii.eqb_eq, IH. split.
      * intros (Hc & rest & Hrest). exists rest. now rewrite Hc, Hrest.
      * intros (rest & Hrest). injection Hrest as Hd Hs. split; [now symmetry|].
        now exists rest.
Qed.

Lemma regex_search_lit p s :
  regex_search (map Lit p) s = true <->
  exists pre post, map to_lower s = pre ++ map to_lower p ++ post.
Proof.
  induction s as [|d s IH].
  - simpl regex_search. rewrite orb_false_r, match_here_lit. simpl. split.
    + intros (rest & Hrest). now exists [], rest.
    + intros (pre & post & Heq). symmetry in Heq.
      apply app_eq_nil in Heq. destruct Heq as [_ Heq]. now exists post.
  - simpl regex_search. rewrite orb_true_iff, IH, match_here_lit. split.
    + intros [(rest & Hrest)|(pre & post & Heq)].
      * now exists [], rest.
      * exists (to_lower d :: pre), post. simpl. now rewrite Heq.
    + intros (pre & post & Heq). destruct pre as [|x pre].
      * left. now exists post.
      * right. simpl in Heq. injection Heq as _ Heq. now exists pre, post.
Qed.

(** The engine run on a pattern of literals decides the substring test
    of the specification. *)
Lemma regex_matches_icontains needle hay :
  regex_matches (map Lit (list_ascii_of_string needle)) hay = true
  <-> icontains needle hay.
Proof. unfold regex_matches, icontains. apply regex_search_lit. Qed.

Lemma MovieCategory_value_inj c1 c2 :
  MovieCategory_value c1 = MovieCategory_value c2 -> c1 = c2.
Proof. destruct c1, c2; simpl; intros E; try reflexivity; discriminate E. Qed.

Lemma truthy_category_Some c : truthy_category (Some c) = Some c.
Proof. now destruct c. Qed.

Lemma matches_query_wanted category year search m :
  matches_query
    (MovieQuery.mk (truthy_category category) (truthy_int year)
       (Some (map Lit (list_ascii_of_string search)))) m = true
  <-> wanted category year search m.
Proof.
  unfold matches_query, wanted. simpl.
  rewrite !andb_true_iff, orb_true_iff, !regex_matches_icontains.
  assert (Hcat : match truthy_category category with
                 | Some c => (MovieCategory_value (Movie.category m)
                              =? MovieCategory_value c)%string
                 | None => true
                 end = true
                 <-> forall c, category = Some c -> Movie.category m = c).
  { destruct category as [c|].
    - rewrite truthy_category_Some, String.eqb_eq. split.
      + intros E c' Hc'. injection Hc' as <-. now apply MovieCategory_value_inj.
      + intros Hc. now rewrite (Hc c eq_refl).
    - simpl. split; [discriminate|reflexivity]. }
  assert (Hyear : match truthy_int year with
                  | Some y => Movie.release_year m =? y
                  | None => true
                  end = true
                  <-> forall y, year = Some y -> y <> 0 -> Movie.release_year m = y).
  { destruct year as [y|]; simpl.
    - destruct (y =? 0) eqn:E.
      + apply Z.eqb_eq in E. split; [|reflexivity].
        intros _ y' Hy' Hne. injection Hy' as <-. contradiction.
      + apply Z.eqb_neq in E. rewrite Z.eqb_eq. split.
        * intros Hm y' Hy' _. now injection Hy' as <-.
        * intros Hy. now apply Hy.
    - split; [discriminate|reflexivity]. }
  rewrite Hcat, Hyear. tauto.
Qed.

Lemma limit_prefix {A} n (l : list A) : exists rest, l = limit n l ++ rest.
Proof.
  unfold limit. destruct (n =? 0).
  - exists []. now rewrite app_nil_r.
  - exists (skipn (Z.to_nat n) l). now rewrite firstn_skipn.
Qed.

Lemma limit_length {A} n (l : list A) :
  n <> 0 -> List.length (limit n l) = Nat.min (Z.to_nat n) (List.length l).
Proof.
  intros Hn. unfold limit. apply Z.eqb_neq in Hn. rewrite Hn.
  apply length_firstn.
Qed.

Lemma limit_zero {A} (l : list A) : limit 0 l = l.
Proof. reflexivity. Qed.


Lemma regex_search_nil s : regex_search [] s = true.
Proof. now destruct s. Qed.

Lemma get_movies_plain_run db category year search limit_ :
  plain_text search ->
  ascii_text search = true ->
  forallb searchable (movies db) = true ->
  0 <= or_else limit_ 50 ->
  get_movies category year (Some search) limit_ db
  = Some (find_movies
            (MovieQuery.mk (truthy_category category) (truthy_int year)
               (Some (map Lit (list_ascii_of_string search))))
            (or_else limit_ 50) db).
Proof.
  intros Hplain Hascii Hmovies Hlimit. unfold get_movies, truthy_str.
  destruct (or_else limit_ 50 <? 0) eqn:El; [apply Z.ltb_lt in El; lia|].
  destruct (search =? "")%string eqn:E.
  - apply String.eqb_eq in E. subst search. simpl list_ascii_of_string.
    unfold find_movies. simpl MovieQuery.release_year.
    destruct (int64_opt (truthy_int year) && int64 (or_else limit_ 50));
      [|reflexivity].
    do 3 f_equal. apply filter_ext. intros m. unfold matches_query. simpl.
    unfold regex_matches. now rewrite !regex_search_nil.
  - now rewrite (regex_compile_plain _ Hplain), Hascii, Hmovies.
Qed.



(** The search of the integration test finds the one movie with "Buck" in
    its title, whatever the case of the text; a year of 0 and a limit of
    0 filter nothing; a year beyond 8 bytes fails in the driver. *)
Example get_movies_buck :
  get_movies None None (Some "Buck") None Sample.db0 = Some (Ok [Sample.bunny])
  /\ get_movies None None (Some "bUCK") None Sample.db0 = Some (Ok [Sample.bunny])
  /\ get_movies None (Some 0) None (Some 0) Sample.db0
     = Some (Ok [Sample.bunny; Sample.sintel])
  /\ get_movies None None None (Some 1) Sample.db0 = Some (Ok [Sample.bunny])
  /\ get_movies None (Some (2 ^ 63)) None None Sample.db0
     = Some (Raise internal_error).
Proof. repeat split; reflexivity. Qed.

(* ================================================================= *)
(** ** Ids stay unique

    The theorems on owned profiles and on progress records assume that
    the ids of a collection are pairwise distinct.  The handlers keep it
    so, the ids they are given being fresh. *)

Lemma update_first_keys {A} (key : A -> string) q upd (c : list A) :
  (forall x, key (upd x) = key x) ->
  map key (update_first q upd c) = map key c.
Proof.
  intros Hkey. induction c as [|d c IH]; simpl; [reflexivity|].
  destruct (q d); simpl; [now rewrite Hkey|now rewrite IH].
Qed.

Lemma NoDup_snoc {A} (l : list A) x : NoDup l -> ~ In x l -> NoDup (l ++ [x]).
Proof.
  intros Hnd Hx. apply NoDup_rev in Hnd.
  rewrite <- (rev_involutive (l ++ [x])). apply NoDup_rev.
  rewrite rev_app_distr. simpl. constructor; [|assumption].
  now rewrite <- in_rev.
Qed.

Lemma create_profile_unique_ids new_id now profile_data u db :
  unique_profile_ids db ->
  ~ In new_id (map Profile.id (profiles db)) ->
  unique_profile_ids (snd (create_profile new_id now profile_data u db)).
Proof.
  unfold unique_profile_ids, create_profile. run. intros Hnd Hfresh.
  rewrite map_app. simpl. now apply NoDup_snoc.
Qed.

Lemma update_profile_unique_ids profile_id profile_data u db :
  unique_profile_ids db ->
  unique_profile_ids (snd (update_profile profile_id profile_data u db)).
Proof.
  unfold unique_profile_ids, update_profile. run. intros Hnd.
  destruct (List.find (owned_by profile_id u) (profiles db)); simpl; [|assumption].
  destruct (ProfileUpdate_is_empty profile_data); simpl.
  - now destruct (List.find (has_profile_id profile_id) (profiles db)).
  - destruct (List.find (has_profile_id profile_id) _); simpl;
      now rewrite update_first_keys.
Qed.

Lemma add_to_watchlist_unique_ids profile_id movie_id u db :
  unique_profile_ids db ->
  unique_profile_ids (snd (add_to_watchlist profile_id movie_id u db)).
Proof.
  unfold unique_profile_ids, add_to_watchlist. run. intros Hnd.
  destruct (List.find (owned_by profile_id u) (profiles db)) as [p|]; simpl;
    [|assumption].
  destruct (List.find (has_movie_id movie_id) (movies db)); simpl; [|assumption].
  destruct (mem movie_id (Profile.watchlist p)); simpl; [assumption|].
  now rewrite update_first_keys.
Qed.

Lemma update_view_progress_unique_ids new_id now movie_id profile_id d u db :
  unique_profile_ids db ->
  unique_progress_ids db ->
  ~ In new_id (map ViewProgress.id (view_progress db)) ->
  unique_profile_ids (snd (update_view_progress new_id now movie_id profile_id d u db))
  /\ unique_progress_ids
       (snd (update_view_progress new_id now movie_id profile_id d u db)).
Proof.
  unfold unique_profile_ids, unique_progress_ids, update_view_progress. run.
  intros Hnd Hndv Hfresh.
  destruct (List.find (owned_by profile_id u) (profiles db)) as [p|]; simpl;
    [|now split].
  destruct (List.find (has_movie_id movie_id) (movies db)); simpl; [|now split].
  destruct (List.find (for_pair profile_id movie_id) (view_progress db)); simpl;
    destruct (int64 (ViewProgressUpdate.progress_seconds d)); simpl;
    try (now split);
    destruct (mem movie_id (Profile.watch_history p)); simpl;
    rewrite ?update_first_keys by reflexivity;
    rewrite ?map_app; simpl; split;
    try assumption; now apply NoDup_snoc.
Qed.

(* ================================================================= *)
(** ** Profile-scoped routes and the non-owner *)

(** X1. Every route that takes a profile id (watchlist listing, add,
    remove and check, continue watching, progress recording) answers a
    caller who does not own a profile of that id with 404 "Profile not
    found" and writes nothing. *)
Theorem profile_routes_refuse_non_owner :
  forall (db : DB) (principal : User.t) (profile_id movie_id new_id : string)
         (now : datetime) (d : ViewProgressUpdate.t),
    (forall p, In p (profiles db) -> Profile.id p = profile_id ->
               Profile.user_id p <> User.id principal) ->
    let not_found := mkHTTPException 404 "Profile not found" in
    get_watchlist profile_id principal db = (Raise not_found, db)
    /\ add_to_watchlist profile_id movie_id principal db = (Raise not_found, db)
    /\ remove_from_watchlist profile_id movie_id principal db = (Raise not_found, db)
    /\ check_watchlist_status profile_id movie_id principal db = (Raise not_found, db)
    /\ get_continue_watching profile_id principal db = (Raise not_found, db)
    /\ update_view_progress new_id now movie_id profile_id d principal db
       = (Raise not_found, db).
Proof.
  intros db principal profile_id movie_id new_id now d Hother not_found.
  pose proof (not_owned_not_found _ _ _ Hother) as Hnone.
  repeat split.
  - unfold get_watchlist. run. now rewrite Hnone.
  - unfold add_to_watchlist. run. now rewrite Hnone.
  - unfold remove_from_watchlist. run. now rewrite Hnone.
  - unfold check_watchlist_status. run. now rewrite Hnone.
  - unfold get_continue_watching. run. now rewrite Hnone.
  - unfold update_view_progress. run. now rewrite Hnone.
Qed.

Lemma profile_routes_refuse_non_owner_witness :
  add_to_watchlist "p-alice" "m-bunny" Sample.bob Sample.db0
  = (Raise (mkHTTPException 404 "Profile not found"), Sample.db0)
  /\ update_view_progress "v-9" 300 "m-bunny" "p-alice"
       (ViewProgressUpdate.mk 60 false) Sample.bob Sample.db0
     = (Raise (mkHTTPException 404 "Profile not found"), Sample.db0).
Proof.
  destruct (profile_routes_refuse_non_owner Sample.db0 Sample.bob "p-alice"
              "m-bunny" "v-9" 300 (ViewProgressUpdate.mk 60 false))
    as (_ & Hadd & _ & _ & _ & Hview).
  - simpl. intros p [<-|[]] _. simpl. discriminate.
  - split; [exact Hadd|exact Hview].
Defined.

(* ================================================================= *)
(** ** Watchlist: removal, membership, listing *)

Lemma pull_In v xs x : In x (pull v xs) <-> In x xs /\ x <> v.
Proof.
  unfold pull. rewrite filter_In, negb_true_iff, String.eqb_neq. tauto.
Qed.

Lemma pull_absent v xs : ~ In v xs -> pull v xs = xs.
Proof.
  unfold pull. induction xs as [|x xs IH]; simpl; intros Hv; [reflexivity|].
  destruct (x =? v)%string eqn:E.
  - apply String.eqb_eq in E. exfalso. apply Hv. now left.
  - simpl. f_equal. apply IH. intros Hin. apply Hv. now right.
Qed.

Lemma pull_snoc v xs : ~ In v xs -> pull v (xs ++ [v]) = xs.
Proof.
  intros Hv. unfold pull. rewrite filter_app. simpl.
  rewrite String.eqb_refl. simpl. rewrite app_nil_r. now apply pull_absent.
Qed.

Lemma pull_count v xs x :
  x <> v -> count_occ string_dec (pull v xs) x = count_occ string_dec xs x.
Proof.
  intros Hx. unfold pull. induction xs as [|y xs IH]; simpl; [reflexivity|].
  destruct (y =? v)%string eqn:E; simpl.
  - apply String.eqb_eq in E. subst y.
    destruct (string_dec v x) as [->|_]; [contradiction|exact IH].
  - destruct (string_dec y x); now rewrite IH.
Qed.

Lemma pull_watchlist_absent movie_id p :
  ~ In movie_id (Profile.watchlist p) -> pull_watchlist movie_id p = p.
Proof.
  intros Hout. unfold pull_watchlist. rewrite (pull_absent _ _ Hout).
  now destruct p.
Qed.

Lemma remove_from_watchlist_run db u profile_id movie_id p pre post :
  profiles db = pre ++ p :: post ->
  Profile.id p = profile_id -> Profile.user_id p = User.id u ->
  (forall y, In y pre -> has_profile_id profile_id y = false) ->
  remove_from_watchlist profile_id movie_id u db
  = (Ok "Removed from watchlist",
     mkDB (users db) (pre ++ pull_watchlist movie_id p :: post) (movies db)
       (view_progress db)).
Proof.
  intros Heq Hid Hu Hpre. destruct db as [us ps ms vs]. simpl in *. subst ps.
  unfold remove_from_watchlist. run.
  rewrite (find_owned_at _ _ _ _ _ Hid Hu Hpre). simpl.
  now rewrite (update_profile_id_at _ _ _ _ _ Hid Hpre).
Qed.

(** X2. Removing a movie id from the watchlist of an owned profile always
    succeeds, whether or not the id is a movie and whether or not it was
    in the list: afterwards every occurrence of the id is gone, the other
    ids are kept as they were, the membership check answers false, and a
    removal of an id that was not in the list changes nothing at all. *)
Theorem remove_from_watchlist_removes :
  forall (db : DB) (principal : User.t) (profile_id movie_id : string)
         (p : Profile.t),
    unique_profile_ids db ->
    In p (profiles db) ->
    Profile.id p = profile_id ->
    Profile.user_id p = User.id principal ->
    exists db' wl,
      remove_from_watchlist profile_id movie_id principal db
      = (Ok "Removed from watchlist", db')
      /\ watchlist_of profile_id principal db' = Some wl
      /\ ~ In movie_id wl
      /\ (forall x, x <> movie_id ->
            count_occ string_dec wl x
            = count_occ string_dec (Profile.watchlist p) x)
      /\ check_watchlist_status profile_id movie_id principal db' = (Ok false, db')
      /\ users db' = users db
      /\ movies db' = movies db
      /\ view_progress db' = view_progress db
      /\ (~ In movie_id (Profile.watchlist p) -> db' = db).
Proof.
  intros db principal profile_id movie_id p Hnd Hp Hid Hu.
  destruct (owned_profile_position db profile_id principal p Hnd Hp Hid Hu)
    as (pre & post & Heq & Hpre & _).
  exists (mkDB (users db) (pre ++ pull_watchlist movie_id p :: post) (movies db)
            (view_progress db)).
  exists (pull movie_id (Profile.watchlist p)).
  assert (Hfind : List.find (owned_by profile_id principal)
                    (pre ++ pull_watchlist movie_id p :: post)
                  = Some (pull_watchlist movie_id p)).
  { apply find_owned_at; assumption. }
  assert (Hgone : ~ In movie_id (pull movie_id (Profile.watchlist p))).
  { intros Hin. apply pull_In in Hin. now destruct Hin. }
  split; [now apply remove_from_watchlist_run|].
  split; [unfold watchlist_of; simpl; now rewrite Hfind|].
  split; [exact Hgone|].
  split; [intros x Hx; now apply pull_count|].
  split.
  { unfold check_watchlist_status. run. rewrite Hfind. simpl.
    apply mem_false in Hgone. now rewrite Hgone. }
  repeat split.
  intros Hout. rewrite (pull_watchlist_absent _ _ Hout), <- Heq. now destruct db.
Qed.

Lemma remove_from_watchlist_removes_witness :
  exists db' wl,
    remove_from_watchlist "p-alice" "m-ghost" Sample.alice Sample.db0
    = (Ok "Removed from watchlist", db')
    /\ watchlist_of "p-alice" Sample.alice db' = Some wl
    /\ ~ In "m-ghost" wl
    /\ db' = Sample.db0.
Proof.
  destruct (remove_from_watchlist_removes Sample.db0 Sample.alice "p-alice"
              "m-ghost" Sample.alice_profile)
    as (db' & wl & Hrun & Hwl & Hgone & _ & _ & _ & _ & _ & Hsame).
  - unfold unique_profile_ids. simpl. constructor; [intros []|constructor].
  - simpl. auto.
  - reflexivity.
  - reflexivity.
  - exists db', wl. split; [exact Hrun|]. split; [exact Hwl|].
    split; [exact Hgone|]. apply Hsame. simpl. intros [].
Defined.

(** X3. On an owned profile, adding a movie that was not in the
    watchlist and then removing it brings the whole database back to
    what it was. *)
Theorem add_then_remove_restores :
  forall (db : DB) (principal : User.t) (profile_id movie_id : string)
         (p : Profile.t),
    unique_profile_ids db ->
    In p (profiles db) ->
    Profile.id p = profile_id ->
    Profile.user_id p = User.id principal ->
    (exists m, In m (movies db) /\ Movie.id m = movie_id) ->
    ~ In movie_id (Profile.watchlist p) ->
    exists db1,
      add_to_watchlist profile_id movie_id principal db
      = (Ok "Added to watchlist", db1)
      /\ check_watchlist_status profile_id movie_id principal db1 = (Ok true, db1)
      /\ remove_from_watchlist profile_id movie_id principal db1
         = (Ok "Removed from watchlist", db).
Proof.
  intros db principal profile_id movie_id p Hnd Hp Hid Hu Hmovie Habsent.
  destruct (owned_profile_position db profile_id principal p Hnd Hp Hid Hu)
    as (pre & post & Heq & Hpre & _).
  destruct (find_movie_id_exists movie_id (movies db) Hmovie) as (m & Hm).
  exists (mkDB (users db) (pre ++ push_watchlist movie_id p :: post) (movies db)
            (view_progress db)).
  assert (Hid1 : Profile.id (push_watchlist movie_id p) = profile_id) by exact Hid.
  assert (Hu1 : Profile.user_id (push_watchlist movie_id p) = User.id principal)
    by exact Hu.
  split; [|split].
  - unfold add_to_watchlist. run. rewrite Heq, (find_owned_at _ _ _ _ _ Hid Hu Hpre).
    rewrite Hm. apply mem_false in Habsent. rewrite Habsent. simpl. rewrite Heq.
    now rewrite (update_profile_id_at _ _ _ _ _ Hid Hpre).
  - unfold check_watchlist_status. run.
    rewrite (find_owned_at _ _ _ _ _ Hid1 Hu1 Hpre). simpl.
    assert (Hin : mem movie_id (Profile.watchlist p ++ [movie_id]) = true).
    { apply mem_In. apply in_or_app. right. now left. }
    now rewrite Hin.
  - rewrite (remove_from_watchlist_run
               (mkDB (users db) (pre ++ push_watchlist movie_id p :: post)
                  (movies db) (view_progress db))
               principal profile_id movie_id
               (push_watchlist movie_id p) pre post eq_refl Hid1 Hu1 Hpre).
    simpl. f_equal. unfold pull_watchlist. simpl.
    rewrite (pull_snoc _ _ Habsent).
    destruct db as [us ps ms vs]. simpl in *. subst ps. now destruct p.
Qed.

Lemma add_then_remove_restores_witness :
  exists db1,
    add_to_watchlist "p-alice" "m-sintel" Sample.alice Sample.db0
    = (Ok "Added to watchlist", db1)
    /\ check_watchlist_status "p-alice" "m-sintel" Sample.alice db1 = (Ok true, db1)
    /\ remove_from_watchlist "p-alice" "m-sintel" Sample.alice db1
       = (Ok "Removed from watchlist", Sample.db0).
Proof.
  apply (add_then_remove_restores Sample.db0 Sample.alice "p-alice" "m-sintel"
           Sample.alice_profile).
  - unfold unique_profile_ids. simpl. constructor; [intros []|constructor].
  - simpl. auto.
  - reflexivity.
  - reflexivity.
  - exists Sample.sintel. split; [simpl; auto | reflexivity].
  - simpl. intros [].
Defined.

Lemma filter_none {A} (f : A -> bool) l :
  (forall x, In x l -> f x = false) -> filter f l = [].
Proof.
  induction l as [|x l IH]; simpl; intros H; [reflexivity|].
  rewrite (H x (or_introl eq_refl)). apply IH. intros y Hy. apply H. now right.
Qed.

(** X4. The watchlist listing of an owned profile holds exactly the
    movies of the collection whose id is in the profile's watchlist, in
    collection order and each once: ids of no movie are passed over and an
    id repeated in the watchlist does not repeat the movie. *)
Theorem get_watchlist_members :
  forall (db : DB) (principal : User.t) (profile_id : string) (wl : list string),
    watchlist_of profile_id principal db = Some wl ->
    exists res,
      get_watchlist profile_id principal db = (Ok res, db)
      /\ (forall m, In m res <-> In m (movies db) /\ In (Movie.id m) wl)
      /\ res = filter (fun m => mem (Movie.id m) wl) (movies db)
      /\ (NoDup (movies db) -> NoDup res)
      /\ (List.length res <= List.length (movies db))%nat.
Proof.
  intros db principal profile_id wl Hwl. unfold watchlist_of in Hwl.
  destruct (List.find (owned_by profile_id principal) (profiles db)) as [p|] eqn:Hfind;
    [|discriminate]. simpl in Hwl. injection Hwl as Hwl.
  exists (filter (fun m => mem (Movie.id m) wl) (movies db)).
  split; [|split; [|split; [|split]]].
  - unfold get_watchlist. run. rewrite Hfind, Hwl. destruct wl as [|x wl].
    + simpl. now rewrite filter_none.
    + reflexivity.
  - intros m. rewrite filter_In, mem_In. tauto.
  - reflexivity.
  - apply NoDup_filter.
  - apply filter_length_le.
Qed.

Lemma get_watchlist_members_witness :
  exists res,
    get_watchlist "p-alice" Sample.alice
      (mkDB [Sample.alice]
         [Profile.mk "p-alice" "u-alice" "Alice" "default" "en" PG13 []
            ["m-sintel"; "m-ghost"; "m-sintel"] 0]
         [Sample.bunny; Sample.sintel] [])
    = (Ok res,
       mkDB [Sample.alice]
         [Profile.mk "p-alice" "u-alice" "Alice" "default" "en" PG13 []
            ["m-sintel"; "m-ghost"; "m-sintel"] 0]
         [Sample.bunny; Sample.sintel] [])
    /\ res = [Sample.sintel].
Proof.
  destruct (get_watchlist_members
              (mkDB [Sample.alice]
                 [Profile.mk "p-alice" "u-alice" "Alice" "default" "en" PG13 []
                    ["m-sintel"; "m-ghost"; "m-sintel"] 0]
                 [Sample.bunny; Sample.sintel] [])
              Sample.alice "p-alice" ["m-sintel"; "m-ghost"; "m-sintel"])
    as (res & Hrun & _ & Hres & _).
  - reflexivity.
  - exists res. split; [exact Hrun|]. rewrite Hres. reflexivity.
Defined.

(* ================================================================= *)
(** ** Movies: deletion *)

Lemma delete_movie_run db admin_user movie_id m pre post :
  movies db = pre ++ m :: post ->
  Movie.id m = movie_id ->
  (forall y, In y pre -> has_movie_id movie_id y = false) ->
  delete_movie movie_id admin_user db
  = (Ok "Movie deleted successfully",
     mkDB (users db) (profiles db) (pre ++ post) (view_progress db)).
Proof.
  intros Heq Hid Hpre. destruct db as [us ps ms vs]. simpl in *. subst ms.
  assert (Hq : has_movie_id movie_id m = true).
  { unfold has_movie_id. now apply String.eqb_eq. }
  unfold delete_movie. run. rewrite (find_at _ _ _ _ Hq Hpre). simpl.
  now rewrite (delete_first_at _ _ _ _ Hq Hpre).
Qed.

(** X5. Deleting a movie that exists removes it and nothing else: the
    other movies stay, and no profile or progress record is touched, so
    watchlists and progress records keep the id of the deleted movie.
    The membership check answers as before, the watchlist listing no
    longer shows the movie, and a second deletion is a 404. *)
Theorem delete_movie_leaves_references :
  forall (db : DB) (admin_user : User.t) (movie_id : string) (m : Movie.t),
    unique_movie_ids db ->
    In m (movies db) ->
    Movie.id m = movie_id ->
    exists db',
      delete_movie movie_id admin_user db = (Ok "Movie deleted successfully", db')
      /\ (forall m', In m' (movies db') <->
                     In m' (movies db) /\ Movie.id m' <> movie_id)
      /\ users db' = users db
      /\ profiles db' = profiles db
      /\ view_progress db' = view_progress db
      /\ delete_movie movie_id admin_user db'
         = (Raise (mkHTTPException 404 "Movie not found"), db')
      /\ (forall u profile_id,
            fst (check_watchlist_status profile_id movie_id u db')
            = fst (check_watchlist_status profile_id movie_id u db))
      /\ (forall u profile_id res,
            get_watchlist profile_id u db' = (Ok res, db') ->
            forall x, In x res -> Movie.id x <> movie_id).
Proof.
  intros db admin_user movie_id m Hnd Hm Hid. unfold unique_movie_ids in Hnd.
  destruct (in_split _ _ Hm) as (pre & post & Heq). rewrite Heq in Hnd.
  assert (Hpre : forall y, In y pre -> has_movie_id movie_id y = false).
  { subst movie_id. exact (unique_key_before Movie.id pre m post Hnd). }
  assert (Hpost : forall y, In y post -> has_movie_id movie_id y = false).
  { subst movie_id. exact (unique_key_after Movie.id pre m post Hnd). }
  assert (Hrest : forall m', In m' (pre ++ post) <->
                             In m' (movies db) /\ Movie.id m' <> movie_id).
  { intros m'. rewrite Heq, !in_app_iff. simpl. split.
    - intros [Hin|Hin]; (split; [tauto|]).
      + apply String.eqb_neq. exact (Hpre m' Hin).
      + apply String.eqb_neq. exact (Hpost m' Hin).
    - intros [[Hin|[<-|Hin]] Hne]; [now left|contradiction|now right]. }
  exists (mkDB (users db) (profiles db) (pre ++ post) (view_progress db)).
  split; [now apply (delete_movie_run db admin_user movie_id m pre post)|].
  split; [exact Hrest|]. split; [reflexivity|]. split; [reflexivity|].
  split; [reflexivity|]. split; [|split].
  - unfold delete_movie. run. rewrite find_movie_id_none; [reflexivity|].
    intros y Hy. now apply Hrest in Hy.
  - intros u profile_id. unfold check_watchlist_status. run.
    now destruct (List.find (owned_by profile_id u) (profiles db)).
  - intros u profile_id res Hres x Hx. revert Hres. unfold get_watchlist. run.
    destruct (List.find (owned_by profile_id u) (profiles db)) as [p|];
      [|discriminate].
    destruct (Profile.watchlist p) as [|w wl]; simpl; intros Hres;
      injection Hres as <-; [contradiction|].
    apply filter_In in Hx. destruct Hx as [Hx _]. now apply Hrest in Hx.
Qed.

Lemma delete_movie_leaves_references_witness :
  exists db',
    delete_movie "m-bunny" Sample.admin Sample.db_resumed
    = (Ok "Movie deleted successfully", db')
    /\ view_progress db' = [Sample.resumed]
    /\ delete_movie "m-bunny" Sample.admin db'
       = (Raise (mkHTTPException 404 "Movie not found"), db').
Proof.
  destruct (delete_movie_leaves_references Sample.db_resumed Sample.admin
              "m-bunny" Sample.bunny)
    as (db' & Hrun & _ & _ & _ & Hviews & Hagain & _).
  - unfold unique_movie_ids. simpl. constructor.
    + simpl. intros [E|[]]. discriminate E.
    + constructor; [intros []|constructor].
  - simpl. auto.
  - reflexivity.
  - exists db'. split; [exact Hrun|]. split; [exact Hviews|exact Hagain].
Defined.

(* ================================================================= *)
(** ** Profiles: creation, deletion, update *)

Lemma find_update_first {A} (q : A -> bool) f c :
  (forall x, q (f x) = q x) ->
  List.find q (update_first q f c) = option_map f (List.find q c).
Proof.
  intros Hq. induction c as [|d c IH]; simpl; [reflexivity|].
  destruct (q d) eqn:E; simpl.
  - now rewrite Hq, E.
  - now rewrite E.
Qed.

Lemma update_first_twice {A} (q : A -> bool) f g c :
  (forall x, q (f x) = q x) ->
  update_first q g (update_first q f c) = update_first q (fun x => g (f x)) c.
Proof.
  intros Hq. induction c as [|d c IH]; simpl; [reflexivity|].
  destruct (q d) eqn:E; simpl.
  - now rewrite Hq, E.
  - now rewrite E, IH.
Qed.

Lemma update_first_same {A} (q : A -> bool) h c :
  (forall x, In x c -> q x = true -> h x = x) -> update_first q h c = c.
Proof.
  induction c as [|d c IH]; simpl; intros Hh; [reflexivity|].
  destruct (q d) eqn:E.
  - now rewrite (Hh d (or_introl eq_refl) E).
  - f_equal. apply IH. intros x Hx. apply Hh. now right.
Qed.

Lemma create_profile_run new_id now profile_data u db :
  create_profile new_id now profile_data u db
  = (Ok (Profile.mk new_id (User.id u) (ProfileCreate.name profile_data)
           (ProfileCreate.avatar profile_data) (ProfileCreate.language profile_data)
           (ProfileCreate.maturity_rating profile_data) [] [] now),
     mkDB (update_first (fun x => User.id x =? User.id u)%string
             (push_profile new_id) (users db))
       (profiles db
        ++ [Profile.mk new_id (User.id u) (ProfileCreate.name profile_data)
              (ProfileCreate.avatar profile_data)
              (ProfileCreate.language profile_data)
              (ProfileCreate.maturity_rating profile_data) [] [] now])
       (movies db) (view_progress db)).
Proof. reflexivity. Qed.

(** X6. Creating a profile appends a profile with the new id, owned by
    the caller, with the name, avatar, language and maturity rating of
    the body, an empty watch history and watchlist and the time of the
    call as creation time; the caller's profile listing is the previous listing followed by the new
    profile, the listing of every other user is unchanged, and the new id
    is appended to the profile ids of the caller's user document. *)
Theorem create_profile_listed :
  forall (db : DB) (principal : User.t) (new_id : string) (now : datetime)
         (profile_data : ProfileCreate.t),
    exists prof db',
      create_profile new_id now profile_data principal db = (Ok prof, db')
      /\ prof
         = Profile.mk new_id (User.id principal)
             (ProfileCreate.name profile_data) (ProfileCreate.avatar profile_data)
             (ProfileCreate.language profile_data)
             (ProfileCreate.maturity_rating profile_data) [] [] now
      /\ Profile.id prof = new_id
      /\ Profile.user_id prof = User.id principal
      /\ Profile.name prof = ProfileCreate.name profile_data
      /\ Profile.watch_history prof = []
      /\ Profile.watchlist prof = []
      /\ profiles db' = profiles db ++ [prof]
      /\ fst (get_profiles principal db')
         = Ok (filter (fun p => Profile.user_id p =? User.id principal)%string
                 (profiles db) ++ [prof])
      /\ fst (get_profiles principal db)
         = Ok (filter (fun p => Profile.user_id p =? User.id principal)%string
                 (profiles db))
      /\ (forall other, User.id other <> User.id principal ->
            fst (get_profiles other db') = fst (get_profiles other db))
      /\ (forall u0,
            List.find (fun x => User.id x =? User.id principal)%string (users db)
            = Some u0 ->
            exists u1,
              List.find (fun x => User.id x =? User.id principal)%string (users db')
              = Some u1
              /\ User.profiles u1 = User.profiles u0 ++ [new_id]
              /\ User.role u1 = User.role u0
              /\ User.email u1 = User.email u0)
      /\ movies db' = movies db
      /\ view_progress db' = view_progress db.
Proof.
  intros db principal new_id now profile_data.
  rewrite create_profile_run. eexists. eexists. split; [reflexivity|].
  repeat split.
  - unfold get_profiles. run. rewrite filter_app. simpl.
    now rewrite String.eqb_refl.
  - intros other Hother. unfold get_profiles. run. rewrite filter_app. simpl.
    apply not_eq_sym in Hother. apply String.eqb_neq in Hother.
    now rewrite Hother, app_nil_r.
  - intros u0 Hfind. exists (push_profile new_id u0). simpl.
    split; [|repeat split].
    rewrite find_update_first by reflexivity. now rewrite Hfind.
Qed.

Lemma delete_profile_run db u profile_id p pre post :
  profiles db = pre ++ p :: post ->
  Profile.id p = profile_id -> Profile.user_id p = User.id u ->
  (forall y, In y pre -> has_profile_id profile_id y = false) ->
  delete_profile profile_id u db
  = (Ok "Profile deleted successfully",
     mkDB (update_first (fun x => User.id x =? User.id u)%string
             (pull_profile profile_id) (users db))
       (pre ++ post) (movies db) (view_progress db)).
Proof.
  intros Heq Hid Hu Hpre. destruct db as [us ps ms vs]. simpl in *. subst ps.
  assert (Hq : has_profile_id profile_id p = true).
  { unfold has_profile_id. now apply String.eqb_eq. }
  unfold delete_profile. run.
  rewrite (find_owned_at _ _ _ _ _ Hid Hu Hpre). simpl.
  now rewrite (delete_first_at _ _ _ _ Hq Hpre).
Qed.

(** X7. Deleting an owned profile removes that profile and no other,
    pulls its id from the profile ids of the caller's user document, and
    leaves movies and progress records as they are (the progress records
    of the profile stay); the profile is then gone for its owner too:
    deleting or updating it again is a 404. *)
Theorem delete_profile_removes :
  forall (db : DB) (principal : User.t) (profile_id : string) (p : Profile.t)
         (profile_data : ProfileUpdate.t),
    unique_profile_ids db ->
    In p (profiles db) ->
    Profile.id p = profile_id ->
    Profile.user_id p = User.id principal ->
    exists db',
      delete_profile profile_id principal db
      = (Ok "Profile deleted successfully", db')
      /\ (forall q, In q (profiles db') <->
                    In q (profiles db) /\ Profile.id q <> profile_id)
      /\ (forall u0,
            List.find (fun x => User.id x =? User.id principal)%string (users db)
            = Some u0 ->
            exists u1,
              List.find (fun x => User.id x =? User.id principal)%string (users db')
              = Some u1
              /\ ~ In profile_id (User.profiles u1)
              /\ (forall x, x <> profile_id ->
                    (In x (User.profiles u1) <-> In x (User.profiles u0))))
      /\ movies db' = movies db
      /\ view_progress db' = view_progress db
      /\ delete_profile profile_id principal db'
         = (Raise (mkHTTPException 404 "Profile not found"), db')
      /\ update_profile profile_id profile_data principal db'
         = (Raise (mkHTTPException 404 "Profile not found"), db').
Proof.
  intros db principal profile_id p profile_data Hnd Hp Hid Hu.
  destruct (owned_profile_position db profile_id principal p Hnd Hp Hid Hu)
    as (pre & post & Heq & Hpre & Hpost).
  assert (Hrest : forall q, In q (pre ++ post) <->
                            In q (profiles db) /\ Profile.id q <> profile_id).
  { intros q. rewrite Heq, !in_app_iff. simpl. split.
    - intros [Hin|Hin]; (split; [tauto|]); apply String.eqb_neq.
      + exact (Hpre q Hin).
      + exact (Hpost q Hin).
    - intros [[Hin|[<-|Hin]] Hne]; [now left|contradiction|now right]. }
  set (db' := mkDB (update_first (fun x => User.id x =? User.id principal)%string
                      (pull_profile profile_id) (users db))
                (pre ++ post) (movies db) (view_progress db)).
  assert (Hgone : forall q, In q (profiles db') -> Profile.id q = profile_id ->
                            Profile.user_id q <> User.id principal).
  { intros q Hq Hqid. apply Hrest in Hq. now destruct Hq. }
  exists db'.
  split; [now apply (delete_profile_run db principal profile_id p pre post)|].
  split; [exact Hrest|]. split; [|split; [reflexivity|split; [reflexivity|split]]].
  - intros u0 Hfind. exists (pull_profile profile_id u0). simpl. split; [|split].
    + rewrite find_update_first by reflexivity. now rewrite Hfind.
    + intros Hin. apply pull_In in Hin. now destruct Hin.
    + intros x Hx. rewrite pull_In. tauto.
  - now apply delete_profile_not_owned.
  - now apply update_profile_not_owned.
Qed.

Lemma delete_profile_removes_witness :
  exists db',
    delete_profile "p-alice" Sample.alice Sample.db_resumed
    = (Ok "Profile deleted successfully", db')
    /\ view_progress db' = [Sample.resumed]
    /\ delete_profile "p-alice" Sample.alice db'
       = (Raise (mkHTTPException 404 "Profile not found"), db').
Proof.
  destruct (delete_profile_removes Sample.db_resumed Sample.alice "p-alice"
              Sample.alice_profile Sample.rename)
    as (db' & Hrun & _ & _ & _ & Hviews & Hagain & _).
  - unfold unique_profile_ids. simpl. constructor; [intros []|constructor].
  - simpl. auto.
  - reflexivity.
  - reflexivity.
  - exists db'. split; [exact Hrun|]. split; [exact Hviews|exact Hagain].
Defined.

(** X8. Creating a profile under a fresh id and deleting it again brings
    the whole database back to what it was. *)
Theorem create_then_delete_profile_restores :
  forall (db : DB) (principal : User.t) (new_id : string) (now : datetime)
         (profile_data : ProfileCreate.t),
    ~ In new_id (map Profile.id (profiles db)) ->
    (forall u0, In u0 (users db) -> ~ In new_id (User.profiles u0)) ->
    exists prof db1,
      create_profile new_id now profile_data principal db = (Ok prof, db1)
      /\ delete_profile new_id principal db1
         = (Ok "Profile deleted successfully", db).
Proof.
  intros db principal new_id now profile_data Hfresh Hlists.
  rewrite create_profile_run. eexists. eexists. split; [reflexivity|].
  assert (Hpre : forall y, In y (profiles db) -> has_profile_id new_id y = false).
  { intros y Hy. unfold has_profile_id. apply String.eqb_neq. intros E.
    apply Hfresh. rewrite <- E. now apply in_map. }
  erewrite delete_profile_run with (pre := profiles db) (post := []);
    [|reflexivity|reflexivity|reflexivity|exact Hpre].
  simpl. rewrite app_nil_r.
  rewrite update_first_twice by reflexivity.
  rewrite update_first_same; [now destruct db|].
  intros x Hx _. unfold pull_profile, push_profile. simpl.
  rewrite (pull_snoc _ _ (Hlists x Hx)). now destruct x.
Qed.

Lemma create_then_delete_profile_restores_witness :
  exists prof db1,
    create_profile "p-kids" 50 (ProfileCreate.mk "Kids" "default" "en" G)
      Sample.alice Sample.db0
    = (Ok prof, db1)
    /\ delete_profile "p-kids" Sample.alice db1
       = (Ok "Profile deleted successfully", Sample.db0).
Proof.
  apply (create_then_delete_profile_restores Sample.db0 Sample.alice "p-kids" 50
           (ProfileCreate.mk "Kids" "default" "en" G)).
  - simpl. intros [E|[]]. discriminate E.
  - simpl. intros u0 [<-|[<-|[<-|[]]]]; simpl; intros Hin;
      [destruct Hin as [E|[]]; discriminate E|destruct Hin|destruct Hin].
Defined.

Lemma ProfileUpdate_set_empty d p :
  ProfileUpdate_is_empty d = true -> ProfileUpdate_set d p = p.
Proof.
  unfold ProfileUpdate_is_empty, ProfileUpdate_set.
  destruct d as [[n|] [a|] [l|] [r|] [w|]]; simpl; try discriminate.
  intros _. now destruct p.
Qed.

Lemma update_profile_run db u profile_id d p pre post :
  profiles db = pre ++ p :: post ->
  Profile.id p = profile_id -> Profile.user_id p = User.id u ->
  (forall y, In y pre -> has_profile_id profile_id y = false) ->
  update_profile profile_id d u db
  = (Ok (ProfileUpdate_set d p),
     mkDB (users db) (pre ++ ProfileUpdate_set d p :: post) (movies db)
       (view_progress db)).
Proof.
  intros Heq Hid Hu Hpre. destruct db as [us ps ms vs]. simpl in *. subst ps.
  unfold update_profile. run.
  rewrite (find_owned_at _ _ _ _ _ Hid Hu Hpre). simpl.
  destruct (ProfileUpdate_is_empty d) eqn:E; simpl.
  - rewrite (ProfileUpdate_set_empty _ _ E).
    now rewrite (find_profile_id_at _ _ _ _ Hid Hpre).
  - rewrite (update_profile_id_at _ _ _ _ _ Hid Hpre).
    assert (Hid1 : Profile.id (ProfileUpdate_set d p) = profile_id) by exact Hid.
    now rewrite (find_profile_id_at _ _ _ _ Hid1 Hpre).
Qed.

(** X9. A profile update by the owner returns the profile as stored
    afterwards; it never changes the id, the owner, the watch history or
    the creation time, it sets exactly the fields the body gives and
    keeps the others, it touches no other profile, and with an empty body
    it changes nothing. *)
Theorem update_profile_keeps_identity :
  forall (db : DB) (principal : User.t) (profile_id : string) (p : Profile.t)
         (d : ProfileUpdate.t),
    unique_profile_ids db ->
    In p (profiles db) ->
    Profile.id p = profile_id ->
    Profile.user_id p = User.id principal ->
    exists updated db',
      update_profile profile_id d principal db = (Ok updated, db')
      /\ List.find (owned_by profile_id principal) (profiles db') = Some updated
      /\ Profile.id updated = Profile.id p
      /\ Profile.user_id updated = Profile.user_id p
      /\ Profile.watch_history updated = Profile.watch_history p
      /\ Profile.created_at updated = Profile.created_at p
      /\ Profile.name updated = or_else (ProfileUpdate.name d) (Profile.name p)
      /\ Profile.avatar updated = or_else (ProfileUpdate.avatar d) (Profile.avatar p)
      /\ Profile.language updated
         = or_else (ProfileUpdate.language d) (Profile.language p)
      /\ Profile.maturity_rating updated
         = or_else (ProfileUpdate.maturity_rating d) (Profile.maturity_rating p)
      /\ Profile.watchlist updated
         = or_else (ProfileUpdate.watchlist d) (Profile.watchlist p)
      /\ (forall q, Profile.id q <> profile_id ->
            (In q (profiles db') <-> In q (profiles db)))
      /\ users db' = users db
      /\ movies db' = movies db
      /\ view_progress db' = view_progress db
      /\ (ProfileUpdate_is_empty d = true -> updated = p /\ db' = db).
Proof.
  intros db principal profile_id p d Hnd Hp Hid Hu.
  destruct (owned_profile_position db profile_id principal p Hnd Hp Hid Hu)
    as (pre & post & Heq & Hpre & _).
  exists (ProfileUpdate_set d p).
  exists (mkDB (users db) (pre ++ ProfileUpdate_set d p :: post) (movies db)
            (view_progress db)).
  split; [now apply update_profile_run|].
  split; [now apply find_owned_at|].
  do 9 (split; [reflexivity|]).
  split; [|split; [reflexivity|split; [reflexivity|split; [reflexivity|]]]].
  - intros q Hq. simpl. rewrite Heq, !in_app_iff. simpl.
    split; (intros [Hin|[E|Hin]]; [tauto| |tauto]);
      exfalso; apply Hq; subst q; exact Hid.
  - intros Hempty. rewrite (ProfileUpdate_set_empty _ _ Hempty).
    split; [reflexivity|]. rewrite <- Heq. now destruct db.
Qed.

Lemma update_profile_keeps_identity_witness :
  exists updated db',
    update_profile "p-alice" Sample.rename Sample.alice Sample.db0
    = (Ok updated, db')
    /\ Profile.name updated = "Mallory"
    /\ Profile.user_id updated = "u-alice".
Proof.
  destruct (update_profile_keeps_identity Sample.db0 Sample.alice "p-alice"
              Sample.alice_profile Sample.rename)
    as (updated & db' & Hrun & _ & _ & Hu & _ & _ & Hname & _).
  - unfold unique_profile_ids. simpl. constructor; [intros []|constructor].
  - simpl. auto.
  - reflexivity.
  - reflexivity.
  - exists updated, db'. split; [exact Hrun|]. split; [exact Hname|exact Hu].
Defined.

(* ================================================================= *)
(** ** Movies: creation and update *)

(** X10. A movie created under a slug that is not taken, with a release
    year and a duration that fit a signed 64-bit integer, is stored with
    every field of the body as given, the new id, and both timestamps set
    to the time of creation; nothing else is written; and it can be
    fetched at once through its slug and through its id, provided no
    stored movie uses the new slug as its id or the new id as its id or
    slug.  Creating it again is a 400. *)
Theorem create_movie_then_get :
  forall (db : DB) (admin_user : User.t) (new_id : string) (now : datetime)
         (movie_data : MovieCreate.t),
    (forall m, In m (movies db) ->
               Movie.slug m <> MovieCreate.slug movie_data
               /\ Movie.id m <> MovieCreate.slug movie_data) ->
    (forall m, In m (movies db) -> Movie.id m <> new_id /\ Movie.slug m <> new_id) ->
    - 2 ^ 63 <= MovieCreate.release_year movie_data < 2 ^ 63 ->
    - 2 ^ 63 <= MovieCreate.duration_minutes movie_data < 2 ^ 63 ->
    exists movie db',
      create_movie new_id now movie_data admin_user db = (Ok movie, db')
      /\ movie
         = Movie.mk new_id (MovieCreate.slug movie_data)
             (MovieCreate.title movie_data) (MovieCreate.description movie_data)
             (MovieCreate.category movie_data) (MovieCreate.poster_url movie_data)
             (MovieCreate.backdrop_url movie_data)
             (MovieCreate.video_url movie_data)
             (MovieCreate.release_year movie_data) (MovieCreate.rating movie_data)
             (MovieCreate.duration_minutes movie_data)
             (MovieCreate.tags movie_data) (MovieCreate.languages movie_data)
             (MovieCreate.i18n movie_data) now now
      /\ movies db' = movies db ++ [movie]
      /\ users db' = users db
      /\ profiles db' = profiles db
      /\ view_progress db' = view_progress db
      /\ get_movie (MovieCreate.slug movie_data) db' = (Ok movie, db')
      /\ get_movie new_id db' = (Ok movie, db')
      /\ create_movie new_id now movie_data admin_user db'
         = (Raise (mkHTTPException 400 "Movie with this slug already exists"), db').
Proof.
  intros db admin_user new_id now movie_data Hslug Hid Hyear Hduration.
  apply int64_range in Hyear. apply int64_range in Hduration.
  exists (Movie_of_create new_id now movie_data).
  exists (mkDB (users db) (profiles db)
            (movies db ++ [Movie_of_create new_id now movie_data])
            (view_progress db)).
  split; [|split; [reflexivity|repeat split]].
  - unfold create_movie. run. rewrite find_none_intro.
    + simpl. now rewrite Hyear, Hduration.
    + intros m Hm. unfold has_slug. apply String.eqb_neq. now apply Hslug.
  - rewrite get_movie_run. simpl. rewrite find_at; [reflexivity| |].
    + apply id_or_slug_true. now right.
    + intros y Hy. apply id_or_slug_false. destruct (Hslug y Hy). now split.
  - rewrite get_movie_run. simpl. rewrite find_at; [reflexivity| |].
    + apply id_or_slug_true. now left.
    + intros y Hy. apply id_or_slug_false. now apply Hid.
  - apply create_movie_conflict. simpl. rewrite map_app. apply in_or_app.
    right. now left.
Qed.

Lemma create_movie_then_get_witness :
  exists movie db',
    create_movie "m-new" 7 (Sample.new_movie "fresh" "Fresh") Sample.admin Sample.db0
    = (Ok movie, db')
    /\ Movie.duration_minutes movie = 100
    /\ get_movie "fresh" db' = (Ok movie, db')
    /\ get_movie "m-new" db' = (Ok movie, db').
Proof.
  destruct (create_movie_then_get Sample.db0 Sample.admin "m-new" 7
              (Sample.new_movie "fresh" "Fresh"))
    as (movie & db' & Hrun & Hmovie & _ & _ & _ & _ & Hslug & Hid & _).
  - simpl. intros m [<-|[<-|[]]]; simpl; split; discriminate.
  - simpl. intros m [<-|[<-|[]]]; simpl; split; discriminate.
  - simpl. lia.
  - simpl. lia.
  - exists movie, db'. split; [exact Hrun|]. split; [now rewrite Hmovie|].
    split; [exact Hslug|exact Hid].
Defined.

Lemma update_movie_run db admin_user now movie_id d m pre post :
  movies db = pre ++ m :: post ->
  Movie.id m = movie_id ->
  (forall y, In y pre -> has_movie_id movie_id y = false) ->
  int64_opt (MovieUpdate.release_year d) = true ->
  int64_opt (MovieUpdate.duration_minutes d) = true ->
  update_movie now movie_id d admin_user db
  = (Ok (MovieUpdate_set now d m),
     mkDB (users db) (profiles db) (pre ++ MovieUpdate_set now d m :: post)
       (view_progress db)).
Proof.
  intros Heq Hid Hpre Hyear Hduration.
  destruct db as [us ps ms vs]. simpl in *. subst ms.
  assert (Hq : has_movie_id movie_id m = true).
  { unfold has_movie_id. now apply String.eqb_eq. }
  assert (Hq1 : has_movie_id movie_id (MovieUpdate_set now d m) = true) by exact Hq.
  unfold update_movie. run. rewrite (find_at _ _ _ _ Hq Hpre). simpl.
  rewrite Hyear, Hduration. simpl.
  rewrite (update_first_at _ _ _ _ _ Hq Hpre).
  now rewrite (find_at _ _ _ _ Hq1 Hpre).
Qed.

Lemma int64_opt_range o :
  (forall z, o = Some z -> - 2 ^ 63 <= z < 2 ^ 63) -> int64_opt o = true.
Proof.
  destruct o as [z|]; simpl; intros H; [|reflexivity].
  apply int64_range. now apply H.
Qed.

(** X11. A movie update addresses the movie by id only: with a key that
    is the id of no movie (a slug, say) it is a 404 and writes nothing.
    On the movie of that id, with a release year and a duration that fit
    a signed 64-bit integer when the body gives them, it returns the
    movie as stored afterwards: the id and the creation time are kept,
    each of the thirteen fields of the body is set when given and kept
    otherwise, and the update time is set to now - also when the body is
    empty; no other movie and no other collection is touched. *)
Theorem update_movie_sets_fields :
  forall (db : DB) (admin_user : User.t) (now : datetime) (movie_id : string)
         (d : MovieUpdate.t),
    ((forall m, In m (movies db) -> Movie.id m <> movie_id) ->
     update_movie now movie_id d admin_user db
     = (Raise (mkHTTPException 404 "Movie not found"), db))
    /\ (forall m,
          unique_movie_ids db ->
          In m (movies db) ->
          Movie.id m = movie_id ->
          (forall y, MovieUpdate.release_year d = Some y ->
                     - 2 ^ 63 <= y < 2 ^ 63) ->
          (forall n, MovieUpdate.duration_minutes d = Some n ->
                     - 2 ^ 63 <= n < 2 ^ 63) ->
          exists updated db',
            update_movie now movie_id d admin_user db = (Ok updated, db')
            /\ List.find (has_movie_id movie_id) (movies db') = Some updated
            /\ updated
               = Movie.mk (Movie.id m)
                   (or_else (MovieUpdate.slug d) (Movie.slug m))
                   (or_else (MovieUpdate.title d) (Movie.title m))
                   (or_else (MovieUpdate.description d) (Movie.description m))
                   (or_else (MovieUpdate.category d) (Movie.category m))
                   (or_else (MovieUpdate.poster_url d) (Movie.poster_url m))
                   (or_else (MovieUpdate.backdrop_url d) (Movie.backdrop_url m))
                   (or_else (MovieUpdate.video_url d) (Movie.video_url m))
                   (or_else (MovieUpdate.release_year d) (Movie.release_year m))
                   (or_else (MovieUpdate.rating d) (Movie.rating m))
                   (or_else (MovieUpdate.duration_minutes d)
                      (Movie.duration_minutes m))
                   (or_else (MovieUpdate.tags d) (Movie.tags m))
                   (or_else (MovieUpdate.languages d) (Movie.languages m))
                   (or_else (MovieUpdate.i18n d) (Movie.i18n m))
                   (Movie.created_at m) now
            /\ (forall q, Movie.id q <> movie_id ->
                  (In q (movies db') <-> In q (movies db)))
            /\ map Movie.id (movies db') = map Movie.id (movies db)
            /\ users db' = users db
            /\ profiles db' = profiles db
            /\ view_progress db' = view_progress db).
Proof.
  intros db admin_user now movie_id d. split.
  - intros Hnone. unfold update_movie. run.
    now rewrite (find_movie_id_none _ _ Hnone).
  - intros m Hnd Hm Hid Hyear Hduration. unfold unique_movie_ids in Hnd.
    apply int64_opt_range in Hyear. apply int64_opt_range in Hduration.
    destruct (in_split _ _ Hm) as (pre & post & Heq). rewrite Heq in Hnd.
    assert (Hpre : forall y, In y pre -> has_movie_id movie_id y = false).
    { subst movie_id. exact (unique_key_before Movie.id pre m post Hnd). }
    exists (MovieUpdate_set now d m).
    exists (mkDB (users db) (profiles db) (pre ++ MovieUpdate_set now d m :: post)
              (view_progress db)).
    split; [now apply update_movie_run|].
    split.
    { apply find_at; [|exact Hpre]. unfold has_movie_id. now apply String.eqb_eq. }
    split; [reflexivity|].
    split; [|split; [|repeat split]].
    + intros q Hq. simpl. rewrite Heq, !in_app_iff. simpl.
      split; (intros [Hin|[E|Hin]]; [tauto| |tauto]);
        exfalso; apply Hq; subst q; exact Hid.
    + simpl. rewrite Heq, !map_app. reflexivity.
Qed.

Lemma update_movie_sets_fields_witness :
  update_movie 9 "sintel" (Sample.reslug "dragon-tale") Sample.admin Sample.db0
  = (Raise (mkHTTPException 404 "Movie not found"), Sample.db0)
  /\ exists updated db',
       update_movie 9 "m-sintel" (Sample.reslug "dragon-tale") Sample.admin
         Sample.db0
       = (Ok updated, db')
       /\ Movie.slug updated = "dragon-tale"
       /\ Movie.title updated = "Sintel"
       /\ Movie.updated_at updated = 9.
Proof.
  split.
  - apply (proj1 (update_movie_sets_fields Sample.db0 Sample.admin 9 "sintel"
                    (Sample.reslug "dragon-tale"))).
    simpl. intros m [<-|[<-|[]]]; simpl; discriminate.
  - destruct (proj2 (update_movie_sets_fields Sample.db0 Sample.admin 9 "m-sintel"
                       (Sample.reslug "dragon-tale")) Sample.sintel)
      as (updated & db' & Hrun & _ & Hupdated & _).
    + unfold unique_movie_ids. simpl. constructor.
      * simpl. intros [E|[]]. discriminate E.
      * constructor; [intros []|constructor].
    + simpl. auto.
    + reflexivity.
    + simpl. intros y E. discriminate E.
    + simpl. intros n E. discriminate E.
    + exists updated, db'. split; [exact Hrun|]. rewrite Hupdated. repeat split.
Defined.

(* ================================================================= *)
(** ** The admin dependency *)

Lemma get_current_user_reads now credentials db :
  snd (get_current_user now credentials db) = db.
Proof.
  unfold get_current_user.
  now destruct (get_current_user_try now credentials db).
Qed.

(** X12. The routes that create, update and delete movies run behind the
    admin dependency: unless the bearer token resolves to a user whose
    role is admin, none of them reaches its handler - all three raise the
    same exception and write nothing, and for a token that resolves to a
    user it is 403 "Admin access required". *)
Theorem movie_writes_need_admin :
  forall (db : DB) (now : datetime) (credentials : Credentials)
         (new_id movie_id : string) (movie_data : MovieCreate.t)
         (d : MovieUpdate.t),
    (forall u, get_current_user now credentials db = (Ok u, db) ->
               User.role u = USER) ->
    exists e,
      with_admin_user now credentials (create_movie new_id now movie_data) db
      = (Raise e, db)
      /\ with_admin_user now credentials (update_movie now movie_id d) db
         = (Raise e, db)
      /\ with_admin_user now credentials (delete_movie movie_id) db = (Raise e, db)
      /\ (forall u, get_current_user now credentials db = (Ok u, db) ->
            e = mkHTTPException 403 "Admin access required").
Proof.
  intros db now credentials new_id movie_id movie_data d Hrole.
  pose proof (get_current_user_reads now credentials db) as Hreads.
  unfold with_admin_user, bind.
  destruct (get_current_user now credentials db) as [[u|e] db'] eqn:Hcur;
    simpl in Hreads; subst db'.
  - exists (mkHTTPException 403 "Admin access required").
    unfold get_admin_user. rewrite (Hrole u eq_refl). now repeat split.
  - exists e. repeat split. intros u Hu. discriminate Hu.
Qed.

Lemma movie_writes_need_admin_witness :
  with_admin_user 10 (create_access_token 0 (Some "u-alice"))
    (create_movie "m-new" 10 (Sample.new_movie "fresh" "Fresh")) Sample.db0
  = (Raise (mkHTTPException 403 "Admin access required"), Sample.db0).
Proof.
  destruct (movie_writes_need_admin Sample.db0 10
              (create_access_token 0 (Some "u-alice")) "m-new" "m-bunny"
              (Sample.new_movie "fresh" "Fresh") (Sample.reslug "x"))
    as (e & Hcreate & _ & _ & He).
  - intros u Hu. injection Hu as <-. reflexivity.
  - rewrite Hcreate. now rewrite (He Sample.alice eq_refl).
Defined.

(* ================================================================= *)
(** ** Registration, login and the tokens *)

Section RegisterLogin.
Context `{BcryptLaws}.

End RegisterLogin.


Lemma find_user_by_id_unique db u :
  unique_user_ids db -> In u (users db) ->
  List.find (fun x => User.id x =? User.id u)%string (users db) = Some u.
Proof.
  unfold unique_user_ids. intros Hnd Hu.
  destruct (in_split _ _ Hu) as (pre & post & Heq). rewrite Heq in *.
  apply find_at; [apply String.eqb_refl|].
  exact (unique_key_before User.id pre u post Hnd).
Qed.

Lemma resolve_signed db u now' exp :
  unique_user_ids db -> In u (users db) ->
  get_current_user now' (Signed (Some (User.id u)) exp) db
  = if exp <=? now' then (Raise (mkHTTPException 401 "Token expired"), db)
    else (Ok u, db).
Proof.
  intros Hnd Hu. unfold get_current_user, get_current_user_try, jwt_decode.
  destruct (exp <=? now'); [reflexivity|].
  now rewrite (find_user_by_id_unique db u Hnd Hu).
Qed.

Section Tokens.
Context `{Bcrypt}.

(** X14. The tokens of a successful login belong to a user with the
    email of the login.  The access token resolves to that user for the
    next 30 minutes and is refused as expired afterwards; the refresh
    token is taken as a bearer credential too and resolves to the same
    user for 7 days. *)
Theorem login_tokens_resolve :
  forall (db : DB) (now : datetime) (user_data : UserLogin.t)
         (tokens : TokenResponse.t),
    unique_user_ids db ->
    login now user_data db = (Ok tokens, db) ->
    exists u,
      In u (users db)
      /\ User.email u = UserLogin.email user_data
      /\ (forall now', now' < now + 1800 ->
            get_current_user now' (TokenResponse.access_token tokens) db
            = (Ok u, db))
      /\ (forall now', now + 1800 < now' ->
            get_current_user now' (TokenResponse.access_token tokens) db
            = (Raise (mkHTTPException 401 "Token expired"), db))
      /\ (forall now', now' < now + 604800 ->
            get_current_user now' (TokenResponse.refresh_token tokens) db
            = (Ok u, db))
      /\ (forall now', now + 604800 < now' ->
            get_current_user now' (TokenResponse.refresh_token tokens) db
            = (Raise (mkHTTPException 401 "Token expired"), db)).
Proof.
  intros db now user_data tokens Hnd. unfold login. run.
  destruct (List.find _ (users db)) as [u|] eqn:Hfind; [|discriminate].
  apply find_some in Hfind. destruct Hfind as [Hu He]. apply String.eqb_eq in He.
  destruct (verify_password _ _); simpl; [|discriminate].
  intros Heq. injection Heq as <-. exists u.
  split; [exact Hu|]. split; [exact He|].
  unfold create_access_token, create_refresh_token,
    ACCESS_TOKEN_EXPIRE_MINUTES, REFRESH_TOKEN_EXPIRE_DAYS. simpl.
  repeat split; intros now' Hnow'; rewrite (resolve_signed db u _ _ Hnd Hu).
  - destruct (now + 1800 <=? now') eqn:E; [apply Z.leb_le in E; lia|reflexivity].
  - destruct (now + 1800 <=? now') eqn:E; [reflexivity|apply Z.leb_gt in E; lia].
  - destruct (now + 604800 <=? now') eqn:E; [apply Z.leb_le in E; lia|reflexivity].
  - destruct (now + 604800 <=? now') eqn:E; [reflexivity|apply Z.leb_gt in E; lia].
Qed.
End Tokens.

Lemma login_tokens_resolve_witness :
  exists u,
    User.email u = "alice@example.com"
    /\ get_current_user 5000 (create_access_token 1000 (Some "u-alice")) Sample.db0
       = (Raise (mkHTTPException 401 "Token expired"), Sample.db0)
    /\ get_current_user 5000 (create_refresh_token 1000 (Some "u-alice")) Sample.db0
       = (Ok u, Sample.db0).
Proof.
  destruct (@login_tokens_resolve Sample.toy_bcrypt Sample.db0 1000
              (UserLogin.mk "alice@example.com" "wonderland")
              (TokenResponse.mk (create_access_token 1000 (Some "u-alice"))
                 (create_refresh_token 1000 (Some "u-alice")) "bearer"))
    as (u & _ & He & _ & Hexpired & Hrefresh & _).
  - unfold unique_user_ids. simpl.
    repeat (constructor; [simpl; intuition discriminate|]). constructor.
  - reflexivity.
  - exists u. split; [exact He|]. split.
    + apply (Hexpired 5000). lia.
    + apply (Hrefresh 5000). lia.
Defined.

(* ================================================================= *)
(** ** User accounts are not rewritten *)

Lemma map_update_first {A B} (f : A -> B) q upd (c : list A) :
  (forall x, f (upd x) = f x) -> map f (update_first q upd c) = map f c.
Proof.
  intros Hf. induction c as [|d c IH]; simpl; [reflexivity|].
  destruct (q d); simpl; [now rewrite Hf|now rewrite IH].
Qed.

Section Accounts.
Context `{Bcrypt}.

(** X15. No route rewrites an account: the id, email, password hash and
    role of every stored user are the same after profile creation and
    deletion (which only edit the list of profile ids), registration adds
    at most one user and that user has the role user, and the profile
    update, watchlist, progress and movie routes leave the user
    collection as it is.  So no call turns a user into an admin. *)
Theorem accounts_not_rewritten :
  forall (db : DB) (u : User.t) (new_id salt profile_id movie_id : string)
         (now : datetime) (user_data : UserRegister.t)
         (profile_data : ProfileCreate.t) (profile_update : ProfileUpdate.t)
         (progress_data : ViewProgressUpdate.t) (movie_data : MovieCreate.t)
         (movie_update : MovieUpdate.t),
    let account (x : User.t) :=
      (User.id x, User.email x, User.password_hash x, User.role x) in
    map account (users (snd (create_profile new_id now profile_data u db)))
    = map account (users db)
    /\ map account (users (snd (delete_profile profile_id u db)))
       = map account (users db)
    /\ (users (snd (register new_id salt now user_data db)) = users db
        \/ exists x,
             users (snd (register new_id salt now user_data db)) = users db ++ [x]
             /\ User.role x = USER
             /\ User.email x = UserRegister.email user_data)
    /\ users (snd (update_profile profile_id profile_update u db)) = users db
    /\ users (snd (add_to_watchlist profile_id movie_id u db)) = users db
    /\ users (snd (remove_from_watchlist profile_id movie_id u db)) = users db
    /\ users (snd (update_view_progress new_id now movie_id profile_id
                     progress_data u db)) = users db
    /\ users (snd (create_movie new_id now movie_data u db)) = users db
    /\ users (snd (update_movie now movie_id movie_update u db)) = users db
    /\ users (snd (delete_movie movie_id u db)) = users db.
Proof.
  intros db u new_id salt profile_id movie_id now user_data profile_data
    profile_update progress_data movie_data movie_update account.
  split; [|split; [|split; [|split; [|split; [|split; [|split; [|split; [|split]]]]]]]].
  - rewrite create_profile_run. simpl. now apply map_update_first.
  - unfold delete_profile. run.
    destruct (List.find (owned_by profile_id u) (profiles db)); simpl;
      [now apply map_update_first|reflexivity].
  - unfold register. run.
    destruct (List.find _ (users db)); simpl; [now left|].
    right. eexists. split; [reflexivity|]. now split.
  - unfold update_profile. run.
    destruct (List.find (owned_by profile_id u) (profiles db)); simpl;
      [|reflexivity].
    destruct (ProfileUpdate_is_empty profile_update); simpl;
      now destruct (List.find (has_profile_id profile_id) _).
  - unfold add_to_watchlist. run.
    destruct (List.find (owned_by profile_id u) (profiles db)) as [p|]; simpl;
      [|reflexivity].
    destruct (List.find (has_movie_id movie_id) (movies db)); simpl; [|reflexivity].
    now destruct (mem movie_id (Profile.watchlist p)).
  - unfold remove_from_watchlist. run.
    now destruct (List.find (owned_by profile_id u) (profiles db)).
  - unfold update_view_progress. run.
    destruct (List.find (owned_by profile_id u) (profiles db)) as [p|]; simpl;
      [|reflexivity].
    destruct (List.find (has_movie_id movie_id) (movies db)); simpl; [|reflexivity].
    destruct (List.find (for_pair profile_id movie_id) (view_progress db)); simpl;
      destruct (int64 (ViewProgressUpdate.progress_seconds progress_data)); simpl;
      try reflexivity;
      now destruct (mem movie_id (Profile.watch_history p)).
  - unfold create_movie. run.
    destruct (List.find (has_slug (MovieCreate.slug movie_data)) (movies db));
      simpl; [reflexivity|].
    now destruct (int64 (MovieCreate.release_year movie_data)
                  && int64 (MovieCreate.duration_minutes movie_data)).
  - unfold update_movie. run.
    destruct (List.find (has_movie_id movie_id) (movies db)); simpl; [|reflexivity].
    destruct (int64_opt (MovieUpdate.release_year movie_update)
              && int64_opt (MovieUpdate.duration_minutes movie_update));
      simpl; [|reflexivity].
    now destruct (List.find (has_movie_id movie_id) _).
  - unfold delete_movie. run.
    now destruct (List.find (has_movie_id movie_id) (movies db)).
Qed.
End Accounts.

(* ================================================================= *)
(** ** Translations *)

Lemma get_translations_cases code :
  get_translations (Some code)
  = if ("en" =? code)%string then translations_en
    else if ("es" =? code)%string then translations_es
    else if ("fr" =? code)%string then translations_fr
    else translations_en.
Proof. reflexivity. Qed.

(** X16. The translations route never fails: for every language code it
    answers with a table that has the same keys, in the same order, as
    the English one, and for a code other than "es" and "fr", or when no
    code is given, with the English table itself. *)
Theorem get_translations_same_keys :
  forall (lang : option string),
    map fst (get_translations lang) = map fst translations_en
    /\ (forall code, lang = Some code -> code <> "es" -> code <> "fr" ->
          get_translations lang = translations_en)
    /\ (lang = None -> get_translations lang = translations_en).
Proof.
  intros lang. split; [|split].
  - destruct lang as [code|]; [|reflexivity].
    rewrite get_translations_cases.
    destruct ("en" =? code)%string; [reflexivity|].
    destruct ("es" =? code)%string; [reflexivity|].
    destruct ("fr" =? code)%string; reflexivity.
  - intros code -> Hes Hfr. rewrite get_translations_cases.
    destruct ("en" =? code)%string; [reflexivity|].
    destruct ("es" =? code)%string eqn:E1;
      [apply String.eqb_eq in E1; now destruct Hes|].
    destruct ("fr" =? code)%string eqn:E2;
      [apply String.eqb_eq in E2; now destruct Hfr|].
    reflexivity.
  - intros ->. reflexivity.
Qed.

Lemma get_translations_same_keys_witness :
  get_translations (Some "xx") = translations_en
  /\ map fst (get_translations (Some "fr")) = map fst translations_en.
Proof.
  split.
  - apply (proj1 (proj2 (get_translations_same_keys (Some "xx"))) "xx");
      [reflexivity|discriminate|discriminate].
  - apply (proj1 (get_translations_same_keys (Some "fr"))).
Defined.

(* ================================================================= *)
(** ** Recording progress, then continue watching *)

Lemma get_continue_watching_run db u profile_id p :
  List.find (owned_by profile_id u) (profiles db) = Some p ->
  get_continue_watching profile_id u db
  = (Ok (joined (movies db)
           (firstn 10 (sort_desc ViewProgress.last_watched
                         (filter (in_progress profile_id) (view_progress db))))),
     db).
Proof.
  intros Hfind. unfold get_continue_watching. run. rewrite Hfind.
  apply join_movies_run.
Qed.

Lemma count_pair_zero pid mid vs :
  count_pair pid mid vs = 0%nat -> forall v, In v vs -> for_pair pid mid v = false.
Proof.
  unfold count_pair. intros Hz v Hv.
  destruct (for_pair pid mid v) eqn:E; [|reflexivity].
  assert (Hin : In v (filter (for_pair pid mid) vs)) by (apply filter_In; now split).
  destruct (filter (for_pair pid mid) vs); [destruct Hin|discriminate Hz].
Qed.

(** Where the record of the pair sits after a recording, all other
    records being old records of other pairs. *)
Lemma recorded_pair_position new_id now profile_id movie_id d vs :
  NoDup (map ViewProgress.id vs) ->
  one_record_per_pair vs ->
  exists pre post rec,
    match List.find (for_pair profile_id movie_id) vs with
    | Some r => update_first (has_progress_id (ViewProgress.id r))
                  (set_progress now d) vs
    | None => vs ++ [ViewProgress.mk new_id profile_id movie_id
                       (ViewProgressUpdate.progress_seconds d)
                       (ViewProgressUpdate.completed d) now]
    end = pre ++ rec :: post
    /\ ViewProgress.profile_id rec = profile_id
    /\ ViewProgress.movie_id rec = movie_id
    /\ ViewProgress.progress_seconds rec = ViewProgressUpdate.progress_seconds d
    /\ ViewProgress.completed rec = ViewProgressUpdate.completed d
    /\ ViewProgress.last_watched rec = now
    /\ (forall v, In v (pre ++ post) ->
          In v vs /\ for_pair profile_id movie_id v = false).
Proof.
  intros Hnd Hone.
  destruct (List.find (for_pair profile_id movie_id) vs) as [r|] eqn:Hfind.
  - destruct (update_found_progress _ _ now d _ _ Hnd Hfind)
      as (pre & post & Hvs & ->).
    destruct (find_split _ _ _ Hfind) as (pre' & post' & Hvs' & Hr & Hpre').
    apply for_pair_true in Hr. destruct Hr as [Hp Hm].
    exists pre, post, (set_progress now d r). split; [reflexivity|].
    do 5 (split; [assumption || reflexivity|]).
    specialize (Hone profile_id movie_id). rewrite Hvs in Hone.
    rewrite count_pair_app, count_pair_cons in Hone.
    assert (Hr : for_pair profile_id movie_id r = true)
      by (apply for_pair_true; now split).
    rewrite Hr in Hone.
    intros v Hv. apply in_app_or in Hv. split.
    + rewrite Hvs. apply in_or_app. destruct Hv; [now left|right; now right].
    + destruct Hv as [Hv|Hv].
      * apply (count_pair_zero profile_id movie_id pre); [lia|assumption].
      * apply (count_pair_zero profile_id movie_id post); [lia|assumption].
  - exists vs, [], (ViewProgress.mk new_id profile_id movie_id
                      (ViewProgressUpdate.progress_seconds d)
                      (ViewProgressUpdate.completed d) now).
    split; [reflexivity|]. do 5 (split; [reflexivity|]).
    intros v Hv. rewrite app_nil_r in Hv. split; [assumption|].
    exact (find_none _ _ Hfind v Hv).
Qed.

(** X17. Recording progress decides whether the movie is offered for
    continue watching.  With one record per pair and elapsed seconds that
    fit a signed 64-bit integer, after a recording with
    the completed flag set, or with at most 30 seconds, no entry of the
    continue-watching answer of the profile is about that movie; after a
    recording that is not completed, has more than 30 seconds and is
    later than every stored record, the answer has the movie with the
    recorded seconds. *)
Theorem recording_decides_continue_watching :
  forall (db : DB) (principal : User.t) (profile_id movie_id : string)
         (p : Profile.t) (m : Movie.t) (new_id : string) (now : datetime)
         (d : ViewProgressUpdate.t),
    unique_profile_ids db ->
    unique_progress_ids db ->
    one_record_per_pair (view_progress db) ->
    In p (profiles db) ->
    Profile.id p = profile_id ->
    Profile.user_id p = User.id principal ->
    List.find (has_movie_id movie_id) (movies db) = Some m ->
    - 2 ^ 63 <= ViewProgressUpdate.progress_seconds d < 2 ^ 63 ->
    exists db' res,
      update_view_progress new_id now movie_id profile_id d principal db
      = (Ok "Progress updated successfully", db')
      /\ get_continue_watching profile_id principal db' = (Ok res, db')
      /\ (ViewProgressUpdate.completed d = true
          \/ ViewProgressUpdate.progress_seconds d <= 30 ->
          forall e, In e res ->
                    ViewProgress.movie_id (ContinueItem.progress e) <> movie_id)
      /\ (ViewProgressUpdate.completed d = false ->
          30 < ViewProgressUpdate.progress_seconds d ->
          (forall v, In v (view_progress db) -> ViewProgress.last_watched v < now) ->
          exists e,
            In e res
            /\ ContinueItem.movie e = m
            /\ ViewProgress.movie_id (ContinueItem.progress e) = movie_id
            /\ ViewProgress.progress_seconds (ContinueItem.progress e)
               = ViewProgressUpdate.progress_seconds d).
Proof.
  intros db principal profile_id movie_id p m new_id now d
    Hnd Hndv Hone Hp Hid Hu Hm Hrange.
  apply int64_range in Hrange.
  destruct (owned_profile_position db profile_id principal p Hnd Hp Hid Hu)
    as (pre & post & Heq & Hpre & _).
  assert (Hmovie : exists x, In x (movies db) /\ Movie.id x = movie_id).
  { exists m. apply find_some in Hm. destruct Hm as [Hin Hq]. split; [assumption|].
    now apply String.eqb_eq in Hq. }
  rewrite (update_view_progress_run new_id now movie_id profile_id d principal db
             p pre post Heq Hid Hu Hpre Hmovie Hrange).
  destruct (recorded_pair_position new_id now profile_id movie_id d
              (view_progress db) Hndv Hone)
    as (vpre & vpost & rec & Hvs' & Hrp & Hrm & Hrs & Hrc & Hrl & Hrest).
  rewrite Hvs'.
  set (ps' := if mem movie_id (Profile.watch_history p) then profiles db
              else pre ++ push_watch_history movie_id p :: post).
  assert (Hfind : exists p', List.find (owned_by profile_id principal) ps' = Some p').
  { subst ps'. destruct (mem movie_id (Profile.watch_history p)).
    - exists p. rewrite Heq. now apply find_owned_at.
    - exists (push_watch_history movie_id p). now apply find_owned_at. }
  destruct Hfind as (p' & Hfind).
  eexists. eexists. split; [reflexivity|].
  split; [apply (get_continue_watching_run _ principal profile_id p'); exact Hfind|].
  cbn [view_progress movies]. split.
  - intros Hdone e He Hmid. apply joined_In_inv in He. destruct He as [He _].
    apply In_firstn in He.
    apply (Permutation_in _ (sort_desc_perm ViewProgress.last_watched _)) in He.
    apply filter_In in He. destruct He as [He Hq].
    pose proof Hq as Hq'. apply in_progress_true in Hq'.
    destruct Hq' as (Hep & Hec & Hes).
    apply in_app_or in He. destruct He as [He|[He|He]].
    + destruct (Hrest _ (in_or_app _ _ _ (or_introl He))) as [_ Hno].
      assert (Hyes : for_pair profile_id movie_id (ContinueItem.progress e) = true)
        by (apply for_pair_true; now split).
      congruence.
    + rewrite <- He in Hec, Hes. rewrite Hrc in Hec. rewrite Hrs in Hes.
      destruct Hdone as [Hdone|Hdone]; [congruence|lia].
    + destruct (Hrest _ (in_or_app _ _ _ (or_intror He))) as [_ Hno].
      assert (Hyes : for_pair profile_id movie_id (ContinueItem.progress e) = true)
        by (apply for_pair_true; now split).
      congruence.
  - intros Hopen Hlong Hlater. exists (ContinueItem.mk m rec).
    cbn [ContinueItem.movie ContinueItem.progress].
    split; [|split; [reflexivity|split; assumption]].
    apply joined_In; [|now rewrite Hrm].
    assert (Hq : in_progress profile_id rec = true).
    { apply in_progress_true. rewrite Hrc, Hrs. now repeat split. }
    apply recent_in_top_ten; [apply in_or_app; right; now left|exact Hq|].
    unfold watched_since. rewrite filter_app. simpl. rewrite Hq, Z.leb_refl. simpl.
    assert (Hold : forall l, (forall v, In v l -> In v (vpre ++ vpost)) ->
                     filter (fun w => in_progress profile_id w
                                      && (ViewProgress.last_watched rec
                                          <=? ViewProgress.last_watched w)) l = []).
    { intros l Hl. apply filter_none. intros v Hv.
      destruct (Hrest v (Hl v Hv)) as [Hin _]. specialize (Hlater v Hin).
      apply andb_false_iff. right. apply Z.leb_gt. lia. }
    rewrite (Hold vpre), (Hold vpost); [simpl; lia| |];
      intros v Hv; apply in_or_app; [now right|now left].
Qed.

Lemma recording_decides_continue_watching_witness :
  exists db' res,
    update_view_progress "v-2" 900 "m-bunny" "p-alice" SampleMore.finished
      Sample.alice Sample.db_resumed
    = (Ok "Progress updated successfully", db')
    /\ get_continue_watching "p-alice" Sample.alice db' = (Ok res, db')
    /\ (forall e, In e res ->
          ViewProgress.movie_id (ContinueItem.progress e) <> "m-bunny").
Proof.
  destruct (recording_decides_continue_watching Sample.db_resumed Sample.alice
              "p-alice" "m-bunny" Sample.alice_profile Sample.bunny "v-2" 900
              SampleMore.finished)
    as (db' & res & Hrun & Hres & Hgone & _).
  - unfold unique_profile_ids. simpl. constructor; [intros []|constructor].
  - unfold unique_progress_ids. simpl. constructor; [intros []|constructor].
  - intros pid mid. unfold count_pair. simpl.
    destruct (for_pair pid mid Sample.resumed); simpl; lia.
  - simpl. auto.
  - reflexivity.
  - reflexivity.
  - reflexivity.
  - simpl. lia.
  - exists db', res. split; [exact Hrun|]. split; [exact Hres|].
    apply Hgone. now left.
Defined.

(* ================================================================= *)
(** ** Uniqueness invariants *)

Section Emails.
Context `{Bcrypt}.

(** X18. Registration keeps emails unique: when no two stored users
    share an email, none do after a registration, whether it succeeds or
    is refused. *)
Theorem register_keeps_emails_unique :
  forall (db : DB) (new_id salt : string) (now : datetime)
         (user_data : UserRegister.t),
    NoDup (map User.email (users db)) ->
    NoDup (map User.email (users (snd (register new_id salt now user_data db)))).
Proof.
  intros db new_id salt now user_data Hnd. unfold register. run.
  destruct (List.find _ (users db)) eqn:Hfind; simpl; [assumption|].
  rewrite map_app. simpl. apply NoDup_snoc; [assumption|].
  intros Hin. apply in_map_iff in Hin. destruct Hin as (u & He & Hu).
  pose proof (find_none _ _ Hfind u Hu) as Hne. simpl in Hne.
  apply String.eqb_neq in Hne. contradiction.
Qed.
End Emails.

Lemma register_keeps_emails_unique_witness :
  NoDup (map User.email
           (users (snd (@register Sample.toy_bcrypt "u-carol" "salt" 1000
                          SampleMore.carol Sample.db0)))).
Proof.
  apply (@register_keeps_emails_unique Sample.toy_bcrypt).
  simpl. repeat (constructor; [simpl; intuition discriminate|]). constructor.
Defined.

(** X19. Movie creation and movie deletion keep slugs unique: when no
    two stored movies share a slug, none do after either call, whatever
    its arguments and outcome. *)
Theorem create_delete_keep_slugs_unique :
  forall (db : DB) (admin_user : User.t) (new_id movie_id : string)
         (now : datetime) (movie_data : MovieCreate.t),
    unique_slugs db ->
    unique_slugs (snd (create_movie new_id now movie_data admin_user db))
    /\ unique_slugs (snd (delete_movie movie_id admin_user db)).
Proof.
  intros db admin_user new_id movie_id now movie_data Hnd. split.
  - now apply create_movie_unique_slugs.
  - now apply delete_movie_unique_slugs.
Qed.

Lemma create_delete_keep_slugs_unique_witness :
  unique_slugs (snd (create_movie "m-new" 7 (Sample.new_movie "sintel" "Again")
                       Sample.admin Sample.db0))
  /\ unique_slugs (snd (delete_movie "m-bunny" Sample.admin Sample.db0)).
Proof.
  apply (create_delete_keep_slugs_unique Sample.db0 Sample.admin "m-new" "m-bunny"
           7 (Sample.new_movie "sintel" "Again")).
  unfold unique_slugs. simpl.
  repeat (constructor; [simpl; intuition discriminate|]). constructor.
Defined.

Lemma delete_first_keys {A} (key : A -> string) q (c : list A) :
  NoDup (map key c) -> NoDup (map key (delete_first q c)).
Proof.
  induction c as [|d c IH]; simpl; intros Hnd; [assumption|].
  apply NoDup_cons_iff in Hnd. destruct Hnd as [Hd Hnd].
  destruct (q d); [assumption|]. simpl. constructor; [|now apply IH].
  intros Hin. apply Hd. clear - Hin.
  induction c as [|x c IH]; simpl in *; [assumption|].
  destruct (q x); [now right|]. simpl in Hin. destruct Hin as [Hx|Hin]; [now left|].
  right. now apply IH.
Qed.

(** X20. The routes keep ids unique.  When the ids of the profiles, of
    the movies and of the progress records are pairwise distinct, they
    still are after profile creation, update and deletion, after the
    watchlist add and removal, after progress recording and after movie
    creation, update and deletion, provided the id handed to a creating
    call is not in use in its collection. *)
Theorem routes_keep_ids_unique :
  forall (db : DB) (u : User.t) (new_id profile_id movie_id : string)
         (now : datetime) (profile_data : ProfileCreate.t)
         (profile_update : ProfileUpdate.t) (progress_data : ViewProgressUpdate.t)
         (movie_data : MovieCreate.t) (movie_update : MovieUpdate.t),
    unique_profile_ids db ->
    unique_movie_ids db ->
    unique_progress_ids db ->
    (~ In new_id (map Profile.id (profiles db)) ->
     unique_profile_ids (snd (create_profile new_id now profile_data u db)))
    /\ unique_profile_ids (snd (update_profile profile_id profile_update u db))
    /\ unique_profile_ids (snd (delete_profile profile_id u db))
    /\ unique_profile_ids (snd (add_to_watchlist profile_id movie_id u db))
    /\ unique_profile_ids (snd (remove_from_watchlist profile_id movie_id u db))
    /\ (~ In new_id (map ViewProgress.id (view_progress db)) ->
        unique_profile_ids
          (snd (update_view_progress new_id now movie_id profile_id
                  progress_data u db))
        /\ unique_progress_ids
             (snd (update_view_progress new_id now movie_id profile_id
                     progress_data u db)))
    /\ (~ In new_id (map Movie.id (movies db)) ->
        unique_movie_ids (snd (create_movie new_id now movie_data u db)))
    /\ unique_movie_ids (snd (update_movie now movie_id movie_update u db))
    /\ unique_movie_ids (snd (delete_movie movie_id u db)).
Proof.
  intros db u new_id profile_id movie_id now profile_data profile_update
    progress_data movie_data movie_update Hp Hm Hv.
  split; [|split; [|split; [|split; [|split; [|split; [|split; [|split]]]]]]].
  - intros Hfresh. now apply create_profile_unique_ids.
  - now apply update_profile_unique_ids.
  - unfold unique_profile_ids in *. unfold delete_profile. run.
    destruct (List.find (owned_by profile_id u) (profiles db)); simpl;
      [|assumption].
    now apply delete_first_keys.
  - now apply add_to_watchlist_unique_ids.
  - unfold unique_profile_ids in *. unfold remove_from_watchlist. run.
    destruct (List.find (owned_by profile_id u) (profiles db)); simpl;
      [|assumption].
    now rewrite update_first_keys.
  - intros Hfresh. now apply update_view_progress_unique_ids.
  - intros Hfresh. unfold unique_movie_ids in *. unfold create_movie. run.
    destruct (List.find (has_slug (MovieCreate.slug movie_data)) (movies db));
      simpl; [assumption|].
    destruct (int64 (MovieCreate.release_year movie_data)
              && int64 (MovieCreate.duration_minutes movie_data));
      simpl; [|assumption].
    rewrite map_app. simpl. now apply NoDup_snoc.
  - unfold unique_movie_ids in *. unfold update_movie. run.
    destruct (List.find (has_movie_id movie_id) (movies db)); simpl; [|assumption].
    destruct (int64_opt (MovieUpdate.release_year movie_update)
              && int64_opt (MovieUpdate.duration_minutes movie_update));
      simpl; [|assumption].
    destruct (List.find (has_movie_id movie_id) _); simpl;
      now rewrite update_first_keys.
  - unfold unique_movie_ids in *. unfold delete_movie. run.
    destruct (List.find (has_movie_id movie_id) (movies db)); simpl; [|assumption].
    now apply delete_first_keys.
Qed.

Lemma routes_keep_ids_unique_witness :
  unique_profile_ids
    (snd (create_profile "p-kids" 50 (ProfileCreate.mk "Kids" "default" "en" G)
            Sample.alice Sample.db_resumed))
  /\ unique_progress_ids
       (snd (update_view_progress "v-2" 300 "m-sintel" "p-alice"
               (ViewProgressUpdate.mk 60 false) Sample.alice Sample.db_resumed)).
Proof.
  destruct (routes_keep_ids_unique Sample.db_resumed Sample.alice "p-kids"
              "p-alice" "m-sintel" 50 (ProfileCreate.mk "Kids" "default" "en" G)
              Sample.rename (ViewProgressUpdate.mk 60 false)
              (Sample.new_movie "fresh" "Fresh") (Sample.reslug "x"))
    as (Hcreate & _).
  - unfold unique_profile_ids. simpl. constructor; [intros []|constructor].
  - unfold unique_movie_ids. simpl.
    repeat (constructor; [simpl; intuition discriminate|]). constructor.
  - unfold unique_progress_ids. simpl. constructor; [intros []|constructor].
  - split.
    + apply Hcreate. simpl. intros [E|[]]. discriminate E.
    + destruct (routes_keep_ids_unique Sample.db_resumed Sample.alice "v-2"
                  "p-alice" "m-sintel" 300
                  (ProfileCreate.mk "Kids" "default" "en" G)
                  Sample.rename (ViewProgressUpdate.mk 60 false)
                  (Sample.new_movie "fresh" "Fresh") (Sample.reslug "x"))
        as (_ & _ & _ & _ & _ & Hview & _).
      * unfold unique_profile_ids. simpl. constructor; [intros []|constructor].
      * unfold unique_movie_ids. simpl.
        repeat (constructor; [simpl; intuition discriminate|]). constructor.
      * unfold unique_progress_ids. simpl. constructor; [intros []|constructor].
      * apply Hview. simpl. intros [E|[]]. discriminate E.
Defined.
